(** * CroxyProxy downloader (cpfrx_file.py, cpfrx_file_en.py): a shallow embedding

    The two program files are the same pipeline
    (get_csrf, get_real_url, download, unzip, __main__); the English one adds
    [try]/[except] blocks around some calls.  Python strings are lists of
    code points, exceptions are an explicit result type, the standard output
    and the file system are threaded through a small state monad, and every
    call that leaves the process (requests, the HTML parser, zipfile, the
    operating system) is a field of an environment record. *)

From Stdlib Require Import ZArith NArith Lia List Bool Ascii String.
From stdpp Require Import base option list gmap.

Local Open Scope N_scope.

(** ** Python strings *)

(** A [str] is a sequence of Unicode code points. *)
Abbreviation str := (list N).
Abbreviation bytes := (list Byte.byte).

(** The code points of an ASCII literal. *)
Definition cps (s : string) : str := map N_of_ascii (list_ascii_of_string s).

Definition dq : N := 34.        (* the double quote *)
Definition slash : N := 47.     (* / *)
Definition backslash : N := 92.
Definition gt_sign : N := 62.   (* > *)

Module Py.

(** [s.startswith(p)] *)
Fixpoint startswith (p s : str) : bool :=
  match p, s with
  | [], _ => true
  | a :: p', b :: s' => (a =? b) && startswith p' s'
  | _ :: _, [] => false
  end.

(** [a == b] *)
Fixpoint eqb (a b : str) : bool :=
  match a, b with
  | [], [] => true
  | x :: a', y :: b' => (x =? y) && eqb a' b'
  | _, _ => false
  end.

(** [s in l] for a list of strings [l] *)
Definition mem (s : str) (l : list str) : bool := existsb (eqb s) l.

(** [c in s] for a one-character [c] *)
Definition contains_char (c : N) (s : str) : bool := existsb (N.eqb c) s.

(** [s.find(c)] for a one-character [c]; [None] stands for -1. *)
Fixpoint find_char (c : N) (s : str) : option nat :=
  match s with
  | [] => None
  | x :: s' => if x =? c then Some 0%nat else S <$> find_char c s'
  end.

(** [s.find(c, start)] *)
Definition find_from (c : N) (start : nat) (s : str) : option nat :=
  (fun i => (start + i)%nat) <$> find_char c (drop start s).

(** [s.rfind(c)] *)
Fixpoint rfind_char (c : N) (s : str) : option nat :=
  match s with
  | [] => None
  | x :: s' =>
      match rfind_char c s' with
      | Some i => Some (S i)
      | None => if x =? c then Some 0%nat else None
      end
  end.

(** [s.split(c)] *)
Fixpoint split (c : N) (s : str) : list str :=
  match s with
  | [] => [[]]
  | x :: s' =>
      if x =? c then [] :: split c s'
      else match split c s' with
           | h :: t => (x :: h) :: t
           | [] => [[x]]
           end
  end.

(** [sep.join(l)] *)
Fixpoint join (sep : str) (l : list str) : str :=
  match l with
  | [] => []
  | [a] => a
  | a :: l' => a ++ sep ++ join sep l'
  end.

(** [a, b = s.split(c, 1)] when [c in s], and [(s, '')] otherwise. *)
Definition split_once (c : N) (s : str) : str * str :=
  match find_char c s with
  | Some i => (take i s, drop (S i) s)
  | None => (s, [])
  end.

(** The scan of [s.replace(old, new)] for a non-empty [old]: occurrences
    are found left to right and do not overlap; [skip] counts the
    characters of the occurrence just replaced that are still to be passed. *)
Fixpoint replace_scan (old new s : str) (skip : nat) : str :=
  match s with
  | [] => []
  | c :: s' =>
      match skip with
      | S n => replace_scan old new s' n
      | O => if startswith old s
             then new ++ replace_scan old new s' (length old - 1)
             else c :: replace_scan old new s' 0
      end
  end.

(** [s.replace(old, new)]; an empty [old] matches between all characters. *)
Definition replace (old new s : str) : str :=
  match old with
  | [] => new ++ flat_map (fun c => c :: new) s
  | _ :: _ => replace_scan old new s 0
  end.

(** [s.lstrip(chars)], [s.rstrip(chars)], [s.strip(chars)] *)
Fixpoint lstrip (chars s : str) : str :=
  match s with
  | c :: s' => if contains_char c chars then lstrip chars s' else s
  | [] => []
  end.
Definition rstrip (chars s : str) : str := rev (lstrip chars (rev s)).
Definition strip (chars s : str) : str := rstrip chars (lstrip chars s).

(** [str.isspace] on one code point; it is also what [\s] matches in a
    [str] pattern. *)
Definition isspace (c : N) : bool :=
  ((9 <=? c) && (c <=? 13)) || ((28 <=? c) && (c <=? 32))
  || (c =? 133) || (c =? 160) || (c =? 5760)
  || ((8192 <=? c) && (c <=? 8202)) || (c =? 8232) || (c =? 8233)
  || (c =? 8239) || (c =? 8287) || (c =? 12288).

(** leading white space removed, as [s.lstrip()] does *)
Fixpoint lstrip_space (s : str) : str :=
  match s with
  | c :: s' => if isspace c then lstrip_space s' else s
  | [] => []
  end.

End Py.

(** ** The fragment of [re] the program uses

    Literals, a greedy star over a character class, sequence, ordered
    alternation and the capturing group.  The matcher backtracks the way
    [re] does: a star first takes as many characters as it can and gives
    them back one at a time, an alternation tries its branches in order. *)

Module Re.

Inductive regex : Type :=
| Lit (l : str)
| Star (cls : N -> bool)
| Seq (r1 r2 : regex)
| Alt (r1 r2 : regex)
| Group (r : regex).

Fixpoint star_run {A} (cls : N -> bool) (k : str -> option A) (s : str)
  : option A :=
  match s with
  | c :: s' =>
      if cls c
      then match star_run cls k s' with
           | Some m => Some m
           | None => k s
           end
      else k s
  | [] => k []
  end.

(** [run r s g k]: match [r] at the head of [s], then continue with [k] on
    the rest; [g] is the text of group 1 so far. *)
Fixpoint run {A} (r : regex) (s : str) (g : option str)
    (k : str -> option str -> option A) : option A :=
  match r with
  | Lit l => if Py.startswith l s then k (drop (length l) s) g else None
  | Star cls => star_run cls (fun s' => k s' g) s
  | Seq r1 r2 => run r1 s g (fun s' g' => run r2 s' g' k)
  | Alt r1 r2 =>
      match run r1 s g k with
      | Some m => Some m
      | None => run r2 s g k
      end
  | Group r1 =>
      run r1 s g (fun s' _ => k s' (Some (take (length s - length s') s)))
  end.

(** [re.match(r, s)]: the match object is represented by its group 1
    ([None] inside when the group took no part). *)
Definition re_match (r : regex) (s : str) : option (option str) :=
  run r s None (fun _ g => Some g).

(** [re.search(r, s)]: the first start position, left to right, at which
    [r] matches. *)
Fixpoint search (r : regex) (s : str) : option (option str) :=
  match re_match r s with
  | Some m => Some m
  | None =>
      match s with
      | [] => None
      | _ :: s' => search r s'
      end
  end.

Definition not_char (c : N) : N -> bool := fun x => negb (x =? c).

End Re.

(** The three patterns of [get_real_url]; in the comments DQ stands for the
    double quote character and the group is set off by spaces. *)

(** [data-u=DQ ( [^DQ]* ) DQ] *)
Definition data_u_open : str := cps "data-u=" ++ [dq].
Definition rule_data_u : Re.regex :=
  Re.Seq (Re.Lit data_u_open)
    (Re.Seq (Re.Group (Re.Star (Re.not_char dq))) (Re.Lit [dq])).

(** [window\.location\.href\s*=\s*DQ ( [^DQ]* ) DQ] *)
Definition rule_location : Re.regex :=
  Re.Seq (Re.Lit (cps "window.location.href"))
    (Re.Seq (Re.Star Py.isspace)
       (Re.Seq (Re.Lit (cps "="))
          (Re.Seq (Re.Star Py.isspace)
             (Re.Seq (Re.Lit [dq])
                (Re.Seq (Re.Group (Re.Star (Re.not_char dq)))
                   (Re.Lit [dq])))))).

(** [<a[^>]*href=DQ ( /(?:stream|get|browser)/[^DQ]* ) DQ] *)
Definition rule_anchor : Re.regex :=
  Re.Seq (Re.Lit (cps "<a"))
    (Re.Seq (Re.Star (Re.not_char gt_sign))
       (Re.Seq (Re.Lit (cps "href=" ++ [dq]))
          (Re.Seq
             (Re.Group
                (Re.Seq (Re.Lit [slash])
                   (Re.Seq
                      (Re.Alt (Re.Lit (cps "stream"))
                         (Re.Alt (Re.Lit (cps "get")) (Re.Lit (cps "browser"))))
                      (Re.Seq (Re.Lit [slash]) (Re.Star (Re.not_char dq))))))
             (Re.Lit [dq])))).

(** ** Exceptions

    [exception] lists the classes below [Exception] that the program and its
    libraries raise; [SystemExit], which [sys.exit] raises and
    [except Exception] does not catch, is kept apart in [result]. *)

Inductive exception : Type :=
| RequestException (msg : str)
| TypeError (msg : str)
| KeyError (msg : str)
| ValueError (msg : str)
| AttributeError (msg : str)
| RuntimeError (msg : str)
| OSError (msg : str)
| BadZipFile (msg : str).

(** [str(e)] *)
Definition exc_str (e : exception) : str :=
  match e with
  | RequestException m | TypeError m | ValueError m | AttributeError m
  | RuntimeError m | OSError m | BadZipFile m => m
  | KeyError m => cps "'" ++ m ++ cps "'"
  end.

(** What a call into a library does: it returns or it raises. *)
Inductive outcome (A : Type) : Type :=
| Returns (a : A)
| Throws (e : exception).
Arguments Returns {A} a.
Arguments Throws {A} e.

(** ** urllib.parse (CPython 3.11, Lib/urllib/parse.py)

    [urljoin] and what it calls, for [str] arguments and
    [allow_fragments=True].  Two checks of [urlsplit] that only decide
    whether it raises are fields of [checks]: the validation of a bracketed
    host and the NFKC test of a non-ASCII netloc; each gives the message of
    the [ValueError] it raises, if any. *)

Module Urllib.

Record checks : Type := {
  check_bracketed_netloc : str -> option str;
  check_nfkc : str -> option str
}.

Definition uses_relative : list str :=
  [] :: map cps ["ftp"; "http"; "gopher"; "nntp"; "imap"; "wais"; "file";
    "https"; "shttp"; "mms"; "prospero"; "rtsp"; "rtspu"; "sftp"; "svn";
    "svn+ssh"; "ws"; "wss"]%string.

Definition uses_netloc : list str :=
  [] :: map cps ["ftp"; "http"; "gopher"; "nntp"; "telnet"; "imap"; "wais";
    "file"; "mms"; "https"; "shttp"; "snews"; "prospero"; "rtsp"; "rtspu";
    "rsync"; "svn"; "svn+ssh"; "sftp"; "nfs"; "git"; "git+ssh"; "ws";
    "wss"]%string.

Definition uses_params : list str :=
  [] :: map cps ["ftp"; "hdl"; "prospero"; "http"; "imap"; "https"; "shttp";
    "rtsp"; "rtspu"; "sip"; "sips"; "mms"; "sftp"; "tel"]%string.

Definition is_lower (c : N) : bool := (97 <=? c) && (c <=? 122).
Definition is_upper (c : N) : bool := (65 <=? c) && (c <=? 90).
Definition is_digit (c : N) : bool := (48 <=? c) && (c <=? 57).

(** [c in scheme_chars] *)
Definition scheme_char (c : N) : bool :=
  is_lower c || is_upper c || is_digit c || (c =? 43) || (c =? 45) || (c =? 46).

(** [c.isascii() and c.isalpha()] *)
Definition ascii_alpha (c : N) : bool := is_lower c || is_upper c.

(** [lower] on a string of scheme characters *)
Definition lower_char (c : N) : N := if is_upper c then c + 32 else c.

(** [_WHATWG_C0_CONTROL_OR_SPACE] *)
Definition c0_control_or_space : str := map N.of_nat (seq 0 33).

(** the loop over [_UNSAFE_URL_BYTES_TO_REMOVE] *)
Definition remove_unsafe (s : str) : str :=
  Py.replace [10] [] (Py.replace [13] [] (Py.replace [9] [] s)).

Record SplitResult : Type := {
  sr_scheme : str; sr_netloc : str; sr_path : str;
  sr_query : str; sr_fragment : str
}.

Record ParseResult : Type := {
  scheme : str; netloc : str; path : str;
  params : str; query : str; fragment : str
}.

(** [_splitnetloc(url, start)] *)
Definition splitnetloc (url : str) (start : nat) : str * str :=
  let delim :=
    fold_left
      (fun delim c =>
         match Py.find_from c start url with
         | Some wdelim => Nat.min delim wdelim
         | None => delim
         end)
      (cps "/?#") (length url) in
  (drop start (take delim url), drop delim url).

(** [_checknetloc(netloc)] *)
Definition checknetloc (ck : checks) (netloc : str) : option str :=
  match netloc with
  | [] => None
  | _ => if forallb (fun c => c <? 128) netloc then None
         else check_nfkc ck netloc
  end.

(** the scheme test at the head of [urlsplit] *)
Definition split_scheme (url scheme : str) : str * str :=
  match Py.find_char 58 url with
  | Some (S i) =>
      if ascii_alpha (hd 0 url) && forallb scheme_char (take (S i) url)
      then (map lower_char (take (S i) url), drop (S (S i)) url)
      else (scheme, url)
  | _ => (scheme, url)
  end.

(** the rest of [urlsplit], from the netloc on *)
Definition urlsplit_tail (ck : checks) (scheme url : str)
    : outcome SplitResult :=
  let located :=
    if Py.startswith [slash; slash] url then
      let '(netloc, url) := splitnetloc url 2 in
      let lb := Py.contains_char 91 netloc in
      let rb := Py.contains_char 93 netloc in
      if (lb && negb rb) || (rb && negb lb)
      then Throws (ValueError (cps "Invalid IPv6 URL"))
      else if lb && rb then
        match check_bracketed_netloc ck netloc with
        | Some msg => Throws (ValueError msg)
        | None => Returns (netloc, url)
        end
      else Returns (netloc, url)
    else Returns ([], url) in
  match located with
  | Throws e => Throws e
  | Returns (netloc, url) =>
      let '(url, fragment) := Py.split_once 35 url in
      let '(url, query) := Py.split_once 63 url in
      match checknetloc ck netloc with
      | Some msg => Throws (ValueError msg)
      | None =>
          Returns {| sr_scheme := scheme; sr_netloc := netloc;
                     sr_path := url; sr_query := query;
                     sr_fragment := fragment |}
      end
  end.

Definition urlsplit (ck : checks) (url scheme : str) : outcome SplitResult :=
  let url := Py.lstrip c0_control_or_space url in
  let scheme := Py.strip c0_control_or_space scheme in
  let url := remove_unsafe url in
  let scheme := remove_unsafe scheme in
  let '(scheme, url) := split_scheme url scheme in
  urlsplit_tail ck scheme url.

(** [_splitparams(url)] *)
Definition splitparams (url : str) : str * str :=
  let cut (i : option nat) :=
    match i with
    | Some i => (take i url, drop (S i) url)
    | None => (removelast url, url)      (* the slices at -1 *)
    end in
  match Py.rfind_char slash url with
  | Some k =>
      match Py.find_from 59 k url with
      | None => (url, [])
      | Some i => cut (Some i)
      end
  | None => cut (Py.find_char 59 url)
  end.

Definition urlparse (ck : checks) (url scheme : str) : outcome ParseResult :=
  match urlsplit ck url scheme with
  | Throws e => Throws e
  | Returns r =>
      let '(url, params) :=
        if Py.mem (sr_scheme r) uses_params && Py.contains_char 59 (sr_path r)
        then splitparams (sr_path r)
        else (sr_path r, []) in
      Returns {| scheme := sr_scheme r; netloc := sr_netloc r; path := url;
                 params := params; query := sr_query r;
                 fragment := sr_fragment r |}
  end.

Definition nonempty (s : str) : bool :=
  match s with [] => false | _ => true end.

Definition urlunsplit (scheme netloc url query fragment : str) : str :=
  let url :=
    if nonempty netloc
       || (nonempty scheme && Py.mem scheme uses_netloc
           && negb (Py.eqb (take 2 url) [slash; slash]))
    then
      let url :=
        if nonempty url && negb (Py.eqb (take 1 url) [slash])
        then slash :: url else url in
      [slash; slash] ++ netloc ++ url
    else url in
  let url := if nonempty scheme then scheme ++ [58] ++ url else url in
  let url := if nonempty query then url ++ [63] ++ query else url in
  if nonempty fragment then url ++ [35] ++ fragment else url.

Definition urlunparse (p : ParseResult) : str :=
  let url :=
    if nonempty (params p) then path p ++ [59] ++ params p else path p in
  urlunsplit (scheme p) (netloc p) url (query p) (fragment p).

(** [segments[1:-1] = filter(None, segments[1:-1])] *)
Definition filter_middle (segments : list str) : list str :=
  match segments with
  | first :: (_ :: _) as rest =>
      first :: List.filter nonempty (removelast rest) ++ [List.last rest []]
  | _ => segments
  end.

(** the loop that resolves [.] and [..] *)
Definition resolve_step (resolved_path : list str) (seg : str) : list str :=
  if Py.eqb seg (cps "..") then removelast resolved_path
  else if Py.eqb seg (cps ".") then resolved_path
  else resolved_path ++ [seg].

Definition urljoin (ck : checks) (base url : str) : outcome str :=
  match base, url with
  | [], _ => Returns url
  | _, [] => Returns base
  | _, _ =>
      match urlparse ck base [] with
      | Throws e => Throws e
      | Returns b =>
          match urlparse ck url (scheme b) with
          | Throws e => Throws e
          | Returns u =>
              if negb (Py.eqb (scheme u) (scheme b))
                 || negb (Py.mem (scheme u) uses_relative)
              then Returns url
              else if Py.mem (scheme u) uses_netloc && nonempty (netloc u)
              then Returns (urlunparse u)
              else
                let netloc' :=
                  if Py.mem (scheme u) uses_netloc then netloc b
                  else netloc u in
                if negb (nonempty (path u)) && negb (nonempty (params u))
                then
                  Returns (urlunparse
                    {| scheme := scheme u; netloc := netloc';
                       path := path b; params := params b;
                       query := if nonempty (query u) then query u
                                else query b;
                       fragment := fragment u |})
                else
                  let base_parts := Py.split slash (path b) in
                  let base_parts :=
                    if nonempty (List.last base_parts [])
                    then removelast base_parts else base_parts in
                  let segments :=
                    if Py.eqb (take 1 (path u)) [slash]
                    then Py.split slash (path u)
                    else filter_middle
                           (base_parts ++ Py.split slash (path u)) in
                  let resolved_path := fold_left resolve_step segments [] in
                  let resolved_path :=
                    if Py.mem (List.last segments []) [cps "."; cps ".."]
                    then resolved_path ++ [[]] else resolved_path in
                  let joined := Py.join [slash] resolved_path in
                  Returns (urlunparse
                    {| scheme := scheme u; netloc := netloc';
                       path := if nonempty joined then joined else [slash];
                       params := params u; query := query u;
                       fragment := fragment u |})
          end
      end
  end.

End Urllib.

(** ** bs4: the parsed document and [find] *)

Module Bs4.

#[warnings="-register-all"]
Inductive node : Type :=
| Tag (name : str) (attrs : gmap str str) (contents : list node)
| NavigableString (s : str).

(** does a tag match [find(name, {key: value})]? *)
Definition tag_matches (name key value : str) (n : node) : bool :=
  match n with
  | Tag t a _ =>
      Py.eqb t name
      && match a !! key with
         | Some v => Py.eqb v value
         | None => false
         end
  | NavigableString _ => false
  end.

(** [find]: the first matching tag among the descendants, in document
    order; [None] when there is none. *)
Fixpoint find_node (name key value : str) (n : node) : option node :=
  if tag_matches name key value n then Some n
  else
    match n with
    | Tag _ _ cs =>
        (fix find_list (l : list node) : option node :=
           match l with
           | [] => None
           | c :: l' =>
               match find_node name key value c with
               | Some r => Some r
               | None => find_list l'
               end
           end) cs
    | NavigableString _ => None
    end.

Fixpoint find (name key value : str) (soup : list node) : option node :=
  match soup with
  | [] => None
  | c :: l' =>
      match find_node name key value c with
      | Some r => Some r
      | None => find name key value l'
      end
  end.

(** [tag[key]] *)
Definition getitem (n : node) (key : str) : outcome str :=
  match n with
  | Tag _ a _ =>
      match a !! key with
      | Some v => Returns v
      | None => Throws (KeyError key)
      end
  | NavigableString _ =>
      Throws (TypeError (cps "string indices must be integers"))
  end.

End Bs4.

(** ** Numbers as text *)

Local Open Scope Z_scope.

Fixpoint digits_of (fuel : nat) (n : N) (acc : str) : str :=
  match fuel with
  | O => acc
  | S f =>
      let acc' := (48 + n mod 10)%N :: acc in
      if (n <? 10)%N then acc' else digits_of f (n / 10)%N acc'
  end.

(** [str(n)] for a natural number *)
Definition str_of_N (n : N) : str := digits_of (S (N.to_nat (N.log2 n))) n [].

(** [str(z)] *)
Definition str_of_Z (z : Z) : str :=
  if z <? 0 then 45%N :: str_of_N (Z.abs_N z) else str_of_N (Z.abs_N z).

Fixpoint commas (k : nat) (rs : str) : str :=
  match rs with
  | [] => []
  | d :: rs' =>
      match k with
      | 3%nat => 44%N :: d :: commas 1 rs'
      | _ => d :: commas (S k) rs'
      end
  end.

(** [f"{z:,}"] *)
Definition format_commas (z : Z) : str :=
  let body := rev (commas 0 (rev (str_of_N (Z.abs_N z)))) in
  if z <? 0 then 45%N :: body else body.

(** the digits of [int(s)]: digits with single underscores between them *)
Fixpoint int_digits (s : str) (acc : Z) (after_digit : bool) : option Z :=
  match s with
  | [] => if after_digit then Some acc else None
  | c :: s' =>
      if Urllib.is_digit c
      then int_digits s' (10 * acc + (Z.of_N c - 48)) true
      else if (c =? 95)%N && after_digit then int_digits s' acc false
      else None
  end.

(** [int(s)] for a string: white space around, a sign, digits.  [int] also
    reads the decimal digits of other scripts; a header value, decoded as
    Latin-1, holds none, and they are left out. *)
Definition py_int (s : str) : outcome Z :=
  let t := rev (Py.lstrip_space (rev (Py.lstrip_space s))) in
  let r :=
    match t with
    | 45%N :: t' => Z.opp <$> int_digits t' 0 false
    | 43%N :: t' => int_digits t' 0 false
    | _ => int_digits t 0 false
    end in
  match r with
  | Some z => Returns z
  | None =>
      Throws (ValueError
        (cps "invalid literal for int() with base 10: '" ++ s ++ cps "'"))
  end.

(** ** The process: standard output, files, exceptions *)

Record state : Type := {
  stdout : list str;            (* what [print] wrote, one entry per call *)
  files : gmap str bytes        (* the files written, by path *)
}.

(** How a computation ends: with a value, with an exception below
    [Exception], or with the [SystemExit] of [sys.exit(code)]. *)
Inductive result (A : Type) : Type :=
| Ok (a : A)
| Raise (e : exception)
| Exit (code : Z).
Arguments Ok {A} a.
Arguments Raise {A} e.
Arguments Exit {A} code.

Definition M (A : Type) : Type := state -> result A * state.

Definition ret {A} (a : A) : M A := fun st => (Ok a, st).

Definition bind {A B} (m : M A) (f : A -> M B) : M B :=
  fun st =>
    match m st with
    | (Ok a, st') => f a st'
    | (Raise e, st') => (Raise e, st')
    | (Exit c, st') => (Exit c, st')
    end.

Declare Scope py_scope.
Delimit Scope py_scope with py.
Notation "'let*' x ':=' m 'in' k" := (bind m (fun x => k))
  (at level 10, x name, m at level 100, k at level 200) : py_scope.
Notation "m ;; k" := (bind m (fun _ => k))
  (at level 100, k at level 200, right associativity) : py_scope.
Local Open Scope py_scope.

Definition raise {A} (e : exception) : M A := fun st => (Raise e, st).

(** [sys.exit(code)] *)
Definition sys_exit {A} (code : Z) : M A := fun st => (Exit code, st).

(** a library call *)
Definition call {A} (o : outcome A) : M A :=
  match o with
  | Returns a => ret a
  | Throws e => raise e
  end.

(** [print(text, end='')]: [text] is everything the call writes. *)
Definition print (text : str) : M unit :=
  fun st => (Ok tt, {| stdout := stdout st ++ [text]; files := files st |}).

(** [try: m  except <class> as e: handler(e)], the class given by [catches];
    [SystemExit] passes through every handler of the program. *)
Definition try_except {A} (m : M A) (catches : exception -> bool)
    (handler : exception -> M A) : M A :=
  fun st =>
    match m st with
    | (Raise e, st') => if catches e then handler e st' else (Raise e, st')
    | r => r
    end.

Definition is_Exception (e : exception) : bool := true.
Definition is_RequestException (e : exception) : bool :=
  match e with RequestException _ => true | _ => false end.
Definition is_BadZipFile (e : exception) : bool :=
  match e with BadZipFile _ => true | _ => false end.


(** ** requests and the rest of the environment *)

Module Requests.

Record Response : Type := {
  status_code : Z;
  reason : str;
  url : str;
  text : str;
  headers : gmap str str;          (* case-insensitive: keys in lower case *)
  iter_content : list bytes;       (* the chunks [iter_content] yields *)
  iter_error : option str          (* the [RequestException] it ends with *)
}.

(** [resp.raise_for_status()] *)
Definition raise_for_status (resp : Response) : outcome unit :=
  if (400 <=? status_code resp) && (status_code resp <? 500)
  then Throws (RequestException
         (str_of_Z (status_code resp) ++ cps " Client Error: " ++ reason resp
          ++ cps " for url: " ++ url resp))
  else if (500 <=? status_code resp) && (status_code resp <? 600)
  then Throws (RequestException
         (str_of_Z (status_code resp) ++ cps " Server Error: " ++ reason resp
          ++ cps " for url: " ++ url resp))
  else Returns tt.

End Requests.
Abbreviation Response := Requests.Response.

Record env : Type := {
  (* SESSION.get(INDEX, timeout=10) *)
  session_get_index : outcome Response;
  (* SESSION.post(url, data={url: target, csrf: csrf}, ...) *)
  session_post : str -> str -> str -> outcome Response;
  (* SESSION.send(resp.next, allow_redirects=True) *)
  session_send_next : Response -> outcome Response;
  (* SESSION.head(url, allow_redirects=True) *)
  session_head : str -> outcome Response;
  (* SESSION.get(url, stream=True) *)
  session_get_stream : str -> outcome Response;
  (* BeautifulSoup(text, "html.parser") *)
  html_parser : str -> list Bs4.node;
  url_checks : Urllib.checks;
  (* str(Path(p)) and str(Path(p) / name) *)
  path_str : str -> str;
  path_child : str -> str -> str;
  (* Path(p).mkdir(parents=True, exist_ok=True) *)
  mkdir : str -> outcome unit;
  (* open(path, "wb") *)
  open_wb : str -> outcome unit;
  (* zipfile.ZipFile(path, 'r') on the contents of the file: the message of
     the BadZipFile it raises, if any *)
  ZipFile_rejects : bytes -> option str;
  (* zip_ref.extractall(dest) on the files *)
  extractall : bytes -> str -> gmap str bytes -> outcome unit * gmap str bytes
}.

Definition INDEX : str := cps "https://www.a.cpfrx.info".

(** ** The link extraction of [get_real_url]

    The three [if m := re.search(...)] statements and the final [raise];
    [resp_url] is [resp.url], [html] is [resp.text], and [no_link] the
    message of the [RuntimeError], which differs between the two files. *)

(** [m.group(1)] *)
Definition group1 (m : option str) : outcome str :=
  match m with
  | Some g => Returns g
  | None => Throws (AttributeError
              (cps "'NoneType' object has no attribute 'replace'"))
  end.

Definition unescape_slash (s : str) : str :=
  Py.replace [backslash; slash] [slash] s.

Definition clean_data_u (g : str) : str :=
  Py.strip [dq] (Py.replace (cps "&quot;") [] (unescape_slash g)).

Definition extract_link (ck : Urllib.checks) (no_link : str)
    (resp_url html : str) : outcome str :=
  match Re.search rule_data_u html with
  | Some m =>
      match group1 m with
      | Returns g => Returns (clean_data_u g)
      | Throws e => Throws e
      end
  | None =>
      match Re.search rule_location html with
      | Some m =>
          match group1 m with
          | Returns g => Urllib.urljoin ck resp_url (unescape_slash g)
          | Throws e => Throws e
          end
      | None =>
          match Re.search rule_anchor html with
          | Some m =>
              match m with
              | Some g => Urllib.urljoin ck resp_url g
              | None => Urllib.urljoin ck resp_url []   (* urljoin(base, None) *)
              end
          | None => Throws (RuntimeError no_link)
          end
      end
  end.

(** ** Parts shared by the two files *)

(** [int(r.headers.get("content-length", 0))] *)
Definition content_length (r : Response) : outcome Z :=
  match Requests.headers r !! cps "content-length" with
  | Some v => py_int v
  | None => Returns 0
  end.

(** [f"\r{done:,}/{total:,}  {percent}%"] with [percent = done * 100 // total] *)
Definition progress_line (done total : Z) : str :=
  [13%N] ++ format_commas done ++ [slash] ++ format_commas total
  ++ cps "  " ++ str_of_Z (done * 100 / total) ++ cps "%".

(** [f.write(chunk)] on the file opened at [file] *)
Definition f_write (file : str) (chunk : bytes) : M unit :=
  fun st =>
    (Ok tt,
     {| stdout := stdout st;
        files := <[file := default [] (files st !! file) ++ chunk]> (files st) |}).

(** [open(file, "wb")]: the file is created or emptied. *)
Definition f_open_wb (e : env) (file : str) : M unit :=
  call (open_wb e file) ;;
  fun st => (Ok tt, {| stdout := stdout st; files := <[file := []]> (files st) |}).

(** One turn of [for chunk in r.iter_content(...)], from [done] to the new
    [done]. *)
Definition download_chunk (file : str) (total done : Z) (chunk : bytes) : M Z :=
  match chunk with
  | [] => ret done                                   (* continue *)
  | _ =>
      f_write file chunk ;;
      let done := done + Z.of_nat (length chunk) in
      (if total =? 0 then ret tt else print (progress_line done total)) ;;
      ret done
  end.

Fixpoint download_chunks (file : str) (total : Z) (chunks : list bytes)
    (done : Z) : M Z :=
  match chunks with
  | [] => ret done
  | chunk :: rest =>
      let* done' := download_chunk file total done chunk in
      download_chunks file total rest done'
  end.

(** The [with SESSION.get(real, stream=True) as r:] block of [download];
    [completed] is the text of the closing [print]. *)
Definition download_stream (e : env) (completed : str) (real save_path : str)
    : M unit :=
  let* r := call (session_get_stream e real) in
  call (Requests.raise_for_status r) ;;
  let* total := call (content_length r) in
  call (mkdir e save_path) ;;
  let file := path_child e save_path (cps "downloaded_file.zip") in
  f_open_wb e file ;;
  download_chunks file total (Requests.iter_content r) 0 ;;
  match Requests.iter_error r with
  | Some msg => raise (RequestException msg)
  | None => print ([10%N] ++ completed ++ path_str e save_path ++ [10%N])
  end.

(** The [with zipfile.ZipFile(downloaded_file, 'r') as zip_ref:] block of
    [unzip]. *)
Definition unzip_archive (e : env) (save_dir : str) : M unit :=
  let downloaded_file := path_child e save_dir (cps "downloaded_file.zip") in
  fun st =>
    match files st !! downloaded_file with
    | None => (Raise (OSError (cps "No such file or directory")), st)
    | Some data =>
        match ZipFile_rejects e data with
        | Some msg => (Raise (BadZipFile msg), st)
        | None =>
            let '(o, fs) := extractall e data save_dir (files st) in
            let st' := {| stdout := stdout st; files := fs |} in
            match o with
            | Returns _ => (Ok tt, st')
            | Throws ex => (Raise ex, st')
            end
        end
    end.

(** [soup.find("input", {"name": "csrf"})["value"]] *)
Definition csrf_value (soup : list Bs4.node) : outcome str :=
  match Bs4.find (cps "input") (cps "name") (cps "csrf") soup with
  | Some tag => Bs4.getitem tag (cps "value")
  | None => Throws (TypeError (cps "'NoneType' object is not subscriptable"))
  end.

(** the POST of [get_real_url], the redirect it follows, and the extraction *)
Definition submit_and_extract (e : env) (no_link : str) (target csrf : str)
    : M str :=
  let* resp := call (session_post e (INDEX ++ cps "/servers") target csrf) in
  let* resp := (if (Requests.status_code resp =? 301)
              || (Requests.status_code resp =? 302)
           then call (session_send_next e resp)
           else ret resp) in
  let html := Requests.text resp in
  call (extract_link (url_checks e) no_link (Requests.url resp) html).

(** ** cpfrx_file.py *)

Module cpfrx_file.

Definition no_link : str :=
  [26080; 27861; 25552; 21462; 30452; 38142; 65292; 21487; 33021; 39029;
   38754; 32467; 26500; 21464; 21270]%N.
Definition final_link : str := [26368; 32456; 30452; 38142; 65306]%N.
Definition completed : str := [23436; 25104; 32; 8594; 32]%N.
Definition unzipped : str := [35299; 21387; 23436; 25104; 32; 8594; 32]%N.
Definition usage : str :=
  [29992; 27861]%N ++ cps ": python cpfrx_downloader.py <"
  ++ [30446; 26631]%N ++ cps "URL> <"
  ++ [26412; 22320; 20445; 23384; 36335; 24452]%N ++ cps ">".
Definition failed : str := [22833; 36133; 65306]%N.

Definition get_csrf (e : env) : M str :=
  let* resp := call (session_get_index e) in
  call (Requests.raise_for_status resp) ;;
  let soup := html_parser e (Requests.text resp) in
  call (csrf_value soup).

Definition get_real_url (e : env) (target : str) : M str :=
  let* csrf := get_csrf e in
  submit_and_extract e no_link target csrf.

Definition download (e : env) (url save_path : str) : M unit :=
  let* real := get_real_url e url in
  let* r0 := call (session_head e real) in
  let real := Requests.url r0 in
  print (final_link ++ cps " " ++ real ++ [10%N]) ;;
  download_stream e completed real save_path.

Definition unzip (e : env) (save_dir : str) : M unit :=
  unzip_archive e save_dir ;;
  print ([10%N] ++ unzipped ++ save_dir ++ [10%N]).

(** the [if __name__ == "__main__":] block, [argv] being [sys.argv] *)
Definition main (e : env) (argv : list str) : M unit :=
  match argv with
  | [_; target; local] =>
      try_except (download e target local ;; unzip e local) is_Exception
        (fun ex =>
           print (failed ++ cps " " ++ exc_str ex ++ [10%N]) ;;
           sys_exit 2)
  | _ => print (usage ++ [10%N]) ;; sys_exit 1
  end.

End cpfrx_file.

(** ** cpfrx_file_en.py *)

Module cpfrx_file_en.

Definition no_link : str :=
  cps "Failed to extract direct link, possible page structure change".

Definition get_csrf (e : env) : M str :=
  try_except
    (let* resp := call (session_get_index e) in
     call (Requests.raise_for_status resp) ;;
     let soup := html_parser e (Requests.text resp) in
     call (csrf_value soup))
    is_RequestException
    (fun ex =>
       print (cps "Failed to retrieve CSRF token: " ++ exc_str ex ++ [10%N]) ;;
       sys_exit 1).

Definition get_real_url (e : env) (target : str) : M str :=
  let* csrf := get_csrf e in
  try_except (submit_and_extract e no_link target csrf)
    is_RequestException
    (fun ex =>
       raise (RuntimeError
                (cps "Failed to extract direct link: " ++ exc_str ex))).

Definition download (e : env) (url save_path : str) : M unit :=
  let* real := get_real_url e url in
  let* r0 := call (session_head e real) in
  let real := Requests.url r0 in
  print (cps "Final direct link: " ++ real ++ [10%N]) ;;
  try_except
    (download_stream e (cps "Completed " ++ [8594; 32]%N) real save_path)
    is_RequestException
    (fun ex =>
       print (cps "Failed to download: " ++ exc_str ex ++ [10%N]) ;;
       sys_exit 1).

Definition unzip (e : env) (save_dir : str) : M unit :=
  try_except
    (unzip_archive e save_dir ;;
     print ([10%N] ++ cps "Unzipped " ++ [8594; 32]%N ++ save_dir ++ [10%N]))
    is_BadZipFile
    (fun ex =>
       print (cps "Failed to unzip: " ++ exc_str ex ++ [10%N]) ;;
       sys_exit 1).

Definition main (e : env) (argv : list str) : M unit :=
  match argv with
  | [_; target; local] =>
      try_except (download e target local ;; unzip e local) is_Exception
        (fun ex =>
           print (cps "Failed: " ++ exc_str ex ++ [10%N]) ;;
           sys_exit 2)
  | _ =>
      print (cps "Usage: python cpfrx_downloader.py <Target URL> <Local save path>"
             ++ [10%N]) ;;
      sys_exit 1
  end.

End cpfrx_file_en.

(** ** Vocabulary of the statements *)

(** The longest prefix of [s] inside a class and what follows it. *)
Fixpoint span_take (cls : N -> bool) (s : str) : str :=
  match s with
  | c :: s' => if cls c then c :: span_take cls s' else []
  | [] => []
  end.

Fixpoint span_drop (cls : N -> bool) (s : str) : str :=
  match s with
  | c :: s' => if cls c then span_drop cls s' else s
  | [] => []
  end.

(** What a match of each rule looks like: [t] begins with text of the rule's
    form, and [g] is the text of its group. *)

(** data-u=DQ X DQ, with no double quote in X *)
Definition data_u_shape (t X : str) : Prop :=
  exists post, t = data_u_open ++ X ++ dq :: post /\ dq ∉ X.

(** window.location.href = DQ Y DQ, with any white space around the equals
    sign *)
Definition location_shape (t Y : str) : Prop :=
  exists ws1 ws2 post,
    t = cps "window.location.href" ++ ws1 ++ cps "=" ++ ws2
        ++ dq :: Y ++ dq :: post
    /\ forallb Py.isspace ws1 = true /\ forallb Py.isspace ws2 = true
    /\ dq ∉ Y.

(** an [<a ... href=DQ H DQ] whose [H] begins with /stream/, /get/ or
    /browser/; no [>] between the [<a] and the [href] *)
Definition anchor_shape (t H : str) : Prop :=
  exists mid kind rest post,
    t = cps "<a" ++ mid ++ (cps "href=" ++ [dq]) ++ H ++ dq :: post
    /\ (gt_sign ∉ mid)
    /\ H = [slash] ++ kind ++ [slash] ++ rest
    /\ kind ∈ [cps "stream"; cps "get"; cps "browser"]
    /\ dq ∉ rest.

(** [html] holds an instance of the shape right after [pre]. *)
Definition occurs (shape : str -> str -> Prop) (html pre g : str) : Prop :=
  exists t, html = pre ++ t /\ shape t g.

Definition present (shape : str -> str -> Prop) (html : str) : Prop :=
  exists pre g, occurs shape html pre g.

(** ... and no instance starts further left. *)
Definition leftmost (shape : str -> str -> Prop) (html pre g : str) : Prop :=
  occurs shape html pre g
  /\ forall pre' g', occurs shape html pre' g' -> (length pre <= length pre')%nat.

(** The texts a pattern matches, without regard to order or greed. *)
Fixpoint lang (r : Re.regex) (u : str) : Prop :=
  match r with
  | Re.Lit l => u = l
  | Re.Star cls => forallb cls u = true
  | Re.Seq r1 r2 => exists u1 u2, u = u1 ++ u2 /\ lang r1 u1 /\ lang r2 u2
  | Re.Alt r1 r2 => lang r1 u \/ lang r2 u
  | Re.Group r1 => lang r1 u
  end.

(** How a library outcome ends a computation. *)
Definition ended {A} (o : outcome A) : result A :=
  match o with
  | Returns a => Ok a
  | Throws ex => Raise ex
  end.

(** The response [get_real_url] works on: the answer to the POST, or the
    answer to the redirect it follows. *)
Definition working_response (e : env) (target csrf : str) : outcome Response :=
  match session_post e (INDEX ++ cps "/servers") target csrf with
  | Throws ex => Throws ex
  | Returns resp =>
      if (Requests.status_code resp =? 301) || (Requests.status_code resp =? 302)
      then session_send_next e resp
      else Returns resp
  end.

(** [get_real_url e target], started in [st], reaches its three rules with
    the working response [resp]. *)
Definition reaches_rules (e : env) (target : str) (st : state)
    (resp : Response) : Prop :=
  exists csrf,
    cpfrx_file.get_csrf e st = (Ok csrf, st)
    /\ working_response e target csrf = Returns resp.

(** [s] with every backslash-slash pair replaced by a slash, read left to
    right: the spec's unescaping, defined without [replace]. *)
Fixpoint slashes_unescaped (s : str) : str :=
  match s with
  | [] => []
  | c :: t =>
      match t with
      | d :: u =>
          if ((c =? backslash) && (d =? slash))%N
          then slash :: slashes_unescaped u
          else c :: slashes_unescaped t
      | [] => [c]
      end
  end.

(** A response with status 200 and the given URL and body. *)
Definition page (u body : str) : Response :=
  {| Requests.status_code := 200; Requests.reason := cps "OK";
     Requests.url := u; Requests.text := body; Requests.headers := ∅;
     Requests.iter_content := []; Requests.iter_error := None |}.

(** An environment in which every call succeeds: the landing page carries
    the token [tok], the gateway answers the POST with [body] at [at_url],
    the file host sends [file] (headers and chunks), and the zip library
    accepts the file and extracts nothing. *)
Definition calm_env (at_url body : str) (file : Response) : env :=
  {| session_get_index := Returns (page INDEX []);
     session_post := fun _ _ _ => Returns (page at_url body);
     session_send_next := fun r => Returns r;
     session_head := fun u => Returns (page u []);
     session_get_stream := fun _ => Returns file;
     html_parser := fun _ =>
       [Bs4.Tag (cps "input")
          (<[cps "name" := cps "csrf"]> (<[cps "value" := cps "tok"]> ∅)) []];
     url_checks := {| Urllib.check_bracketed_netloc := fun _ => None;
                      Urllib.check_nfkc := fun _ => None |};
     path_str := fun p => p;
     path_child := fun p name => p ++ [slash] ++ name;
     mkdir := fun _ => Returns tt;
     open_wb := fun _ => Returns tt;
     ZipFile_rejects := fun _ => None;
     extractall := fun _ _ fs => (Returns tt, fs) |}.

Definition st0 : state := {| stdout := []; files := ∅ |}.

(** Bodies used to exercise the rules. *)
Definition cdn_escaped : str := cps "https:\/\/cdn.example.com\/get\/abc".
Definition cdn_link : str := cps "https://cdn.example.com/get/abc".

(** a data-u attribute followed by a location assignment and an anchor *)
Definition body_all_rules : str :=
  data_u_open ++ cdn_escaped ++ [dq]
  ++ cps "<script>window.location.href = " ++ [dq] ++ cps "/go" ++ [dq]
  ++ cps "</script><a href=" ++ [dq] ++ cps "/get/xyz" ++ [dq] ++ cps ">".


(** a body with none of the three *)
Definition body_plain : str := cps "<html><body>moved</body></html>".

Definition gateway_url : str := cps "https://www.a.cpfrx.info/servers".
Definition target_iso : str := cps "https://example.com/file.iso".

(** [u] parses as a URL with the scheme and the authority given, neither
    of them empty. *)
Definition absolute_url (ck : Urllib.checks) (u scheme netloc : str) : Prop :=
  exists r,
    Urllib.urlsplit ck u [] = Returns r
    /\ Urllib.sr_scheme r = scheme /\ Urllib.sr_netloc r = netloc
    /\ scheme <> [] /\ netloc <> [].

(** [u] parses as a relative reference: it has no scheme of its own; its
    authority, empty unless [u] begins with two slashes, is [netloc]. *)
Definition relative_ref (ck : Urllib.checks) (u netloc : str) : Prop :=
  exists r,
    Urllib.urlsplit ck u [] = Returns r
    /\ Urllib.sr_scheme r = [] /\ Urllib.sr_netloc r = netloc.

(** a location assignment with an escaped relative target, then an anchor *)
Definition body_location : str :=
  cps "window.location.href = " ++ [dq] ++ cps "\/go\/file.iso" ++ [dq]
  ++ cps ";<a href=" ++ [dq] ++ cps "/get/xyz" ++ [dq] ++ cps ">".

(** What the loop of [download] prints, from [done] on: a line for every
    chunk that is not empty, when [total] is not zero. *)
Fixpoint progress_lines (total done : Z) (chunks : list bytes) : list str :=
  match chunks with
  | [] => []
  | [] :: rest => progress_lines total done rest
  | chunk :: rest =>
      let done' := done + Z.of_nat (length chunk) in
      (if total =? 0 then [] else [progress_line done' total])
      ++ progress_lines total done' rest
  end.

Definition nonempty_chunk (chunk : bytes) : bool :=
  match chunk with [] => false | _ => true end.

(** three bytes in two chunks, with an empty chunk between them *)
Definition three_bytes : list bytes :=
  [[Byte.x50; Byte.x4b]; []; [Byte.x03]].

(** the file host's answer: the chunks, and the content-length header when
    one is given *)
Definition file_response (content_length : option str) (chunks : list bytes)
    : Response :=
  {| Requests.status_code := 200; Requests.reason := cps "OK";
     Requests.url := cps "https://cdn.example.com/stream/abc123";
     Requests.text := [];
     Requests.headers :=
       match content_length with
       | Some v => <[cps "content-length" := v]> ∅
       | None => ∅
       end;
     Requests.iter_content := chunks; Requests.iter_error := None |}.

(** [m] leaves through [sys.exit] only with a code in [codes]. *)
Definition exits_within {A} (codes : Z -> Prop) (m : M A) : Prop :=
  forall st code st', m st = (Exit code, st') -> codes code.

(** the [try] block of the main program *)
Definition pipeline (download : env -> str -> str -> M unit)
    (unzip : env -> str -> M unit) (e : env) (target local : str) : M unit :=
  download e target local ;; unzip e local.


(** [calm_env] with a download that is not a zip file *)
Definition not_zip_env (msg : str) : env :=
  let e := calm_env gateway_url body_all_rules
             (file_response None three_bytes) in
  {| session_get_index := session_get_index e;
     session_post := session_post e;
     session_send_next := session_send_next e;
     session_head := session_head e;
     session_get_stream := session_get_stream e;
     html_parser := html_parser e;
     url_checks := url_checks e;
     path_str := path_str e;
     path_child := path_child e;
     mkdir := mkdir e;
     open_wb := open_wb e;
     ZipFile_rejects := fun _ => Some msg;
     extractall := extractall e |}.

Definition argv_demo : list str :=
  [cps "cpfrx_downloader.py"; target_iso; cps "out"].






(** ** Auxiliary notions of the proofs about urllib.parse *)

Definition safe_char (c : N) : bool :=
  (negb (c =? 9) && (negb (c =? 13) && negb (c =? 10)))%N.

Definition delimiter (c : N) : bool := ((c =? 47) || (c =? 63) || (c =? 35))%N.

(** A well-formed scheme: what [urlsplit] finds before the colon. *)
Definition scheme_ok (sch : str) : Prop :=
  sch <> [] /\ Urllib.ascii_alpha (hd 0%N sch) = true
  /\ forallb Urllib.scheme_char sch = true /\ map Urllib.lower_char sch = sch.

Definition not_delim (c : N) : bool := negb (delimiter c).

(** the brackets of a netloc pair up and both checks let it through *)
Definition netloc_accepted (ck : Urllib.checks) (nl : str) : Prop :=
  let lb := Py.contains_char 91 nl in
  let rb := Py.contains_char 93 nl in
  (lb && negb rb) || (rb && negb lb) = false
  /\ (lb && rb = true -> Urllib.check_bracketed_netloc ck nl = None)
  /\ Urllib.checknetloc ck nl = None.

(** empty, or beginning with one of / ? # *)
Definition tail_ok (tail : str) : Prop :=
  match tail with
  | [] => True
  | c :: _ => delimiter c = true
  end.

Definition with_scheme (s : str) (r : Urllib.SplitResult) : Urllib.SplitResult :=
  {| Urllib.sr_scheme := s; Urllib.sr_netloc := Urllib.sr_netloc r;
     Urllib.sr_path := Urllib.sr_path r; Urllib.sr_query := Urllib.sr_query r;
     Urllib.sr_fragment := Urllib.sr_fragment r |}.

(** ** Vocabulary of the further properties *)

(** [t] begins with an anchor whose [href] is [H]; [mid] is the text between
    the [<a] and the [href]. *)
Definition anchor_at (t mid H : str) : Prop :=
  exists kind rest post,
    t = cps "<a" ++ mid ++ (cps "href=" ++ [dq]) ++ H ++ dq :: post
    /\ (gt_sign ∉ mid)
    /\ H = [slash] ++ kind ++ [slash] ++ rest
    /\ kind ∈ [cps "stream"; cps "get"; cps "browser"]
    /\ dq ∉ rest.

(** the part of rule (c) after the [<a] and the star: the [href] with its
    group and the closing quote *)
Definition rule_href : Re.regex :=
  Re.Seq (Re.Lit (cps "href=" ++ [dq]))
    (Re.Seq
       (Re.Group
          (Re.Seq (Re.Lit [slash])
             (Re.Seq
                (Re.Alt (Re.Lit (cps "stream"))
                   (Re.Alt (Re.Lit (cps "get")) (Re.Lit (cps "browser"))))
                (Re.Seq (Re.Lit [slash]) (Re.Star (Re.not_char dq))))))
       (Re.Lit [dq])).

(** an anchor only *)
Definition body_anchor : str :=
  cps "<p>moved</p><a class=" ++ [dq] ++ cps "btn" ++ [dq] ++ cps " href="
  ++ [dq] ++ cps "/stream/abc123" ++ [dq] ++ cps ">here</a>".

(** one tag with two hrefs of the form the rule looks for *)
Definition body_two_hrefs : str :=
  cps "<a href=" ++ [dq] ++ cps "/get/first" ++ [dq] ++ cps " href="
  ++ [dq] ++ cps "/stream/second" ++ [dq] ++ cps ">x</a>".

(** The anchor rule (c) settles on: [html] is [pre] followed by an anchor
    with the href [H] after [mid]; no anchor of that form starts further
    left, and none that starts at the same place has a longer [mid], that
    is, a later href. *)
Definition chosen_anchor (html pre mid H : str) : Prop :=
  (exists t,
     html = pre ++ t /\ anchor_at t mid H
     /\ forall mid' H', anchor_at t mid' H' -> (length mid' <= length mid)%nat)
  /\ forall pre' H',
       occurs anchor_shape html pre' H' -> (length pre <= length pre')%nat.

(** a location assignment whose target urljoin refuses: an authority with
    an opening bracket only *)
Definition body_bad_location : str :=
  cps "window.location.href=" ++ [dq] ++ cps "//[" ++ [dq].

(** A request fails with the message [msg]: the call raises a
    RequestException, or it returns a response whose status makes
    [raise_for_status] raise one. *)
Definition request_fails (o : outcome Response) (msg : str) : Prop :=
  o = Throws (RequestException msg)
  \/ exists resp,
       o = Returns resp
       /\ Requests.raise_for_status resp = Throws (RequestException msg).

(** a response with the given status and reason, and nothing else *)
Definition status_page (code : Z) (reason u : str) : Response :=
  {| Requests.status_code := code; Requests.reason := reason;
     Requests.url := u; Requests.text := []; Requests.headers := ∅;
     Requests.iter_content := []; Requests.iter_error := None |}.

(** [calm_env] with the four requests replaced: the landing page, the
    POST, the HEAD and the streaming GET *)
Definition env_with (index : outcome Response)
    (post : str -> str -> str -> outcome Response)
    (head : str -> outcome Response)
    (stream : str -> outcome Response) : env :=
  let e := calm_env gateway_url body_all_rules (page [] []) in
  {| session_get_index := index;
     session_post := post;
     session_send_next := session_send_next e;
     session_head := head;
     session_get_stream := stream;
     html_parser := html_parser e;
     url_checks := url_checks e;
     path_str := path_str e;
     path_child := path_child e;
     mkdir := mkdir e;
     open_wb := open_wb e;
     ZipFile_rejects := ZipFile_rejects e;
     extractall := extractall e |}.

(** [get_real_url] returns a link in [st], and the HEAD request on that
    link is answered by [r0]. *)
Definition link_found (e : env) (target : str) (st : state) (r0 : Response)
    : Prop :=
  exists real,
    cpfrx_file.get_real_url e target st = (Ok real, st)
    /\ session_head e real = Returns r0.

(** The file host answers the GET of [real] with [r], whose status is no
    error and whose content-length reads as [total] (0 without the header),
    and the directory and the output file can be made. *)
Definition serves (e : env) (real save_path : str) (r : Response) (total : Z)
    : Prop :=
  session_get_stream e real = Returns r
  /\ Requests.raise_for_status r = Returns tt
  /\ content_length r = Returns total
  /\ mkdir e save_path = Returns tt
  /\ open_wb e (path_child e save_path (cps "downloaded_file.zip")) = Returns tt.

(** the first line [download] prints *)
Definition final_link_line (label real : str) : str := label ++ real ++ [10%N].

(** the gateway names a link, the HEAD request on it ends at another URL,
    and the GET of that URL is answered by [file] *)
Definition redirecting_env (file : outcome Response) : env :=
  env_with (Returns (page INDEX []))
    (fun _ _ _ => Returns (page gateway_url body_all_rules))
    (fun _ => Returns (page (cps "https://cdn.example.com/stream/abc123") []))
    (fun u => if Py.eqb u (cps "https://cdn.example.com/stream/abc123")
              then file
              else Throws (RequestException (cps "unexpected URL"))).

(** the hundreds, tens and units of [n], as three characters *)
Definition last3 (n : N) : str :=
  [48 + (n / 100) mod 10; 48 + (n / 10) mod 10; 48 + n mod 10]%N.




(** a location assignment whose target is an absolute http URL *)
Definition body_location_http : str :=
  cps "window.location.href = " ++ [dq]
  ++ cps "http:\/\/cdn.example.com\/get\/abc" ++ [dq] ++ cps ";".

(** a data-u attribute with a link that needs no cleaning *)
Definition body_plain_link : str :=
  cps "<div " ++ data_u_open ++ cps "https://cdn.example.com/get/abc?k=1"
  ++ [dq] ++ cps "></div>".

(** the file host's answer when the stream breaks after the chunks *)
Definition cut_response (chunks : list bytes) (msg : str) : Response :=
  {| Requests.status_code := 200; Requests.reason := cps "OK";
     Requests.url := cps "https://cdn.example.com/stream/abc123";
     Requests.text := []; Requests.headers := ∅;
     Requests.iter_content := chunks; Requests.iter_error := Some msg |}.


(** none of the characters that end the path of a URL or that urlsplit
    removes: no [?], [#] or [;], no tab, line feed or carriage return *)
Definition path_char (c : N) : bool :=
  negb ((c =? 63) || (c =? 35) || (c =? 59) || (c =? 9) || (c =? 10)
        || (c =? 13))%N.

(** no segment of the path is [.] or [..] *)
Definition dot_free (p : str) : bool :=
  forallb (fun seg => negb (Py.mem seg [cps "."; cps ".."]))
    (Py.split slash p).

(** * Properties *)

(** ** Strings *)

Lemma startswith_app (p t : str) : Py.startswith p (p ++ t) = true.
Proof.
  induction p as [|a p IH]; simpl; [reflexivity|].
  rewrite N.eqb_refl. exact IH.
Qed.

Lemma startswith_inv (p s : str) :
  Py.startswith p s = true -> exists t, s = p ++ t.
Proof.
  revert s. induction p as [|a p IH]; intros s H; simpl in H.
  - exists s. reflexivity.
  - destruct s as [|b s]; [discriminate|].
    apply andb_true_iff in H as [Hab Hs]. apply N.eqb_eq in Hab. subst b.
    destruct (IH _ Hs) as [t ->]. exists t. reflexivity.
Qed.

Lemma startswith_head (c : N) (s : str) :
  Py.startswith [c] s = true -> exists t, s = c :: t.
Proof. intros H. apply startswith_inv in H as [t ->]. exists t. reflexivity. Qed.

Lemma eqb_eq (a b : str) : Py.eqb a b = true <-> a = b.
Proof.
  revert b. induction a as [|x a IH]; intros [|y b]; simpl; split;
    try congruence; try reflexivity.
  - intros H. apply andb_true_iff in H as [Hx Hab].
    apply N.eqb_eq in Hx. apply IH in Hab. congruence.
  - intros H. injection H as -> ->. rewrite N.eqb_refl. simpl.
    apply IH. reflexivity.
Qed.

Lemma eqb_refl (a : str) : Py.eqb a a = true.
Proof. apply eqb_eq. reflexivity. Qed.

(** ** The matcher *)

Lemma span_take_drop cls s : span_take cls s ++ span_drop cls s = s.
Proof.
  induction s as [|c s IH]; simpl; [reflexivity|].
  destruct (cls c); simpl; [rewrite IH|]; reflexivity.
Qed.

Lemma span_take_all cls s : forallb cls (span_take cls s) = true.
Proof.
  induction s as [|c s IH]; simpl; [reflexivity|].
  destruct (cls c) eqn:E; simpl; [rewrite E; exact IH | reflexivity].
Qed.

Lemma span_take_cut cls (u : str) c t :
  forallb cls u = true -> cls c = false ->
  span_take cls (u ++ c :: t) = u /\ span_drop cls (u ++ c :: t) = c :: t.
Proof.
  intros Hu Hc. induction u as [|x u IH]; simpl in *.
  - rewrite Hc. split; reflexivity.
  - apply andb_true_iff in Hu as [Hx Hu]. rewrite Hx.
    destruct (IH Hu) as [-> ->]. split; reflexivity.
Qed.

Lemma span_take_length cls s :
  take (length s - length (span_drop cls s)) s = span_take cls s.
Proof.
  rewrite <- (span_take_drop cls s) at 1 3.
  rewrite length_app.
  replace (length (span_take cls s) + length (span_drop cls s)
           - length (span_drop cls s))%nat
    with (length (span_take cls s)) by lia.
  apply take_app_length.
Qed.

(** A star whose continuation refuses every text that begins inside the
    class never gives a character back: it stops at the end of the span. *)
Lemma star_run_span {A} cls (k : str -> option A) s :
  (forall c t, cls c = true -> k (c :: t) = None) ->
  Re.star_run cls k s = k (span_drop cls s).
Proof.
  intros Hk. induction s as [|c s IH]; simpl; [reflexivity|].
  destruct (cls c) eqn:E; [|reflexivity].
  rewrite IH. destruct (k (span_drop cls s)) eqn:Ek; [reflexivity|].
  apply Hk, E.
Qed.

(** [search] finds the match at the first position that has one. *)
Lemma search_skip r (pre t : str) :
  (forall i, (i < length pre)%nat -> Re.re_match r (drop i (pre ++ t)) = None) ->
  Re.search r (pre ++ t) = Re.search r t.
Proof.
  induction pre as [|c pre IH]; intros H; [reflexivity|].
  simpl. specialize (H 0%nat) as H0. simpl in H0. rewrite H0 by lia.
  apply IH. intros i Hi. apply (H (S i)). simpl. lia.
Qed.

Lemma search_here r (s : str) m :
  Re.re_match r s = Some m -> Re.search r s = Some m.
Proof. intros H. destruct s; simpl; rewrite H; reflexivity. Qed.

Lemma search_Some r (s : str) m :
  Re.search r s = Some m ->
  exists pre t, s = pre ++ t /\ Re.re_match r t = Some m
    /\ forall i, (i < length pre)%nat -> Re.re_match r (drop i s) = None.
Proof.
  induction s as [|c s IH]; simpl.
  - destruct (Re.re_match r []) eqn:E; [|discriminate].
    intros [= <-]. exists [], []. repeat split; [exact E|]. simpl. lia.
  - destruct (Re.re_match r (c :: s)) eqn:E.
    + intros [= <-]. exists [], (c :: s). repeat split; [exact E|]. simpl. lia.
    + intros H. destruct (IH H) as (pre & t & -> & Hm & Hn).
      exists (c :: pre), t. repeat split; [exact Hm|].
      intros [|i] Hi; simpl; [exact E|]. apply Hn. simpl in Hi. lia.
Qed.

Lemma search_None r (s : str) :
  Re.search r s = None ->
  forall pre t, s = pre ++ t -> Re.re_match r t = None.
Proof.
  induction s as [|c s IH]; simpl.
  - destruct (Re.re_match r []) eqn:E; [discriminate|].
    intros _ pre t H. symmetry in H. apply app_eq_nil in H as [-> ->]. exact E.
  - destruct (Re.re_match r (c :: s)) eqn:E; [discriminate|].
    intros H [|x pre] t Heq; simpl in Heq.
    + subst t. exact E.
    + injection Heq as -> ->. eapply IH; [exact H|reflexivity].
Qed.

Lemma search_None_intro r (s : str) :
  (forall pre t, s = pre ++ t -> Re.re_match r t = None) ->
  Re.search r s = None.
Proof.
  induction s as [|c s IH]; intros H; simpl.
  - rewrite (H [] []); reflexivity.
  - rewrite (H [] (c :: s)) by reflexivity.
    apply IH. intros pre t ->. apply (H (c :: pre)). reflexivity.
Qed.

(** ** Searching for a shape

    For a rule whose matches at the head of a text are the instances of a
    shape, [re.search] finds the leftmost instance in the text. *)

Section SearchShape.

Variable r : Re.regex.
Variable shape : str -> str -> Prop.

Hypothesis match_sound : forall (t : str) m,
  Re.re_match r t = Some m -> exists g, m = Some g /\ shape t g.
Hypothesis match_complete : forall (t g : str),
  shape t g -> Re.re_match r t <> None.

Lemma search_present (html : str) :
  present shape html -> Re.search r html <> None.
Proof.
  intros (pre & g & t & -> & Hs) H.
  eapply search_None in H; [|reflexivity].
  exact (match_complete _ _ Hs H).
Qed.

Lemma search_absent (html : str) :
  Re.search r html = None <-> ~ present shape html.
Proof.
  split.
  - intros H Hp. exact (search_present _ Hp H).
  - intros H. destruct (Re.search r html) eqn:E; [|reflexivity].
    apply search_Some in E as (pre & t & -> & Hm & _).
    apply match_sound in Hm as (g & _ & Hs).
    exfalso. apply H. exists pre, g, t. split; [reflexivity|exact Hs].
Qed.

Lemma search_Some_leftmost (html : str) m :
  Re.search r html = Some m ->
  exists pre g, m = Some g /\ leftmost shape html pre g.
Proof.
  intros H. apply search_Some in H as (pre & t & -> & Hm & Hn).
  apply match_sound in Hm as (g & -> & Hs).
  exists pre, g. split; [reflexivity|]. split.
  - exists t. split; [reflexivity|exact Hs].
  - intros pre' g' (t' & Heq & Hs').
    destruct (Nat.le_gt_cases (length pre) (length pre')) as [|Hlt];
      [assumption|].
    specialize (Hn _ Hlt). rewrite Heq, drop_app_length in Hn.
    exfalso. exact (match_complete _ _ Hs' Hn).
Qed.

Hypothesis match_exact : forall (t g : str),
  shape t g -> Re.re_match r t = Some (Some g).

Lemma search_leftmost (html pre g : str) :
  leftmost shape html pre g -> Re.search r html = Some (Some g).
Proof.
  intros [(t & -> & Hs) Hmin]. rewrite search_skip.
  - apply search_here, match_exact, Hs.
  - intros i Hi.
    destruct (Re.re_match r (drop i (pre ++ t))) eqn:E; [|reflexivity].
    apply match_sound in E as (g' & _ & Hs').
    assert (Hle : (length pre <= length (take i pre))%nat).
    { apply (Hmin (take i pre) g'). exists (drop i (pre ++ t)).
      split; [|exact Hs'].
      rewrite <- (take_drop i (pre ++ t)) at 1.
      f_equal. rewrite take_app_le by lia. reflexivity. }
    rewrite length_take in Hle. lia.
Qed.

End SearchShape.

(** ** Rule (a): the data-u attribute *)

Lemma not_char_all (c : N) (X : str) :
  forallb (Re.not_char c) X = true <-> c ∉ X.
Proof.
  induction X as [|x X IH]; simpl.
  - split; [intros _; apply not_elem_of_nil | reflexivity].
  - rewrite andb_true_iff, IH, not_elem_of_cons. unfold Re.not_char.
    rewrite negb_true_iff, N.eqb_neq. split; intros [? ?]; split; congruence.
Qed.

Lemma span_drop_head cls (s : str) c rest :
  span_drop cls s = c :: rest -> cls c = false.
Proof.
  induction s as [|x s IH]; simpl; [discriminate|].
  destruct (cls x) eqn:E; [exact IH|]. intros [= -> ->]. exact E.
Qed.

Lemma run_Seq {A} r1 r2 (s : str) g (k : str -> option str -> option A) :
  Re.run (Re.Seq r1 r2) s g k
  = Re.run r1 s g (fun s' g' => Re.run r2 s' g' k).
Proof. reflexivity. Qed.

Lemma run_Lit {A} l (s : str) g (k : str -> option str -> option A) :
  Re.run (Re.Lit l) s g k
  = if Py.startswith l s then k (drop (length l) s) g else None.
Proof. reflexivity. Qed.

Lemma run_Group {A} r1 (s : str) g (k : str -> option str -> option A) :
  Re.run (Re.Group r1) s g k
  = Re.run r1 s g (fun s' _ => k s' (Some (take (length s - length s') s))).
Proof. reflexivity. Qed.

Lemma take_consumed (u s' : str) :
  take (length (u ++ s') - length s') (u ++ s') = u.
Proof.
  rewrite length_app.
  replace (length u + length s' - length s')%nat with (length u) by lia.
  apply take_app_length.
Qed.

(** *** The matcher against the language of the pattern *)

Lemma star_run_sound {A} cls (k : str -> option A) (s : str) x :
  Re.star_run cls k s = Some x ->
  exists u v, s = u ++ v /\ forallb cls u = true /\ k v = Some x.
Proof.
  induction s as [|c s IH]; simpl; intros H.
  - exists [], []. auto.
  - destruct (cls c) eqn:E.
    + destruct (Re.star_run cls k s) eqn:Es.
      * injection H as ->. destruct (IH eq_refl) as (u & v & -> & Hu & Hk).
        exists (c :: u), v. simpl. rewrite E. auto.
      * exists [], (c :: s). auto.
    + exists [], (c :: s). auto.
Qed.

Lemma star_run_complete {A} cls (k : str -> option A) (u v : str) :
  forallb cls u = true -> k v <> None -> Re.star_run cls k (u ++ v) <> None.
Proof.
  intros Hu Hk. induction u as [|c u IH]; simpl in *.
  - destruct v as [|c v]; simpl; [exact Hk|].
    destruct (cls c); [|exact Hk].
    destruct (Re.star_run cls k v); [discriminate|exact Hk].
  - apply andb_true_iff in Hu as [-> Hu].
    destruct (Re.star_run cls k (u ++ v)) eqn:E; [discriminate|].
    exfalso. exact (IH Hu eq_refl).
Qed.

Lemma run_sound {A} r : forall (s : str) g (k : str -> option str -> option A) x,
  Re.run r s g k = Some x ->
  exists u s' g', s = u ++ s' /\ lang r u /\ k s' g' = Some x.
Proof.
  induction r as [l|cls|r1 IH1 r2 IH2|r1 IH1 r2 IH2|r1 IH1]; intros s g k x H.
  - rewrite run_Lit in H. destruct (Py.startswith l s) eqn:E; [|discriminate].
    apply startswith_inv in E as [t ->]. rewrite drop_app_length in H.
    exists l, t, g. simpl. auto.
  - apply star_run_sound in H as (u & v & -> & Hu & Hk).
    exists u, v, g. simpl. auto.
  - rewrite run_Seq in H.
    apply IH1 in H as (u1 & s1 & g1 & -> & L1 & H).
    apply IH2 in H as (u2 & s2 & g2 & -> & L2 & H).
    exists (u1 ++ u2), s2, g2. rewrite <- app_assoc. repeat split; [|exact H].
    exists u1, u2. auto.
  - simpl in H. destruct (Re.run r1 s g k) eqn:E.
    + injection H as ->. apply IH1 in E as (u & s' & g' & -> & L & Hk).
      exists u, s', g'. simpl. auto.
    + apply IH2 in H as (u & s' & g' & -> & L & Hk).
      exists u, s', g'. simpl. auto.
  - rewrite run_Group in H. apply IH1 in H as (u & s' & g' & -> & L & Hk).
    exists u, s', (Some (take (length (u ++ s') - length s') (u ++ s'))).
    simpl. auto.
Qed.

Lemma run_complete {A} r :
  forall (u s' : str) g (k : str -> option str -> option A),
  lang r u -> (forall g', k s' g' <> None) -> Re.run r (u ++ s') g k <> None.
Proof.
  induction r as [l|cls|r1 IH1 r2 IH2|r1 IH1 r2 IH2|r1 IH1];
    intros u s' g k L Hk; simpl in L.
  - subst u. rewrite run_Lit, startswith_app, drop_app_length. apply Hk.
  - apply (star_run_complete cls (fun t => k t g)); [exact L | apply Hk].
  - destruct L as (u1 & u2 & -> & L1 & L2). rewrite run_Seq, <- app_assoc.
    apply IH1; [exact L1|]. intros g'. apply IH2; [exact L2 | exact Hk].
  - simpl. destruct (Re.run r1 (u ++ s') g k) eqn:E; [discriminate|].
    destruct L as [L|L]; [exfalso; exact (IH1 _ _ _ _ L Hk E)|].
    apply IH2; [exact L | exact Hk].
  - rewrite run_Group. apply IH1; [exact L|]. intros g'. apply Hk.
Qed.

(** A pattern that ends with its group and a closing literal: a match is a
    text of the pattern's language, and group 1 is the part the group took. *)
Lemma match_group_sound pre_r grp_r (closing t : str) m :
  Re.re_match (Re.Seq pre_r (Re.Seq (Re.Group grp_r) (Re.Lit closing))) t
    = Some m ->
  exists u g post,
    m = Some g /\ t = u ++ g ++ closing ++ post /\ lang pre_r u /\ lang grp_r g.
Proof.
  unfold Re.re_match. rewrite run_Seq. intros H.
  apply run_sound in H as (u & s1 & g1 & -> & Lu & H).
  rewrite run_Seq, run_Group in H.
  apply run_sound in H as (g & s2 & g2 & -> & Lg & H).
  rewrite take_consumed, run_Lit in H.
  destruct (Py.startswith closing s2) eqn:E; [|discriminate].
  apply startswith_inv in E as [post ->]. injection H as <-.
  exists u, g, post. auto.
Qed.

Lemma match_lang_complete r (u post : str) :
  lang r u -> Re.re_match r (u ++ post) <> None.
Proof. intros L. apply run_complete; [exact L|]. discriminate. Qed.

(** The tail shared by rules (a) and (b): the group runs up to the next
    double quote, which must exist. *)
Lemma run_quoted {A} (t : str) g (k : str -> option str -> option A) :
  Re.run (Re.Seq (Re.Group (Re.Star (Re.not_char dq))) (Re.Lit [dq])) t g k
  = match span_drop (Re.not_char dq) t with
    | _ :: rest => k rest (Some (span_take (Re.not_char dq) t))
    | [] => None
    end.
Proof.
  cbn [Re.run]. rewrite star_run_span.
  - destruct (span_drop (Re.not_char dq) t) as [|c rest] eqn:E; [reflexivity|].
    apply span_drop_head in E as Hc. unfold Re.not_char in Hc.
    apply negb_false_iff, N.eqb_eq in Hc. subst c.
    rewrite <- E, span_take_length, E. reflexivity.
  - intros c u Hc. unfold Re.not_char in Hc.
    apply negb_true_iff, N.eqb_neq in Hc. cbn [Py.startswith].
    rewrite (proj2 (N.eqb_neq dq c)) by congruence. reflexivity.
Qed.

Lemma match_data_u (s : str) :
  Re.re_match rule_data_u s
  = if Py.startswith data_u_open s
    then match span_drop (Re.not_char dq) (drop (length data_u_open) s) with
         | _ :: _ =>
             Some (Some (span_take (Re.not_char dq)
                           (drop (length data_u_open) s)))
         | [] => None
         end
    else None.
Proof.
  unfold Re.re_match, rule_data_u. rewrite run_Seq, run_Lit.
  destruct (Py.startswith data_u_open s); [|reflexivity].
  apply (run_quoted (drop (length data_u_open) s) None).
Qed.

Lemma match_data_u_exact (t X : str) :
  data_u_shape t X -> Re.re_match rule_data_u t = Some (Some X).
Proof.
  intros (post & -> & HX).
  rewrite match_data_u, startswith_app, drop_app_length.
  apply not_char_all in HX.
  destruct (span_take_cut (Re.not_char dq) X dq post HX) as [-> ->];
    reflexivity.
Qed.

Lemma match_data_u_sound (t : str) m :
  Re.re_match rule_data_u t = Some m ->
  exists X, m = Some X /\ data_u_shape t X.
Proof.
  rewrite match_data_u.
  destruct (Py.startswith data_u_open t) eqn:Hp; [|discriminate].
  apply startswith_inv in Hp as [u ->]. rewrite drop_app_length.
  destruct (span_drop (Re.not_char dq) u) as [|c rest] eqn:E; [discriminate|].
  intros [= <-]. exists (span_take (Re.not_char dq) u).
  split; [reflexivity|]. exists rest.
  apply span_drop_head in E as Hc. unfold Re.not_char in Hc.
  apply negb_false_iff, N.eqb_eq in Hc. subst c. split.
  - rewrite <- E, span_take_drop. reflexivity.
  - apply not_char_all, span_take_all.
Qed.

Lemma match_data_u_complete (t X : str) :
  data_u_shape t X -> Re.re_match rule_data_u t <> None.
Proof. intros H. rewrite (match_data_u_exact _ _ H). discriminate. Qed.

(** ** Rule (b): the window.location.href assignment *)

Lemma run_Star_Lit {A} cls c l r (s : str) g
    (k : str -> option str -> option A) :
  cls c = false ->
  Re.run (Re.Seq (Re.Star cls) (Re.Seq (Re.Lit (c :: l)) r)) s g k
  = Re.run (Re.Seq (Re.Lit (c :: l)) r) (span_drop cls s) g k.
Proof.
  intros Hc. rewrite run_Seq.
  change (Re.run (Re.Star cls) s g ?k')
    with (Re.star_run cls (fun s' => k' s' g) s).
  apply (star_run_span cls
           (fun s' => Re.run (Re.Seq (Re.Lit (c :: l)) r) s' g k)).
  intros x t Hx. rewrite run_Seq, run_Lit. cbn [Py.startswith].
  destruct (N.eqb_spec c x) as [->|]; [congruence|reflexivity].
Qed.

Lemma match_location_exact (t Y : str) :
  location_shape t Y -> Re.re_match rule_location t = Some (Some Y).
Proof.
  intros (ws1 & ws2 & post & -> & H1 & H2 & HY).
  unfold Re.re_match, rule_location.
  rewrite run_Seq, run_Lit, startswith_app, drop_app_length.
  change (cps "=") with [61%N].
  rewrite run_Star_Lit by reflexivity.
  destruct (span_take_cut Py.isspace ws1 61%N
              (ws2 ++ dq :: Y ++ dq :: post) H1 eq_refl) as [_ E1].
  change (ws1 ++ [61%N] ++ ws2 ++ dq :: Y ++ dq :: post)
    with (ws1 ++ 61%N :: (ws2 ++ dq :: Y ++ dq :: post)).
  rewrite E1, run_Seq, run_Lit.
  change (Py.startswith [61%N] (61%N :: ?x)) with true. cbv iota.
  change (drop (length [61%N]) (61%N :: ?x)) with x.
  rewrite run_Star_Lit by reflexivity.
  destruct (span_take_cut Py.isspace ws2 dq (Y ++ dq :: post) H2 eq_refl)
    as [_ E2].
  rewrite E2, run_Seq, run_Lit.
  change (Py.startswith [dq] (dq :: ?x)) with true. cbv iota.
  change (drop (length [dq]) (dq :: ?x)) with x.
  rewrite run_quoted. apply not_char_all in HY.
  destruct (span_take_cut (Re.not_char dq) Y dq post HY eq_refl) as [-> ->].
  reflexivity.
Qed.

Lemma match_location_sound (t : str) m :
  Re.re_match rule_location t = Some m ->
  exists Y, m = Some Y /\ location_shape t Y.
Proof.
  intros H.
  change (Re.re_match rule_location t)
    with (Re.re_match
            (Re.Seq
               (Re.Seq (Re.Lit (cps "window.location.href"))
                  (Re.Seq (Re.Star Py.isspace)
                     (Re.Seq (Re.Lit (cps "="))
                        (Re.Seq (Re.Star Py.isspace) (Re.Lit [dq])))))
               (Re.Seq (Re.Group (Re.Star (Re.not_char dq))) (Re.Lit [dq]))) t)
    in H.
  apply match_group_sound in H as (u & Y & post & -> & -> & Lu & LY).
  exists Y. split; [reflexivity|].
  cbn [lang] in Lu, LY.
  destruct Lu as (u1 & u' & -> & -> & ws1 & u'' & -> & H1
                  & u3 & u''' & -> & -> & ws2 & u5 & -> & H2 & ->).
  exists ws1, ws2, post. repeat split; [|exact H1|exact H2|].
  - rewrite <- !app_assoc. reflexivity.
  - apply not_char_all, LY.
Qed.

Lemma match_location_complete (t Y : str) :
  location_shape t Y -> Re.re_match rule_location t <> None.
Proof. intros H. rewrite (match_location_exact _ _ H). discriminate. Qed.

(** ** Rule (c): the anchor *)

Lemma match_anchor_sound (t : str) m :
  Re.re_match rule_anchor t = Some m ->
  exists H, m = Some H /\ anchor_shape t H.
Proof.
  intros H.
  change (Re.re_match rule_anchor t)
    with (Re.re_match
            (Re.Seq
               (Re.Seq (Re.Lit (cps "<a"))
                  (Re.Seq (Re.Star (Re.not_char gt_sign))
                     (Re.Lit (cps "href=" ++ [dq]))))
               (Re.Seq
                  (Re.Group
                     (Re.Seq (Re.Lit [slash])
                        (Re.Seq
                           (Re.Alt (Re.Lit (cps "stream"))
                              (Re.Alt (Re.Lit (cps "get"))
                                 (Re.Lit (cps "browser"))))
                           (Re.Seq (Re.Lit [slash])
                              (Re.Star (Re.not_char dq))))))
                  (Re.Lit [dq]))) t)
    in H.
  apply match_group_sound in H as (u & g & post & -> & -> & Lu & Lg).
  exists g. split; [reflexivity|].
  cbn [lang] in Lu, Lg.
  destruct Lu as (u1 & u' & -> & -> & mid & u'' & -> & Hmid & ->).
  destruct Lg as (g1 & g' & -> & -> & kind & g'' & -> & Hkind
                  & g3 & rest & -> & -> & Hrest).
  exists mid, kind, rest, post. repeat split.
  - rewrite <- !app_assoc. reflexivity.
  - apply not_char_all, Hmid.
  - rewrite !elem_of_cons. destruct Hkind as [->|[->| ->]]; auto.
  - apply not_char_all, Hrest.
Qed.

Lemma match_anchor_complete (t H : str) :
  anchor_shape t H -> Re.re_match rule_anchor t <> None.
Proof.
  intros (mid & kind & rest & post & -> & Hmid & -> & Hkind & Hrest).
  replace (cps "<a" ++ mid ++ (cps "href=" ++ [dq])
           ++ ([slash] ++ kind ++ [slash] ++ rest) ++ dq :: post)
    with ((cps "<a" ++ mid ++ (cps "href=" ++ [dq])
           ++ ([slash] ++ kind ++ [slash] ++ rest) ++ [dq]) ++ post)
    by (rewrite <- !app_assoc; reflexivity).
  apply match_lang_complete. cbn [lang].
  eexists _, _. split; [reflexivity|]. split; [reflexivity|].
  eexists mid, _. split; [reflexivity|].
  split; [apply not_char_all, Hmid|].
  eexists _, _. split; [reflexivity|]. split; [reflexivity|].
  eexists _, _. split; [reflexivity|]. split; [|reflexivity].
  eexists _, _. split; [reflexivity|]. split; [reflexivity|].
  eexists kind, _. split; [reflexivity|]. split.
  - rewrite !elem_of_cons in Hkind.
    destruct Hkind as [->|[->|[->|Hk]]]; cbn [lang]; [auto|auto|auto|].
    apply elem_of_nil in Hk. contradiction.
  - eexists _, _. split; [reflexivity|]. split; [reflexivity|].
    apply not_char_all, Hrest.
Qed.

(** ** get_real_url *)

Lemma call_run {A} (o : outcome A) (st : state) : call o st = (ended o, st).
Proof. destruct o; reflexivity. Qed.

Lemma urlsplit_throws ck u d ex :
  Urllib.urlsplit ck u d = Throws ex -> exists m, ex = ValueError m.
Proof.
  unfold Urllib.urlsplit.
  destruct (Urllib.split_scheme _ _) as [sch u1].
  unfold Urllib.urlsplit_tail. cbv zeta.
  destruct (Py.startswith [slash; slash] u1).
  - destruct (Urllib.splitnetloc u1 2) as [nl u2].
    destruct (_ || _); [intros [= <-]; eauto|].
    destruct (_ && _).
    + destruct (Urllib.check_bracketed_netloc ck nl);
        [intros [= <-]; eauto|].
      destruct (Py.split_once 35 u2), (Py.split_once 63 _).
      destruct (Urllib.checknetloc ck nl); intros [= <-]; eauto.
    + destruct (Py.split_once 35 u2), (Py.split_once 63 _).
      destruct (Urllib.checknetloc ck nl); intros [= <-]; eauto.
  - destruct (Py.split_once 35 u1), (Py.split_once 63 _).
    destruct (Urllib.checknetloc ck []); intros [= <-]; eauto.
Qed.

Lemma urlparse_throws ck u d ex :
  Urllib.urlparse ck u d = Throws ex -> exists m, ex = ValueError m.
Proof.
  unfold Urllib.urlparse.
  destruct (Urllib.urlsplit ck u d) eqn:E.
  - destruct (_ && _); [destruct (Urllib.splitparams _)|]; discriminate.
  - intros [= <-]. eapply urlsplit_throws, E.
Qed.

Lemma urljoin_throws ck b u ex :
  Urllib.urljoin ck b u = Throws ex -> exists m, ex = ValueError m.
Proof.
  unfold Urllib.urljoin.
  destruct b as [|b0 b]; [discriminate|].
  destruct u as [|u0 u]; [discriminate|].
  destruct (Urllib.urlparse ck (b0 :: b) []) as [pb|ex1] eqn:Eb.
  - destruct (Urllib.urlparse ck (u0 :: u) (Urllib.scheme pb)) as [pu|ex2] eqn:Eu.
    + repeat match goal with
             | |- context [if ?c then _ else _] => destruct c
             end; discriminate.
    + intros [= <-]. eapply urlparse_throws, Eu.
  - intros [= <-]. eapply urlparse_throws, Eb.
Qed.

Lemma extract_link_throws ck no_link base html ex :
  extract_link ck no_link base html = Throws ex ->
  is_RequestException ex = false.
Proof.
  unfold extract_link, group1.
  repeat match goal with
         | |- context [match Re.search ?r ?h with _ => _ end] =>
             destruct (Re.search r h) as [[?|]|]
         end;
    try (intros [= <-]; reflexivity);
    intros H; apply urljoin_throws in H as [m ->]; reflexivity.
Qed.

Lemma submit_and_extract_run e no_link target csrf st :
  submit_and_extract e no_link target csrf st
  = match working_response e target csrf with
    | Throws ex => (Raise ex, st)
    | Returns resp =>
        (ended (extract_link (url_checks e) no_link
                  (Requests.url resp) (Requests.text resp)), st)
    end.
Proof.
  unfold submit_and_extract, working_response, bind.
  rewrite call_run.
  destruct (session_post e _ target csrf) as [resp|ex]; [|reflexivity].
  cbn [ended].
  destruct ((Requests.status_code resp =? 301)
            || (Requests.status_code resp =? 302)).
  - rewrite call_run. destruct (session_send_next e resp); [|reflexivity].
    cbn [ended]. apply call_run.
  - unfold ret. apply call_run.
Qed.

(** Both files run the same rules on the working response. *)
Lemma get_real_url_rules e target st resp :
  reaches_rules e target st resp ->
  cpfrx_file.get_real_url e target st
  = (ended (extract_link (url_checks e) cpfrx_file.no_link
              (Requests.url resp) (Requests.text resp)), st).
Proof.
  intros (csrf & Hc & Hw). unfold cpfrx_file.get_real_url, bind.
  rewrite Hc, submit_and_extract_run, Hw. reflexivity.
Qed.

Lemma get_csrf_en_Ok e st csrf st' :
  cpfrx_file.get_csrf e st = (Ok csrf, st') ->
  cpfrx_file_en.get_csrf e st = (Ok csrf, st').
Proof.
  unfold cpfrx_file_en.get_csrf, cpfrx_file.get_csrf, try_except.
  intros ->. reflexivity.
Qed.

Lemma get_real_url_en_rules e target st resp :
  reaches_rules e target st resp ->
  cpfrx_file_en.get_real_url e target st
  = (ended (extract_link (url_checks e) cpfrx_file_en.no_link
              (Requests.url resp) (Requests.text resp)), st).
Proof.
  intros (csrf & Hc & Hw). unfold cpfrx_file_en.get_real_url, bind.
  rewrite (get_csrf_en_Ok _ _ _ _ Hc). unfold try_except.
  rewrite submit_and_extract_run, Hw.
  destruct (extract_link _ _ _ _) as [u|ex] eqn:E; [reflexivity|].
  cbn [ended]. rewrite (extract_link_throws _ _ _ _ _ E). reflexivity.
Qed.

(** What the rules return, by the shapes present in the body. *)

Lemma extract_data_u ck no_link base (html pre X : str) :
  leftmost data_u_shape html pre X ->
  extract_link ck no_link base html = Returns (clean_data_u X).
Proof.
  intros H. unfold extract_link.
  rewrite (search_leftmost _ _ match_data_u_sound match_data_u_exact _ _ _ H).
  reflexivity.
Qed.

Lemma extract_location ck no_link base (html pre Y : str) :
  ~ present data_u_shape html ->
  leftmost location_shape html pre Y ->
  extract_link ck no_link base html
  = Urllib.urljoin ck base (unescape_slash Y).
Proof.
  intros Ha H. unfold extract_link.
  apply (search_absent _ _ match_data_u_sound match_data_u_complete) in Ha.
  rewrite Ha.
  rewrite (search_leftmost _ _ match_location_sound match_location_exact
             _ _ _ H).
  reflexivity.
Qed.

Lemma extract_nothing ck no_link base (html : str) :
  ~ present data_u_shape html ->
  ~ present location_shape html ->
  ~ present anchor_shape html ->
  extract_link ck no_link base html = Throws (RuntimeError no_link).
Proof.
  intros Ha Hb Hc. unfold extract_link.
  apply (search_absent _ _ match_data_u_sound match_data_u_complete) in Ha.
  apply (search_absent _ _ match_location_sound match_location_complete) in Hb.
  apply (search_absent _ _ match_anchor_sound match_anchor_complete) in Hc.
  rewrite Ha, Hb, Hc. reflexivity.
Qed.


Lemma present_leftmost_location (html : str) :
  present location_shape html ->
  exists pre Y, leftmost location_shape html pre Y.
Proof.
  intros H.
  apply (search_present _ _ match_location_complete) in H.
  destruct (Re.search rule_location html) as [m|] eqn:E; [|congruence].
  apply (search_Some_leftmost _ _ match_location_sound match_location_complete)
    in E as (pre & Y & _ & HL).
  exists pre, Y. exact HL.
Qed.

(** ** The clean-up of a data-u value *)

Lemma replace_scan_here (old new : str) c s :
  Py.replace_scan old new (c :: s) 0
  = if Py.startswith old (c :: s)
    then new ++ Py.replace_scan old new s (length old - 1)
    else c :: Py.replace_scan old new s 0.
Proof. reflexivity. Qed.

Lemma replace_scan_skip (old new : str) c s n :
  Py.replace_scan old new (c :: s) (S n) = Py.replace_scan old new s n.
Proof. reflexivity. Qed.

Lemma slashes_unescaped_pair c d (u : str) :
  slashes_unescaped (c :: d :: u)
  = if ((c =? backslash) && (d =? slash))%N
    then slash :: slashes_unescaped u
    else c :: slashes_unescaped (d :: u).
Proof. reflexivity. Qed.

Lemma startswith_pair a b c d (u : str) :
  Py.startswith [a; b] (c :: d :: u) = ((c =? a) && (d =? b))%N.
Proof.
  cbn [Py.startswith]. rewrite andb_true_r, (N.eqb_sym a c), (N.eqb_sym b d).
  reflexivity.
Qed.

Lemma replace_scan_unescape (s : str) :
  Py.replace_scan [backslash; slash] [slash] s 0 = slashes_unescaped s
  /\ forall c, Py.replace_scan [backslash; slash] [slash] (c :: s) 0
               = slashes_unescaped (c :: s).
Proof.
  induction s as [|x s [IH0 IH1]].
  - split; [reflexivity|]. intros c. rewrite replace_scan_here.
    cbn [Py.startswith]. rewrite andb_false_r. reflexivity.
  - split; [apply IH1|]. intros c.
    rewrite replace_scan_here, startswith_pair, slashes_unescaped_pair.
    destruct ((c =? backslash)%N && (x =? slash)%N).
    + change (length [backslash; slash] - 1)%nat with 1%nat.
      rewrite replace_scan_skip, IH0. reflexivity.
    + rewrite IH1. reflexivity.
Qed.

(** [replace] with the escape pair is the spec's unescaping. *)
Lemma unescape_slash_spec (s : str) : unescape_slash s = slashes_unescaped s.
Proof. apply replace_scan_unescape. Qed.



Lemma lstrip_clean (c : N) (s : str) : c ∉ s -> Py.lstrip [c] s = s.
Proof.
  destruct s as [|x s]; [reflexivity|]. intros H.
  apply not_elem_of_cons in H as [Hx _]. simpl.
  rewrite (proj2 (N.eqb_neq x c)) by congruence. reflexivity.
Qed.

Lemma strip_clean (c : N) (s : str) : c ∉ s -> Py.strip [c] s = s.
Proof.
  intros H. unfold Py.strip, Py.rstrip. rewrite (lstrip_clean c s H).
  rewrite lstrip_clean, rev_involutive; [reflexivity|].
  intros Hin. apply H. apply list_elem_of_In. apply in_rev.
  apply list_elem_of_In. exact Hin.
Qed.



Lemma leftmost_shape_data_u (html pre X : str) :
  leftmost data_u_shape html pre X -> dq ∉ X.
Proof. intros [(t & _ & post & _ & H) _]. exact H. Qed.

Lemma leftmost_at_start (shape : str -> str -> Prop) (html g : str) :
  shape html g -> leftmost shape html [] g.
Proof.
  intros H. split; [exists html; split; [reflexivity|exact H]|].
  intros pre' g' _. simpl. lia.
Qed.

(** ** urllib.parse: what [urljoin] does to a relative reference *)

Lemma replace_char_filter (c : N) (s : str) :
  Py.replace [c] [] s = List.filter (fun x => negb (x =? c)%N) s.
Proof.
  unfold Py.replace. induction s as [|x s IH]; [reflexivity|].
  rewrite replace_scan_here. cbn [Py.startswith List.filter].
  rewrite andb_true_r, (N.eqb_sym c x).
  destruct (x =? c)%N; cbn [negb]; simpl length; simpl Nat.sub;
    rewrite IH; reflexivity.
Qed.

Lemma filter_filter {A} (f g : A -> bool) (l : list A) :
  List.filter f (List.filter g l) = List.filter (fun x => g x && f x) l.
Proof.
  induction l as [|x l IH]; [reflexivity|]. simpl.
  destruct (g x); simpl; [destruct (f x)|]; rewrite IH; reflexivity.
Qed.

Lemma remove_unsafe_filter (s : str) :
  Urllib.remove_unsafe s = List.filter safe_char s.
Proof.
  unfold Urllib.remove_unsafe. rewrite !replace_char_filter, !filter_filter.
  reflexivity.
Qed.

Lemma filter_all {A} (f : A -> bool) (l : list A) :
  forallb f l = true -> List.filter f l = l.
Proof.
  induction l as [|x l IH]; [reflexivity|]. simpl. intros H.
  apply andb_true_iff in H as [-> H]. rewrite IH by exact H. reflexivity.
Qed.

Lemma filter_forallb {A} (f : A -> bool) (l : list A) :
  forallb f (List.filter f l) = true.
Proof.
  induction l as [|x l IH]; [reflexivity|]. simpl.
  destruct (f x) eqn:E; simpl; [rewrite E|]; exact IH.
Qed.

Lemma forallb_drop {A} (f : A -> bool) n (l : list A) :
  forallb f l = true -> forallb f (drop n l) = true.
Proof.
  revert l. induction n as [|n IH]; intros [|x l]; simpl; auto.
  intros H. apply andb_true_iff in H as [_ H]. apply IH, H.
Qed.

Lemma forallb_take {A} (f : A -> bool) n (l : list A) :
  forallb f l = true -> forallb f (take n l) = true.
Proof.
  revert l. induction n as [|n IH]; intros [|x l]; simpl; auto.
  intros H. apply andb_true_iff in H as [-> H]. apply IH, H.
Qed.

Lemma forallb_impl {A} (f g : A -> bool) (l : list A) :
  (forall x, f x = true -> g x = true) ->
  forallb f l = true -> forallb g l = true.
Proof.
  intros Hfg. induction l as [|x l IH]; simpl; [reflexivity|].
  intros H. apply andb_true_iff in H as [Hx H].
  rewrite (Hfg _ Hx), (IH H). reflexivity.
Qed.

Lemma lstrip_none (chars s : str) :
  match s with
  | [] => True
  | c :: _ => Py.contains_char c chars = false
  end ->
  Py.lstrip chars s = s.
Proof. destruct s as [|c s]; simpl; [reflexivity|]. intros ->. reflexivity. Qed.

Lemma c0_small (c : N) :
  Py.contains_char c Urllib.c0_control_or_space = true -> (c <= 32)%N.
Proof.
  unfold Py.contains_char. intros H.
  apply existsb_exists in H as (x & Hin & Hx). apply N.eqb_eq in Hx. subst x.
  unfold Urllib.c0_control_or_space in Hin.
  apply in_map_iff in Hin as (k & <- & Hk). apply in_seq in Hk. lia.
Qed.

Lemma scheme_char_large (c : N) : Urllib.scheme_char c = true -> (43 <= c)%N.
Proof.
  unfold Urllib.scheme_char, Urllib.is_lower, Urllib.is_upper, Urllib.is_digit.
  intros H. repeat (apply orb_true_iff in H as [H|H]);
    repeat (apply andb_true_iff in H as [H ?]);
    try apply N.leb_le in H; try apply N.eqb_eq in H; lia.
Qed.

Lemma scheme_char_not_c0 (c : N) :
  Urllib.scheme_char c = true ->
  Py.contains_char c Urllib.c0_control_or_space = false.
Proof.
  intros H. apply scheme_char_large in H.
  destruct (Py.contains_char c Urllib.c0_control_or_space) eqn:E;
    [|reflexivity].
  apply c0_small in E. lia.
Qed.

Lemma scheme_char_safe (c : N) :
  Urllib.scheme_char c = true -> safe_char c = true.
Proof.
  intros H. apply scheme_char_large in H. unfold safe_char.
  rewrite !andb_true_iff, !negb_true_iff, !N.eqb_neq. lia.
Qed.

Lemma scheme_char_not_colon (c : N) :
  Urllib.scheme_char c = true -> (c =? 58)%N = false.
Proof.
  intros H. apply N.eqb_neq. intros ->. vm_compute in H. discriminate.
Qed.

Lemma lower_scheme_char (c : N) :
  Urllib.scheme_char c = true ->
  Urllib.scheme_char (Urllib.lower_char c) = true
  /\ Urllib.lower_char (Urllib.lower_char c) = Urllib.lower_char c.
Proof.
  unfold Urllib.lower_char. destruct (Urllib.is_upper c) eqn:E.
  - intros _. unfold Urllib.is_upper in E.
    apply andb_true_iff in E as [E1 E2].
    apply N.leb_le in E1, E2.
    assert (Hl : Urllib.is_lower (c + 32) = true).
    { unfold Urllib.is_lower. apply andb_true_iff.
      split; apply N.leb_le; lia. }
    split.
    + unfold Urllib.scheme_char. rewrite Hl. reflexivity.
    + replace (Urllib.is_upper (c + 32)) with false; [reflexivity|].
      symmetry. unfold Urllib.is_upper. apply andb_false_iff. right.
      apply N.leb_gt. lia.
  - intros H. rewrite E. auto.
Qed.

Lemma lower_alpha (c : N) :
  Urllib.ascii_alpha c = true -> Urllib.ascii_alpha (Urllib.lower_char c) = true.
Proof.
  unfold Urllib.ascii_alpha, Urllib.lower_char.
  destruct (Urllib.is_upper c) eqn:E; [intros _|rewrite E; auto].
  unfold Urllib.is_upper in E. apply andb_true_iff in E as [E1 E2].
  apply N.leb_le in E1, E2. apply orb_true_iff. left.
  unfold Urllib.is_lower. apply andb_true_iff. split; apply N.leb_le; lia.
Qed.

Lemma alpha_scheme_char (c : N) :
  Urllib.ascii_alpha c = true -> Urllib.scheme_char c = true.
Proof.
  unfold Urllib.ascii_alpha, Urllib.scheme_char.
  intros H. apply orb_true_iff in H as [-> | ->];
    rewrite ?orb_true_r; reflexivity.
Qed.

Lemma strip_scheme (S : str) :
  forallb Urllib.scheme_char S = true ->
  Py.strip Urllib.c0_control_or_space S = S.
Proof.
  intros H. unfold Py.strip, Py.rstrip.
  assert (Hl : forall T : str, forallb Urllib.scheme_char T = true ->
                 Py.lstrip Urllib.c0_control_or_space T = T).
  { intros T HT. apply lstrip_none. destruct T as [|c T]; [exact I|].
    simpl in HT. apply andb_true_iff in HT as [Hc _].
    apply scheme_char_not_c0, Hc. }
  rewrite (Hl S H), Hl, rev_involutive; [reflexivity|].
  apply forallb_forall. intros x Hx. apply in_rev in Hx.
  revert x Hx. apply forallb_forall. exact H.
Qed.

Lemma remove_unsafe_scheme (S : str) :
  forallb Urllib.scheme_char S = true -> Urllib.remove_unsafe S = S.
Proof.
  intros H. rewrite remove_unsafe_filter. apply filter_all.
  revert H. apply forallb_impl, scheme_char_safe.
Qed.

Lemma find_char_app (c : N) (u t : str) :
  forallb (fun x => negb (x =? c)%N) u = true ->
  Py.find_char c (u ++ t)
  = (fun i => (length u + i)%nat) <$> Py.find_char c t.
Proof.
  induction u as [|x u IH]; simpl; intros H.
  - destruct (Py.find_char c t); reflexivity.
  - apply andb_true_iff in H as [Hx H]. apply negb_true_iff in Hx.
    rewrite Hx, (IH H). destruct (Py.find_char c t); reflexivity.
Qed.

Lemma not_delim_not (c x : N) :
  delimiter c = true -> not_delim x = true -> negb (x =? c)%N = true.
Proof.
  unfold not_delim. intros Hc Hx. apply negb_true_iff, N.eqb_neq. intros ->.
  rewrite Hc in Hx. discriminate.
Qed.

(** the position [_splitnetloc] looks for, from the three searches *)
Lemma find_delim_from (a b c d : N) (A B : str) :
  delimiter c = true -> forallb not_delim A = true ->
  Py.find_from c 2 (a :: b :: A ++ d :: B)
  = if (d =? c)%N then Some (2 + length A)%nat
    else (fun j => (2 + length A + S j)%nat) <$> Py.find_char c B.
Proof.
  intros Hc HA. unfold Py.find_from.
  change (drop 2 (a :: b :: A ++ d :: B)) with (A ++ d :: B).
  rewrite find_char_app
    by (revert HA; apply forallb_impl; intros x; apply not_delim_not, Hc).
  cbn [Py.find_char]. destruct (d =? c)%N; cbn.
  - f_equal. lia.
  - destruct (Py.find_char c B); cbn; [f_equal; lia|reflexivity].
Qed.

Lemma find_delim_none (a b c : N) (A : str) :
  delimiter c = true -> forallb not_delim A = true ->
  Py.find_from c 2 (a :: b :: A) = None.
Proof.
  intros Hc HA. unfold Py.find_from.
  change (drop 2 (a :: b :: A)) with A.
  replace A with (A ++ []) at 1 by apply app_nil_r.
  rewrite find_char_app
    by (revert HA; apply forallb_impl; intros x; apply not_delim_not, Hc).
  reflexivity.
Qed.

(** [_splitnetloc(url, 2)] cuts at the first of / ? # after the two
    slashes. *)
Lemma splitnetloc_cut (a b : N) (A B : str) :
  forallb not_delim A = true -> tail_ok B ->
  Urllib.splitnetloc (a :: b :: A ++ B) 2 = (A, B).
Proof.
  intros HA HB. destruct B as [|d B].
  - rewrite app_nil_r.
    unfold Urllib.splitnetloc. change (cps "/?#") with [47%N; 63%N; 35%N].
    cbn [fold_left]. rewrite !find_delim_none by (reflexivity || exact HA).
    rewrite firstn_all, drop_all. reflexivity.
  - unfold Urllib.splitnetloc. change (cps "/?#") with [47%N; 63%N; 35%N].
    cbn [fold_left]. rewrite !find_delim_from by (reflexivity || exact HA).
    assert (HD :
      (let delim0 := length (a :: b :: A ++ d :: B) in
       let delim1 :=
         match (if (d =? 47)%N then Some (2 + length A)%nat
                else (fun j => (2 + length A + S j)%nat) <$> Py.find_char 47 B)
         with Some w => Nat.min delim0 w | None => delim0 end in
       let delim2 :=
         match (if (d =? 63)%N then Some (2 + length A)%nat
                else (fun j => (2 + length A + S j)%nat) <$> Py.find_char 63 B)
         with Some w => Nat.min delim1 w | None => delim1 end in
       match (if (d =? 35)%N then Some (2 + length A)%nat
              else (fun j => (2 + length A + S j)%nat) <$> Py.find_char 35 B)
       with Some w => Nat.min delim2 w | None => delim2 end)
      = (2 + length A)%nat).
    { cbn [length]. rewrite length_app. cbn [length].
      cbn [tail_ok] in HB. unfold delimiter in HB.
      destruct (d =? 47)%N, (d =? 63)%N, (d =? 35)%N; try discriminate;
        destruct (Py.find_char 47 B), (Py.find_char 63 B),
          (Py.find_char 35 B); cbn; lia. }
    cbv zeta in HD. rewrite HD. clear HD.
    change (take (2 + length A) (a :: b :: A ++ d :: B))
      with (a :: b :: take (length A) (A ++ d :: B)).
    change (drop (2 + length A) (a :: b :: A ++ d :: B))
      with (drop (length A) (A ++ d :: B)).
    rewrite take_app_length, drop_app_length. reflexivity.
Qed.

Lemma span_drop_tail_ok (v : str) : tail_ok (span_drop not_delim v).
Proof.
  destruct (span_drop not_delim v) as [|d B] eqn:E; [exact I|].
  apply span_drop_head in E. unfold not_delim in E.
  apply negb_false_iff in E. exact E.
Qed.

Lemma splitnetloc_span (a b : N) (v : str) :
  Urllib.splitnetloc (a :: b :: v) 2
  = (span_take not_delim v, span_drop not_delim v).
Proof.
  rewrite <- (span_take_drop not_delim v) at 1.
  apply splitnetloc_cut; [apply span_take_all | apply span_drop_tail_ok].
Qed.

(** *** The scheme *)

Lemma split_scheme_default (url u' : str) :
  Urllib.split_scheme url [] = ([], u') ->
  forall d, Urllib.split_scheme url d = (d, u').
Proof.
  unfold Urllib.split_scheme.
  destruct url as [|x url]; [intros [= <-]; reflexivity|].
  destruct (Py.find_char 58 (x :: url)) as [[|i]|];
    try (intros [= <-]; reflexivity).
  destruct (_ && _); [discriminate | intros [= <-]; reflexivity].
Qed.

Lemma split_scheme_found (url s u' : str) :
  Urllib.split_scheme url [] = (s, u') -> s <> [] -> scheme_ok s.
Proof.
  unfold Urllib.split_scheme.
  destruct (Py.find_char 58 url) as [[|i]|];
    try (intros [= <- _]; congruence).
  destruct (_ && _) eqn:E; [|intros [= <- _]; congruence].
  apply andb_true_iff in E as [Ha Hs]. intros [= <- _] Hne.
  destruct url as [|x url]; [contradiction|]. cbn [take map hd] in *.
  repeat split.
  - discriminate.
  - apply lower_alpha, Ha.
  - cbn [forallb] in Hs. apply andb_true_iff in Hs as [Hx Hs]. cbn [forallb].
    rewrite (proj1 (lower_scheme_char _ Hx)). cbn [andb].
    clear -Hs. induction (take i url) as [|y l IH]; [reflexivity|].
    cbn [forallb map] in *. apply andb_true_iff in Hs as [Hy Hs].
    rewrite (proj1 (lower_scheme_char _ Hy)), (IH Hs). reflexivity.
  - cbn [forallb] in Hs. apply andb_true_iff in Hs as [Hx Hs].
    cbn [map]. rewrite (proj2 (lower_scheme_char _ Hx)). f_equal.
    clear -Hs. induction (take i url) as [|y l IH]; [reflexivity|].
    cbn [forallb map] in *. apply andb_true_iff in Hs as [Hy Hs].
    rewrite (proj2 (lower_scheme_char _ Hy)), (IH Hs). reflexivity.
Qed.

Lemma drop_past {A} (l r : list A) c :
  drop (S (length l)) (l ++ c :: r) = r.
Proof. induction l as [|x l IH]; [reflexivity|exact IH]. Qed.

Lemma split_scheme_assembled (sch rest d : str) :
  scheme_ok sch ->
  Urllib.split_scheme (sch ++ 58%N :: rest) d = (sch, rest).
Proof.
  intros (Hne & Ha & Hs & Hl). unfold Urllib.split_scheme.
  rewrite find_char_app
    by (revert Hs; apply forallb_impl; intros x Hx;
        rewrite (scheme_char_not_colon _ Hx); reflexivity).
  cbn [Py.find_char]. rewrite N.eqb_refl. cbn [fmap option_fmap option_map].
  rewrite Nat.add_0_r.
  destruct sch as [|x sch']; [contradiction|].
  change (length (x :: sch')) with (S (length sch')). cbv iota.
  change (S (length sch')) with (length (x :: sch')).
  rewrite take_app_length, drop_past, Hs, Hl.
  change (hd 0%N ((x :: sch') ++ 58%N :: rest)) with (hd 0%N (x :: sch')).
  rewrite Ha. reflexivity.
Qed.

(** *** [urlsplit] after the scheme *)

Lemma urlsplit_unfold ck (url scheme : str) :
  Urllib.urlsplit ck url scheme
  = let '(s, u) :=
      Urllib.split_scheme
        (Urllib.remove_unsafe (Py.lstrip Urllib.c0_control_or_space url))
        (Urllib.remove_unsafe (Py.strip Urllib.c0_control_or_space scheme)) in
    Urllib.urlsplit_tail ck s u.
Proof. reflexivity. Qed.

(** the result of the tail, once the netloc is known *)
Lemma tail_finish ck (s nl u : str) :
  (let '(url, fragment) := Py.split_once 35 u in
   let '(url, query) := Py.split_once 63 url in
   match Urllib.checknetloc ck nl with
   | Some msg => Throws (ValueError msg)
   | None =>
       Returns {| Urllib.sr_scheme := s; Urllib.sr_netloc := nl;
                  Urllib.sr_path := url; Urllib.sr_query := query;
                  Urllib.sr_fragment := fragment |}
   end)
  = match Urllib.checknetloc ck nl with
    | Some msg => Throws (ValueError msg)
    | None =>
        Returns {| Urllib.sr_scheme := s; Urllib.sr_netloc := nl;
                   Urllib.sr_path := (Py.split_once 63 (Py.split_once 35 u).1).1;
                   Urllib.sr_query := (Py.split_once 63 (Py.split_once 35 u).1).2;
                   Urllib.sr_fragment := (Py.split_once 35 u).2 |}
    end.
Proof.
  destruct (Py.split_once 35 u) as [u1 f]. cbn [fst snd].
  destruct (Py.split_once 63 u1) as [u2 q]. reflexivity.
Qed.

(** the tail, by cases on the two leading slashes *)
Lemma tail_cases ck (s u : str) r :
  Urllib.urlsplit_tail ck s u = Returns r ->
  Urllib.sr_scheme r = s
  /\ (forall s', Urllib.urlsplit_tail ck s' u = Returns (with_scheme s' r))
  /\ (Urllib.sr_netloc r = []
      \/ exists a b v,
           u = a :: b :: v
           /\ Urllib.sr_netloc r = span_take not_delim v
           /\ netloc_accepted ck (Urllib.sr_netloc r)).
Proof.
  unfold Urllib.urlsplit_tail. destruct (Py.startswith [slash; slash] u) eqn:E.
  - apply startswith_inv in E as [v ->].
    change ([slash; slash] ++ v) with (slash :: slash :: v).
    rewrite splitnetloc_span. cbv zeta. cbv iota. cbv beta.
    set (nl := span_take not_delim v). set (rest := span_drop not_delim v).
    destruct ((Py.contains_char 91 nl && negb (Py.contains_char 93 nl))
              || (Py.contains_char 93 nl && negb (Py.contains_char 91 nl)))
      eqn:E1; [discriminate|].
    assert (Hgo : forall s0 r0,
      (let '(url, fragment) := Py.split_once 35 rest in
       let '(url0, query) := Py.split_once 63 url in
       match Urllib.checknetloc ck nl with
       | Some msg => Throws (ValueError msg)
       | None =>
           Returns {| Urllib.sr_scheme := s0; Urllib.sr_netloc := nl;
                      Urllib.sr_path := url0; Urllib.sr_query := query;
                      Urllib.sr_fragment := fragment |}
       end) = Returns r0 ->
      Urllib.checknetloc ck nl = None
      /\ Urllib.sr_scheme r0 = s0 /\ Urllib.sr_netloc r0 = nl
      /\ forall s',
          (let '(url, fragment) := Py.split_once 35 rest in
           let '(url0, query) := Py.split_once 63 url in
           match Urllib.checknetloc ck nl with
           | Some msg => Throws (ValueError msg)
           | None =>
               Returns {| Urllib.sr_scheme := s'; Urllib.sr_netloc := nl;
                          Urllib.sr_path := url0; Urllib.sr_query := query;
                          Urllib.sr_fragment := fragment |}
           end) = Returns (with_scheme s' r0)).
    { intros s0 r0. rewrite tail_finish.
      destruct (Urllib.checknetloc ck nl) eqn:E3; [discriminate|].
      intros [= <-]. split; [reflexivity|]. split; [reflexivity|].
      split; [reflexivity|]. intros s'.
      destruct (Py.split_once 35 rest) as [u1 f]. cbn [fst snd].
      destruct (Py.split_once 63 u1) as [u2 q]. reflexivity. }
    destruct (Py.contains_char 91 nl && Py.contains_char 93 nl) eqn:E2.
    + destruct (Urllib.check_bracketed_netloc ck nl) eqn:E4; [discriminate|].
      intros H. apply Hgo in H as (E3 & Hs & Hn & Hall).
      split; [exact Hs|]. split; [exact Hall|]. right.
      exists slash, slash, v. split; [reflexivity|]. split; [exact Hn|].
      rewrite Hn. unfold netloc_accepted. cbv zeta. rewrite E1, E2. auto.
    + intros H. apply Hgo in H as (E3 & Hs & Hn & Hall).
      split; [exact Hs|]. split; [exact Hall|]. right.
      exists slash, slash, v. split; [reflexivity|]. split; [exact Hn|].
      rewrite Hn. unfold netloc_accepted. cbv zeta. rewrite E1, E2.
      split; [reflexivity|]. split; [discriminate|exact E3].
  - rewrite tail_finish.
    destruct (Urllib.checknetloc ck []) eqn:E3; [discriminate|].
    intros [= <-]. split; [reflexivity|]. split; [|left; reflexivity].
    intros s'. cbv iota.
    destruct (Py.split_once 35 u) as [u1 f]. cbn [fst snd].
    destruct (Py.split_once 63 u1) as [u2 q]. reflexivity.
Qed.

Lemma tail_assembled ck (s nl t : str) :
  forallb not_delim nl = true -> netloc_accepted ck nl -> tail_ok t ->
  exists r,
    Urllib.urlsplit_tail ck s (slash :: slash :: nl ++ t) = Returns r
    /\ Urllib.sr_scheme r = s /\ Urllib.sr_netloc r = nl.
Proof.
  intros Hd (H1 & H2 & H3) Ht. cbv zeta in H1, H2. unfold Urllib.urlsplit_tail.
  change (Py.startswith [slash; slash] (slash :: slash :: nl ++ t)) with true.
  cbv iota. rewrite (splitnetloc_cut slash slash nl t Hd Ht).
  cbv zeta. cbv iota. cbv beta. rewrite H1.
  destruct (Py.contains_char 91 nl && Py.contains_char 93 nl) eqn:E2.
  - rewrite (H2 eq_refl). cbv beta iota. rewrite tail_finish, H3.
    eexists. repeat split.
  - cbv beta iota. rewrite tail_finish, H3. eexists. repeat split.
Qed.

(** *** [urlsplit] as a whole *)

Lemma split_scheme_rest (url d s u' : str) :
  Urllib.split_scheme url d = (s, u') -> exists n, u' = drop n url.
Proof.
  unfold Urllib.split_scheme.
  destruct (Py.find_char 58 url) as [[|i]|];
    try (intros [= _ <-]; exists 0%nat; reflexivity).
  destruct (_ && _); intros [= _ <-]; [eexists; reflexivity|].
  exists 0%nat. reflexivity.
Qed.

Lemma span_take_forallb (f g : N -> bool) (l : str) :
  forallb f l = true -> forallb f (span_take g l) = true.
Proof.
  induction l as [|x l IH]; simpl; [reflexivity|]. intros H.
  apply andb_true_iff in H as [Hx H].
  destruct (g x); [|reflexivity]. simpl. rewrite Hx, (IH H). reflexivity.
Qed.

Lemma remove_unsafe_safe (s : str) :
  forallb safe_char (Urllib.remove_unsafe s) = true.
Proof. rewrite remove_unsafe_filter. apply filter_forallb. Qed.

Lemma urlsplit_scheme_ok ck (u : str) r :
  Urllib.urlsplit ck u [] = Returns r ->
  Urllib.sr_scheme r <> [] -> scheme_ok (Urllib.sr_scheme r).
Proof.
  rewrite urlsplit_unfold.
  change (Urllib.remove_unsafe (Py.strip Urllib.c0_control_or_space []))
    with (@nil N).
  destruct (Urllib.split_scheme _ []) as [s u'] eqn:E.
  intros H Hne. apply tail_cases in H as (Hs & _). rewrite Hs in *.
  eapply split_scheme_found; eassumption.
Qed.

Lemma urlsplit_netloc_ok ck (u d : str) r :
  Urllib.urlsplit ck u d = Returns r ->
  Urllib.sr_netloc r <> [] ->
  forallb not_delim (Urllib.sr_netloc r) = true
  /\ forallb safe_char (Urllib.sr_netloc r) = true
  /\ netloc_accepted ck (Urllib.sr_netloc r).
Proof.
  rewrite urlsplit_unfold.
  destruct (Urllib.split_scheme _ _) as [s u'] eqn:E.
  intros H Hne. apply tail_cases in H as (_ & _ & [Hn|Hn]); [contradiction|].
  destruct Hn as (a & b & v & -> & Hnl & Hacc).
  apply split_scheme_rest in E as [n En].
  split; [rewrite Hnl; apply span_take_all|]. split; [|exact Hacc].
  rewrite Hnl. apply span_take_forallb.
  change v with (drop 2 (a :: b :: v)). rewrite En.
  apply forallb_drop, forallb_drop, remove_unsafe_safe.
Qed.

Lemma urlsplit_default ck (u : str) r :
  Urllib.urlsplit ck u [] = Returns r ->
  Urllib.sr_scheme r = [] ->
  forall d,
    Urllib.urlsplit ck u d
    = Returns (with_scheme
                 (Urllib.remove_unsafe
                    (Py.strip Urllib.c0_control_or_space d)) r).
Proof.
  rewrite urlsplit_unfold.
  change (Urllib.remove_unsafe (Py.strip Urllib.c0_control_or_space []))
    with (@nil N).
  destruct (Urllib.split_scheme _ []) as [s u'] eqn:E.
  intros H Hs d. apply tail_cases in H as (Hs' & Hall & _).
  rewrite Hs in Hs'. subst s.
  rewrite urlsplit_unfold, (split_scheme_default _ _ E). apply Hall.
Qed.

Lemma delimiter_safe (c : N) : delimiter c = true -> safe_char c = true.
Proof.
  unfold delimiter. intros H.
  repeat (apply orb_true_iff in H as [H|H]); apply N.eqb_eq in H; subst c;
    reflexivity.
Qed.

Lemma tail_ok_filter (t : str) : tail_ok t -> tail_ok (List.filter safe_char t).
Proof.
  destruct t as [|c t]; [auto|]. cbn [tail_ok List.filter]. intros H.
  rewrite (delimiter_safe _ H). exact H.
Qed.

(** A URL put together from a scheme, an accepted netloc and a tail parses
    back into that scheme and that netloc. *)
Lemma urlsplit_assembled ck (sch nl t d : str) :
  scheme_ok sch -> forallb not_delim nl = true ->
  forallb safe_char nl = true -> netloc_accepted ck nl -> tail_ok t ->
  exists r,
    Urllib.urlsplit ck (sch ++ [58%N; slash; slash] ++ nl ++ t) d = Returns r
    /\ Urllib.sr_scheme r = sch /\ Urllib.sr_netloc r = nl.
Proof.
  intros Hsch Hd Hsafe Hacc Ht. rewrite urlsplit_unfold.
  pose proof Hsch as (Hne & Ha & Hs & Hl).
  rewrite lstrip_none.
  2:{ destruct sch as [|x sch']; [contradiction|]. cbn [app].
      apply scheme_char_not_c0, alpha_scheme_char, Ha. }
  rewrite remove_unsafe_filter, !List.filter_app.
  rewrite (filter_all safe_char sch)
    by (revert Hs; apply forallb_impl, scheme_char_safe).
  rewrite (filter_all safe_char nl) by exact Hsafe.
  change (List.filter safe_char [58%N; slash; slash])
    with [58%N; slash; slash].
  change (sch ++ [58%N; slash; slash] ++ nl ++ List.filter safe_char t)
    with (sch ++ 58%N :: slash :: slash :: nl ++ List.filter safe_char t).
  rewrite (split_scheme_assembled _ _ _ Hsch). cbv iota.
  apply tail_assembled; [exact Hd | exact Hacc | apply tail_ok_filter, Ht].
Qed.

(** *** [urlparse], [urlunparse], [urljoin] *)

Lemma urlparse_fields ck (u d : str) r :
  Urllib.urlsplit ck u d = Returns r ->
  exists p,
    Urllib.urlparse ck u d = Returns p
    /\ Urllib.scheme p = Urllib.sr_scheme r
    /\ Urllib.netloc p = Urllib.sr_netloc r.
Proof.
  intros H. unfold Urllib.urlparse. rewrite H.
  destruct (_ && _); [destruct (Urllib.splitparams _)|];
    (eexists; split; [reflexivity|split; reflexivity]).
Qed.

Lemma nonempty_true (s : str) : s <> [] -> Urllib.nonempty s = true.
Proof. destruct s; [congruence|reflexivity]. Qed.

Lemma urlunparse_shape (p : Urllib.ParseResult) :
  Urllib.scheme p <> [] -> Urllib.netloc p <> [] ->
  exists t,
    Urllib.urlunparse p
    = Urllib.scheme p ++ [58%N; slash; slash] ++ Urllib.netloc p ++ t
    /\ tail_ok t.
Proof.
  intros Hs Hn. unfold Urllib.urlunparse, Urllib.urlunsplit.
  rewrite (nonempty_true _ Hs), (nonempty_true _ Hn). cbn [orb].
  set (url0 := if Urllib.nonempty (Urllib.params p)
               then Urllib.path p ++ [59%N] ++ Urllib.params p
               else Urllib.path p).
  set (url1 := if Urllib.nonempty url0 && negb (Py.eqb (take 1 url0) [slash])
               then slash :: url0 else url0).
  assert (H1 : tail_ok url1).
  { subst url1. destruct url0 as [|c u0]; [exact I|].
    cbn [Urllib.nonempty andb take Py.eqb]. rewrite andb_true_r.
    destruct (c =? slash)%N eqn:E; cbn [negb]; [|reflexivity].
    apply N.eqb_eq in E. subst c. reflexivity. }
  assert (H2 : forall (q : str) c,
             delimiter c = true ->
             tail_ok (if Urllib.nonempty q then url1 ++ [c] ++ q else url1)).
  { intros q c Hc. destruct q; cbn [Urllib.nonempty]; [exact H1|].
    destruct url1; [exact Hc|exact H1]. }
  exists (let t1 := if Urllib.nonempty (Urllib.query p)
                   then url1 ++ [63%N] ++ Urllib.query p else url1 in
          if Urllib.nonempty (Urllib.fragment p)
          then t1 ++ [35%N] ++ Urllib.fragment p else t1).
  split.
  - destruct (Urllib.nonempty (Urllib.query p)),
      (Urllib.nonempty (Urllib.fragment p));
      cbv zeta; rewrite <- ?app_assoc; reflexivity.
  - cbv zeta. specialize (H2 (Urllib.query p) 63%N eq_refl).
    destruct (Urllib.nonempty (Urllib.fragment p)); [|exact H2].
    destruct (if Urllib.nonempty (Urllib.query p)
              then url1 ++ [63%N] ++ Urllib.query p else url1);
      [reflexivity|exact H2].
Qed.

Lemma relative_uses_netloc (s : str) :
  Py.mem s Urllib.uses_relative = true -> Py.mem s Urllib.uses_netloc = true.
Proof.
  unfold Py.mem at 1. intros H.
  apply existsb_exists in H as (x & Hin & Hx). apply eqb_eq in Hx. subst x.
  assert (Hall : forallb (fun x => Py.mem x Urllib.uses_netloc)
                   Urllib.uses_relative = true) by (vm_compute; reflexivity).
  rewrite forallb_forall in Hall. apply Hall, Hin.
Qed.

(** Joining a relative reference to an absolute base gives an absolute URL:
    it has the scheme of the base, and the authority of the reference if it
    has one, of the base otherwise. *)
Lemma urljoin_absolute ck (base ref sch nl nl_ref : str) :
  absolute_url ck base sch nl ->
  Py.mem sch Urllib.uses_relative = true ->
  relative_ref ck ref nl_ref ->
  exists u,
    Urllib.urljoin ck base ref = Returns u
    /\ absolute_url ck u sch (if Urllib.nonempty nl_ref then nl_ref else nl).
Proof.
  intros Habs Hrel (rr & Hr & Hrs & Hrn).
  pose proof Habs as (rb & Hb & Hbs & Hbn & Hs & Hn).
  assert (Hsch : scheme_ok sch).
  { rewrite <- Hbs. apply (urlsplit_scheme_ok ck base); [exact Hb|].
    rewrite Hbs. exact Hs. }
  destruct (urlsplit_netloc_ok ck base [] rb Hb) as (Hd & Hsafe & Hacc);
    [rewrite Hbn; exact Hn|]. rewrite Hbn in Hd, Hsafe, Hacc.
  destruct base as [|b0 base'].
  { exfalso. apply Hs. rewrite <- Hbs. rewrite urlsplit_unfold in Hb.
    apply tail_cases in Hb as (Hb & _). exact Hb. }
  destruct ref as [|y ref'].
  { exists (b0 :: base'). split; [reflexivity|].
    replace nl_ref with (@nil N); [exact Habs|].
    rewrite <- Hrn. rewrite urlsplit_unfold in Hr.
    apply tail_cases in Hr as (_ & _ & [Hr|(a & b & v & Hv & _)]);
      [symmetry; exact Hr|discriminate]. }
  destruct (urlparse_fields _ _ _ _ Hb) as (pb & Hpb & Hpbs & Hpbn).
  pose proof (urlsplit_default _ _ _ Hr Hrs sch) as Hr'.
  pose proof Hsch as (_ & _ & Hchars & _).
  rewrite (strip_scheme _ Hchars), (remove_unsafe_scheme _ Hchars) in Hr'.
  destruct (urlparse_fields _ _ _ _ Hr') as (pu & Hpu & Hpus & Hpun).
  cbn [with_scheme Urllib.sr_scheme Urllib.sr_netloc] in Hpus, Hpun.
  rewrite Hrn in Hpun. rewrite Hbs in Hpbs. rewrite Hbn in Hpbn.
  assert (Hdone : forall p nl',
            Urllib.scheme p = sch -> Urllib.netloc p = nl' -> nl' <> [] ->
            forallb not_delim nl' = true -> forallb safe_char nl' = true ->
            netloc_accepted ck nl' ->
            absolute_url ck (Urllib.urlunparse p) sch nl').
  { intros p nl' Hps Hpn Hn' Hd' Hsafe' Hacc'.
    destruct (urlunparse_shape p) as (t & Ht & Hok);
      [rewrite Hps; exact Hs | rewrite Hpn; exact Hn'|].
    rewrite Hps, Hpn in Ht. rewrite Ht.
    destruct (urlsplit_assembled ck sch nl' t [] Hsch Hd' Hsafe' Hacc' Hok)
      as (r & Hr1 & Hr2 & Hr3).
    exists r. auto. }
  unfold Urllib.urljoin. rewrite Hpb, Hpbs, Hpu, Hpus, Hpun, Hpbn.
  rewrite eqb_refl, Hrel, (relative_uses_netloc _ Hrel). cbn [negb orb andb].
  destruct (Urllib.nonempty nl_ref) eqn:Enl.
  - eexists. split; [reflexivity|].
    assert (Hne : nl_ref <> []) by (destruct nl_ref; [discriminate|congruence]).
    rewrite <- Hrn in Hne.
    destruct (urlsplit_netloc_ok ck (y :: ref') [] rr Hr Hne)
      as (Hd' & Hsafe' & Hacc').
    rewrite Hrn in Hd', Hsafe', Hacc', Hne.
    apply Hdone; assumption.
  - match goal with
    | |- exists u, (if ?c then Returns (Urllib.urlunparse ?p1)
                    else Returns (Urllib.urlunparse ?p2)) = _ /\ _ =>
        destruct c; eexists; (split; [reflexivity|]);
          apply Hdone; (reflexivity || assumption)
    end.
Qed.

(** ** The download loop *)

Lemma concat_nonempty (chunks : list bytes) :
  concat (List.filter nonempty_chunk chunks) = concat chunks.
Proof.
  induction chunks as [|[|b ch] rest IH]; simpl; [reflexivity|exact IH|].
  rewrite IH. reflexivity.
Qed.

Lemma state_eta (st : state) :
  st = {| stdout := stdout st; files := files st |}.
Proof. destruct st. reflexivity. Qed.

(** The loop, run from a state in which the file is open with contents [c]. *)
Lemma download_chunks_run (file : str) (total : Z) (chunks : list bytes) :
  forall (done : Z) (st : state) (c : bytes),
  files st !! file = Some c ->
  download_chunks file total chunks done st
  = (Ok (done + Z.of_nat (length (concat chunks))),
     {| stdout := stdout st ++ progress_lines total done chunks;
        files := <[file := c ++ concat chunks]> (files st) |}).
Proof.
  induction chunks as [|chunk rest IH]; intros done st c Hc.
  - cbn [download_chunks concat progress_lines length]. unfold ret.
    rewrite !app_nil_r, Z.add_0_r, (insert_id _ _ _ Hc).
    rewrite <- state_eta. reflexivity.
  - destruct chunk as [|b ch].
    + cbn [download_chunks download_chunk concat progress_lines app].
      unfold bind at 1. unfold ret at 1. apply IH, Hc.
    + cbn [download_chunks]. unfold bind at 1.
      set (done' := done + Z.of_nat (length (b :: ch))).
      assert (Hstep : exists st1,
        download_chunk file total done (b :: ch) st = (Ok done', st1)
        /\ stdout st1
           = stdout st
             ++ (if total =? 0 then [] else [progress_line done' total])
        /\ files st1 = <[file := c ++ b :: ch]> (files st)).
      { unfold download_chunk, bind, f_write, ret, print. rewrite Hc.
        cbn [default]. fold done'.
        destruct (total =? 0); eexists; cbn [stdout files];
          (split; [reflexivity|]); rewrite ?app_nil_r; split; reflexivity. }
      destruct Hstep as (st1 & -> & Hout & Hfiles).
      rewrite (IH done' st1 (c ++ b :: ch))
        by (rewrite Hfiles; apply lookup_insert_eq).
      rewrite Hout, Hfiles, insert_insert_eq.
      cbn [concat progress_lines]. fold done'.
      rewrite length_app, Nat2Z.inj_add, <- !app_assoc.
      do 2 f_equal. subst done'. lia.
Qed.

(** The [with] block of [download], when the request, the header, the
    directory and the file are in order. *)
Lemma download_stream_run (e : env) (completed real save_path : str)
    (st : state) (r : Response) (total : Z) :
  session_get_stream e real = Returns r ->
  Requests.raise_for_status r = Returns tt ->
  content_length r = Returns total ->
  mkdir e save_path = Returns tt ->
  open_wb e (path_child e save_path (cps "downloaded_file.zip")) = Returns tt ->
  download_stream e completed real save_path st
  = (match Requests.iter_error r with
     | Some msg => Raise (RequestException msg)
     | None => Ok tt
     end,
     {| stdout :=
          stdout st ++ progress_lines total 0 (Requests.iter_content r)
          ++ match Requests.iter_error r with
             | Some _ => []
             | None => [[10%N] ++ completed ++ path_str e save_path ++ [10%N]]
             end;
        files :=
          <[path_child e save_path (cps "downloaded_file.zip")
            := concat (Requests.iter_content r)]> (files st) |}).
Proof.
  intros Hget Hstatus Hlen Hmk Hopen.
  unfold download_stream, f_open_wb, bind.
  rewrite call_run, Hget. cbn [ended].
  rewrite call_run, Hstatus. cbn [ended].
  rewrite call_run, Hlen. cbn [ended].
  rewrite call_run, Hmk. cbn [ended].
  rewrite call_run, Hopen. cbn [ended].
  rewrite (download_chunks_run _ _ _ 0 _ [])
    by (cbn [files]; apply lookup_insert_eq).
  cbn [stdout files app]. rewrite insert_insert_eq.
  destruct (Requests.iter_error r); unfold raise, print; cbn [stdout files];
    rewrite <- ?app_assoc, ?app_nil_r; reflexivity.
Qed.

(** ** Leaving through [sys.exit] *)











Lemma exits_submit codes e no_link target csrf :
  exits_within codes (submit_and_extract e no_link target csrf).
Proof.
  intros st c st' H. rewrite submit_and_extract_run in H.
  destruct (working_response e target csrf); [|discriminate].
  destruct (extract_link _ _ _ _); discriminate.
Qed.



(** ** The main block *)


Lemma main_run (e : env) (a target local : str) (st : state) :
  cpfrx_file.main e [a; target; local] st
  = match pipeline cpfrx_file.download cpfrx_file.unzip e target local st with
    | (Ok _, s1) => (Ok tt, s1)
    | (Raise ex, s1) =>
        (Exit 2,
         {| stdout := stdout s1
                      ++ [cpfrx_file.failed ++ cps " " ++ exc_str ex ++ [10%N]];
            files := files s1 |})
    | (Exit code, s1) => (Exit code, s1)
    end.
Proof.
  unfold cpfrx_file.main, try_except.
  change (cpfrx_file.download e target local ;; cpfrx_file.unzip e local)
    with (pipeline cpfrx_file.download cpfrx_file.unzip e target local).
  destruct (pipeline _ _ e target local st) as [[[]|ex|code] s1]; reflexivity.
Qed.

Lemma main_en_run (e : env) (a target local : str) (st : state) :
  cpfrx_file_en.main e [a; target; local] st
  = match pipeline cpfrx_file_en.download cpfrx_file_en.unzip e target local st
    with
    | (Ok _, s1) => (Ok tt, s1)
    | (Raise ex, s1) =>
        (Exit 2,
         {| stdout := stdout s1 ++ [cps "Failed: " ++ exc_str ex ++ [10%N]];
            files := files s1 |})
    | (Exit code, s1) => (Exit code, s1)
    end.
Proof.
  unfold cpfrx_file_en.main, try_except.
  change (cpfrx_file_en.download e target local ;; cpfrx_file_en.unzip e local)
    with (pipeline cpfrx_file_en.download cpfrx_file_en.unzip e target local).
  destruct (pipeline _ _ e target local st) as [[[]|ex|code] s1]; reflexivity.
Qed.

(** ** get_csrf *)






(** * The claims *)





(** C3. When the body holds no data-u attribute and its (leftmost)
    window.location.href assignment has the target Y, both files return
    what urljoin makes of the response URL and of Y with every
    backslash-slash pair replaced by a slash.  When the response URL is
    absolute, with a scheme that allows relative references (http and https
    do), and the unescaped Y is a relative reference, one with no scheme of
    its own, the link returned is absolute: it has the scheme of the
    response URL, and its authority unless Y brings one. *)
Theorem location_is_resolved (e : env) (target : str) (st : state)
    (resp : Response) (pre Y : str) :
  reaches_rules e target st resp ->
  ~ present data_u_shape (Requests.text resp) ->
  leftmost location_shape (Requests.text resp) pre Y ->
  let joined :=
    Urllib.urljoin (url_checks e) (Requests.url resp) (slashes_unescaped Y) in
  (cpfrx_file.get_real_url e target st = (ended joined, st)
   /\ cpfrx_file_en.get_real_url e target st = (ended joined, st))
  /\ forall sch nl nl_ref,
       absolute_url (url_checks e) (Requests.url resp) sch nl ->
       Py.mem sch Urllib.uses_relative = true ->
       relative_ref (url_checks e) (slashes_unescaped Y) nl_ref ->
       exists u,
         joined = Returns u
         /\ absolute_url (url_checks e) u sch
              (if Urllib.nonempty nl_ref then nl_ref else nl).
Proof.
  intros Hr Ha HL joined. split.
  - rewrite (get_real_url_rules _ _ _ _ Hr),
      (get_real_url_en_rules _ _ _ _ Hr).
    rewrite !(extract_location _ _ _ _ _ _ Ha HL), unescape_slash_spec.
    split; reflexivity.
  - intros sch nl nl_ref Habs Hrel Href. apply urljoin_absolute; assumption.
Qed.

Lemma location_is_resolved_witness :
  cpfrx_file.get_real_url
    (calm_env gateway_url body_location (page [] [])) target_iso st0
  = (Ok (cps "https://www.a.cpfrx.info/go/file.iso"), st0)
  /\ absolute_url
       (url_checks (calm_env gateway_url body_location (page [] [])))
       (cps "https://www.a.cpfrx.info/go/file.iso")
       (cps "https") (cps "www.a.cpfrx.info").
Proof.
  pose proof (location_is_resolved
                (calm_env gateway_url body_location (page [] []))
                target_iso st0 (page gateway_url body_location)
                [] (cps "\/go\/file.iso")) as H.
  destruct H as ([Hzh _] & Habs).
  - exists (cps "tok"). split; vm_compute; reflexivity.
  - apply (search_absent _ _ match_data_u_sound match_data_u_complete).
    vm_compute. reflexivity.
  - apply leftmost_at_start. exists [32%N], [32%N]. eexists.
    split; [reflexivity|]. split; [reflexivity|]. split; [reflexivity|].
    apply not_char_all. vm_compute. reflexivity.
  - split; [rewrite Hzh; vm_compute; reflexivity|].
    destruct (Habs (cps "https") (cps "www.a.cpfrx.info") []) as (u & Hu & Hau).
    + eexists. split; [vm_compute; reflexivity|].
      split; [reflexivity|]. split; [reflexivity|]. split; discriminate.
    + vm_compute. reflexivity.
    + eexists. split; [vm_compute; reflexivity|]. split; reflexivity.
    + vm_compute in Hu. injection Hu as <-. exact Hau.
Defined.

(** C4. When the body holds no data-u attribute, no window.location.href
    assignment and no /stream/, /get/ or /browser/ anchor, get_real_url
    returns no URL: it raises the RuntimeError whose message says that no
    direct link could be extracted. *)
Theorem no_rule_matches_raises (e : env) (target : str) (st : state)
    (resp : Response) :
  reaches_rules e target st resp ->
  ~ present data_u_shape (Requests.text resp) ->
  ~ present location_shape (Requests.text resp) ->
  ~ present anchor_shape (Requests.text resp) ->
  cpfrx_file.get_real_url e target st
  = (Raise (RuntimeError cpfrx_file.no_link), st)
  /\ cpfrx_file_en.get_real_url e target st
     = (Raise (RuntimeError cpfrx_file_en.no_link), st).
Proof.
  intros Hr Ha Hb Hc.
  rewrite (get_real_url_rules _ _ _ _ Hr), (get_real_url_en_rules _ _ _ _ Hr).
  rewrite !(extract_nothing _ _ _ _ Ha Hb Hc). split; reflexivity.
Qed.

Lemma no_rule_matches_raises_witness :
  cpfrx_file.get_real_url
    (calm_env gateway_url body_plain (page [] [])) target_iso st0
  = (Raise (RuntimeError cpfrx_file.no_link), st0)
  /\ cpfrx_file_en.get_real_url
       (calm_env gateway_url body_plain (page [] [])) target_iso st0
     = (Raise (RuntimeError cpfrx_file_en.no_link), st0).
Proof.
  apply (no_rule_matches_raises
           (calm_env gateway_url body_plain (page [] [])) target_iso st0
           (page gateway_url body_plain)).
  - exists (cps "tok"). split; vm_compute; reflexivity.
  - apply (search_absent _ _ match_data_u_sound match_data_u_complete).
    vm_compute. reflexivity.
  - apply (search_absent _ _ match_location_sound match_location_complete).
    vm_compute. reflexivity.
  - apply (search_absent _ _ match_anchor_sound match_anchor_complete).
    vm_compute. reflexivity.
Defined.

(** C5. The loop of download writes the chunks that are not empty to the
    output file in the order of their arrival: when it is over the file
    holds their concatenation, which is the whole body, N bytes for a body
    of N bytes, and the counter [done] stands at N; a chunk of length zero
    adds nothing to either.  (The file is emptied when it is opened, and the
    result holds whether or not the stream ends with an error.) *)
Theorem download_is_byte_exact (e : env) (completed real save_path : str)
    (st : state) (r : Response) (total : Z) :
  session_get_stream e real = Returns r ->
  Requests.raise_for_status r = Returns tt ->
  content_length r = Returns total ->
  mkdir e save_path = Returns tt ->
  open_wb e (path_child e save_path (cps "downloaded_file.zip")) = Returns tt ->
  let chunks := Requests.iter_content r in
  let file := path_child e save_path (cps "downloaded_file.zip") in
  let body := concat chunks in
  (files (download_stream e completed real save_path st).2 !! file
   = Some (concat (List.filter nonempty_chunk chunks)))
  /\ concat (List.filter nonempty_chunk chunks) = body
  /\ (forall st1 c,
        files st1 !! file = Some c ->
        (download_chunks file total chunks 0 st1).1
        = Ok (Z.of_nat (length body))
        /\ files (download_chunks file total chunks 0 st1).2 !! file
           = Some (c ++ body))
  /\ (Requests.iter_error r = None ->
      (download_stream e completed real save_path st).1 = Ok tt).
Proof.
  intros Hget Hstatus Hlen Hmk Hopen chunks file body.
  rewrite (download_stream_run _ _ _ _ _ _ _ Hget Hstatus Hlen Hmk Hopen).
  cbn [fst snd files]. fold chunks file. rewrite concat_nonempty.
  split; [apply lookup_insert_eq|]. split; [reflexivity|]. split.
  - intros st1 c Hc. rewrite (download_chunks_run _ _ _ _ _ _ Hc).
    cbn [fst snd files]. split; [reflexivity|apply lookup_insert_eq].
  - intros ->. reflexivity.
Qed.

Lemma download_is_byte_exact_witness :
  let e := calm_env gateway_url body_all_rules
             (file_response (Some (cps "3")) three_bytes) in
  files (download_stream e cpfrx_file.completed (cps "https://cdn/x")
           (cps "out") st0).2 !! cps "out/downloaded_file.zip"
  = Some [Byte.x50; Byte.x4b; Byte.x03]
  /\ (download_chunks (cps "out/downloaded_file.zip") 3 three_bytes 0
        {| stdout := []; files := <[cps "out/downloaded_file.zip" := []]> ∅ |}).1
     = Ok 3.
Proof.
  intros e.
  destruct (download_is_byte_exact e cpfrx_file.completed
              (cps "https://cdn/x") (cps "out") st0
              (file_response (Some (cps "3")) three_bytes) 3)
    as (Hfile & _ & Hloop & _); try reflexivity.
  split; [exact Hfile|].
  destruct (Hloop {| stdout := [];
                     files := <[cps "out/downloaded_file.zip" := []]> ∅ |} [])
    as [Hdone _]; [apply lookup_insert_eq|exact Hdone].
Defined.

(** C6, as the code has it.  When the content-length header is absent or
    reads as zero, the total is 0 and the loop prints nothing: no line per
    chunk, with or without a percentage.  The bytes are written and counted
    all the same, and the only output of the block is the closing line,
    printed when the stream ends without an error. *)
Theorem unknown_total_prints_no_progress (e : env)
    (completed real save_path : str) (st : state) (r : Response) :
  session_get_stream e real = Returns r ->
  Requests.raise_for_status r = Returns tt ->
  mkdir e save_path = Returns tt ->
  open_wb e (path_child e save_path (cps "downloaded_file.zip")) = Returns tt ->
  (Requests.headers r !! cps "content-length" = None
   \/ exists v, Requests.headers r !! cps "content-length" = Some v
                /\ py_int v = Returns 0) ->
  content_length r = Returns 0
  /\ progress_lines 0 0 (Requests.iter_content r) = []
  /\ stdout (download_stream e completed real save_path st).2
     = stdout st
       ++ match Requests.iter_error r with
          | Some _ => []
          | None => [[10%N] ++ completed ++ path_str e save_path ++ [10%N]]
          end
  /\ files (download_stream e completed real save_path st).2
       !! path_child e save_path (cps "downloaded_file.zip")
     = Some (concat (Requests.iter_content r)).
Proof.
  intros Hget Hstatus Hmk Hopen Hlen.
  assert (Hzero : content_length r = Returns 0).
  { unfold content_length. destruct Hlen as [-> | (v & -> & Hv)];
      [reflexivity|exact Hv]. }
  assert (Hquiet : forall done chunks, progress_lines 0 done chunks = []).
  { intros done chunks. revert done.
    induction chunks as [|[|b ch] rest IH]; intros done; cbn; auto. }
  split; [exact Hzero|]. split; [apply Hquiet|].
  rewrite (download_stream_run _ _ _ _ _ _ _ Hget Hstatus Hzero Hmk Hopen).
  cbn [snd stdout files]. rewrite Hquiet.
  split; [reflexivity|apply lookup_insert_eq].
Qed.

Lemma unknown_total_prints_no_progress_witness :
  let e := calm_env gateway_url body_all_rules
             (file_response (Some (cps "0")) three_bytes) in
  content_length (file_response (Some (cps "0")) three_bytes) = Returns 0
  /\ stdout (download_stream e cpfrx_file.completed (cps "https://cdn/x")
               (cps "out") st0).2
     = [[10%N] ++ cpfrx_file.completed ++ cps "out" ++ [10%N]].
Proof.
  intros e.
  destruct (unknown_total_prints_no_progress e cpfrx_file.completed
              (cps "https://cdn/x") (cps "out") st0
              (file_response (Some (cps "0")) three_bytes))
    as (Hz & _ & Hout & _); try reflexivity.
  - right. exists (cps "0"). split; vm_compute; reflexivity.
  - split; [exact Hz|exact Hout].
Defined.

(** C6 as the spec words it fails: with no content-length header and three
    bytes received, the block writes the three bytes and prints its closing
    line and nothing else, no count of the bytes transferred. *)
Lemma progress_without_total_counterexample :
  let e := calm_env gateway_url body_all_rules
             (file_response None three_bytes) in
  content_length (file_response None three_bytes) = Returns 0
  /\ progress_lines 0 0 three_bytes = []
  /\ download_stream e cpfrx_file.completed (cps "https://cdn/x")
       (cps "out") st0
     = (Ok tt,
        {| stdout := [[10%N] ++ cpfrx_file.completed ++ cps "out" ++ [10%N]];
           files := <[cps "out/downloaded_file.zip"
                      := [Byte.x50; Byte.x4b; Byte.x03]]> ∅ |}).
Proof.
  intros e. split; [reflexivity|]. split; [reflexivity|].
  rewrite (download_stream_run e _ _ _ _ (file_response None three_bytes) 0);
    reflexivity.
Qed.











(** * Further properties of the code *)

(** ** Rule (c) of get_real_url *)

Lemma present_leftmost_anchor (html : str) :
  present anchor_shape html ->
  exists pre H,
    Re.search rule_anchor html = Some (Some H)
    /\ leftmost anchor_shape html pre H.
Proof.
  intros Hp.
  apply (search_present _ _ match_anchor_complete) in Hp.
  destruct (Re.search rule_anchor html) as [m|] eqn:E; [|congruence].
  apply (search_Some_leftmost _ _ match_anchor_sound match_anchor_complete)
    in E as (pre & H & -> & HL).
  exists pre, H. split; [reflexivity|exact HL].
Qed.

Lemma extract_anchor ck no_link base (html H : str) :
  ~ present data_u_shape html ->
  ~ present location_shape html ->
  Re.search rule_anchor html = Some (Some H) ->
  extract_link ck no_link base html = Urllib.urljoin ck base H.
Proof.
  intros Ha Hb Hc. unfold extract_link.
  apply (search_absent _ _ match_data_u_sound match_data_u_complete) in Ha.
  apply (search_absent _ _ match_location_sound match_location_complete) in Hb.
  rewrite Ha, Hb, Hc. reflexivity.
Qed.

Lemma kind_head (kind : str) :
  kind ∈ [cps "stream"; cps "get"; cps "browser"] ->
  exists c k, kind = c :: k /\ safe_char c = true /\ c <> slash.
Proof.
  rewrite !elem_of_cons.
  intros [->|[->|[->|H]]]; [| | |apply elem_of_nil in H; contradiction];
    eexists _, _; (split; [reflexivity|]); split; (reflexivity || discriminate).
Qed.

(** The [href] of an anchor of rule (c) is a relative reference with no
    authority: it begins with one slash and a letter. *)
Lemma anchor_href_relative ck (kind rest : str) :
  kind ∈ [cps "stream"; cps "get"; cps "browser"] ->
  relative_ref ck ([slash] ++ kind ++ [slash] ++ rest) [].
Proof.
  intros Hk. destruct (kind_head _ Hk) as (c & k & -> & Hc & Hns).
  unfold relative_ref. rewrite urlsplit_unfold.
  rewrite lstrip_none by (vm_compute; reflexivity).
  rewrite remove_unsafe_filter.
  change (List.filter safe_char ([slash] ++ (c :: k) ++ [slash] ++ rest))
    with (slash :: List.filter safe_char (c :: k ++ [slash] ++ rest)).
  cbn [List.filter]. rewrite Hc.
  change (Urllib.remove_unsafe (Py.strip Urllib.c0_control_or_space []))
    with (@nil N).
  set (u := List.filter safe_char (k ++ [slash] ++ rest)).
  assert (Hs : Urllib.split_scheme (slash :: c :: u) [] = ([], slash :: c :: u)).
  { unfold Urllib.split_scheme.
    change (Py.find_char 58 (slash :: c :: u))
      with (S <$> Py.find_char 58 (c :: u)).
    destruct (Py.find_char 58 (c :: u)) as [i|]; reflexivity. }
  rewrite Hs. unfold Urllib.urlsplit_tail.
  assert (Hn : Py.startswith [slash; slash] (slash :: c :: u) = false).
  { cbn [Py.startswith]. rewrite andb_true_r.
    change (slash =? slash)%N with true. cbn [andb].
    apply N.eqb_neq. congruence. }
  rewrite Hn. rewrite tail_finish.
  change (Urllib.checknetloc ck []) with (@None str).
  eexists. split; [reflexivity|]. split; reflexivity.
Qed.

(** *** Which anchor, and which href *)

(** A greedy star settles on the longest run after which the rest of the
    pattern matches. *)
Lemma star_run_greedy {A} cls (k : str -> option A) (s : str) x :
  Re.star_run cls k s = Some x ->
  exists u v,
    s = u ++ v /\ forallb cls u = true /\ k v = Some x
    /\ forall u' v',
         s = u' ++ v' -> forallb cls u' = true ->
         (length u < length u')%nat -> k v' = None.
Proof.
  induction s as [|c s IH]; simpl; intros H.
  - exists [], []. repeat split; [exact H|].
    intros u' v' Heq _ Hlen. symmetry in Heq.
    apply app_eq_nil in Heq as [-> _]. simpl in Hlen. lia.
  - assert (Hstay : k (c :: s) = Some x ->
              (forall u1 v1, s = u1 ++ v1 -> forallb cls u1 = true ->
                             cls c = true -> k v1 = None) ->
              exists u v,
                c :: s = u ++ v /\ forallb cls u = true /\ k v = Some x
                /\ forall u' v',
                     c :: s = u' ++ v' -> forallb cls u' = true ->
                     (length u < length u')%nat -> k v' = None).
    { intros Hk Hn. exists [], (c :: s). repeat split; [exact Hk|].
      intros [|c' u1] v' Heq Hu' Hlen; [simpl in Hlen; lia|].
      injection Heq as <- ->. cbn [forallb] in Hu'.
      apply andb_true_iff in Hu' as [Hc Hu1]. exact (Hn _ _ eq_refl Hu1 Hc). }
    destruct (cls c) eqn:E.
    + destruct (Re.star_run cls k s) eqn:Es.
      * injection H as ->.
        destruct (IH eq_refl) as (u & v & -> & Hu & Hk & Hmax).
        exists (c :: u), v. simpl. rewrite E. repeat split; auto.
        intros [|c' u1] v' Heq Hu' Hlen; [simpl in Hlen; lia|].
        injection Heq as <- Heq. cbn [forallb] in Hu'.
        apply andb_true_iff in Hu' as [_ Hu1].
        apply (Hmax u1 v' Heq Hu1). simpl in Hlen. lia.
      * apply Hstay; [exact H|]. intros u1 v1 -> Hu1 _.
        destruct (k v1) eqn:Ek; [|reflexivity].
        exfalso. apply (star_run_complete cls k u1 v1 Hu1); [congruence|exact Es].
    + apply Hstay; [exact H|]. intros u1 v1 _ _ Hc. discriminate.
Qed.

Lemma star_run_exact {A} cls (k : str -> option A) (u v : str) x :
  forallb cls u = true -> k v = Some x ->
  (forall u' v',
     u ++ v = u' ++ v' -> forallb cls u' = true ->
     (length u < length u')%nat -> k v' = None) ->
  Re.star_run cls k (u ++ v) = Some x.
Proof.
  intros Hu Hk Hmax.
  destruct (Re.star_run cls k (u ++ v)) as [y|] eqn:E.
  - apply star_run_greedy in E as (u1 & v1 & Heq & Hu1 & Hk1 & Hmax1).
    destruct (Nat.lt_trichotomy (length u) (length u1)) as [Hlt|[Hlen|Hgt]].
    + rewrite (Hmax _ _ Heq Hu1 Hlt) in Hk1. discriminate.
    + apply app_inj_1 in Heq as [_ <-]; [|exact Hlen]. congruence.
    + rewrite (Hmax1 _ _ eq_refl Hu Hgt) in Hk. discriminate.
  - exfalso. apply (star_run_complete cls k u v Hu); [congruence|exact E].
Qed.

Lemma match_anchor_unfold (t : str) :
  Re.re_match rule_anchor t
  = if Py.startswith (cps "<a") t
    then Re.star_run (Re.not_char gt_sign) (Re.re_match rule_href) (drop 2 t)
    else None.
Proof. reflexivity. Qed.

Lemma quote_cut (a b p q : str) :
  dq ∉ a -> dq ∉ b -> a ++ dq :: p = b ++ dq :: q -> a = b /\ p = q.
Proof.
  revert b. induction a as [|x a IH]; intros [|y b] Ha Hb Heq; simpl in Heq.
  - injection Heq as ->. auto.
  - injection Heq as <- _. exfalso. apply Hb. left.
  - injection Heq as -> _. exfalso. apply Ha. left.
  - injection Heq as -> Heq.
    apply not_elem_of_cons in Ha as [_ Ha].
    apply not_elem_of_cons in Hb as [_ Hb].
    destruct (IH _ Ha Hb Heq) as [-> ->]. auto.
Qed.

Lemma kind_no_quote (kind rest : str) :
  kind ∈ [cps "stream"; cps "get"; cps "browser"] -> dq ∉ rest ->
  dq ∉ [slash] ++ kind ++ [slash] ++ rest.
Proof.
  intros Hk Hr. rewrite !not_elem_of_app. repeat split; [| | |exact Hr].
  - apply not_char_all. reflexivity.
  - rewrite !elem_of_cons in Hk.
    destruct Hk as [->|[->|[->|Hk]]];
      [| | |apply elem_of_nil in Hk; contradiction];
      apply not_char_all; reflexivity.
  - apply not_char_all. reflexivity.
Qed.

Lemma match_href_sound (v : str) m :
  Re.re_match rule_href v = Some m ->
  exists H kind rest post,
    m = Some H
    /\ v = (cps "href=" ++ [dq]) ++ H ++ dq :: post
    /\ H = [slash] ++ kind ++ [slash] ++ rest
    /\ kind ∈ [cps "stream"; cps "get"; cps "browser"]
    /\ dq ∉ rest.
Proof.
  intros Hm. unfold rule_href in Hm.
  apply match_group_sound in Hm as (u & g & post & -> & -> & Lu & Lg).
  cbn [lang] in Lu, Lg. subst u.
  destruct Lg as (g1 & g' & -> & -> & kind & g'' & -> & Hkind
                  & g3 & rest & -> & -> & Hrest).
  exists ([slash] ++ kind ++ [slash] ++ rest), kind, rest, post.
  repeat split.
  - rewrite !elem_of_cons. destruct Hkind as [->|[->| ->]]; auto.
  - apply not_char_all, Hrest.
Qed.

(** What the href part of rule (c) matches, and the group it gives. *)
Lemma match_href (v H : str) :
  Re.re_match rule_href v = Some (Some H)
  <-> exists kind rest post,
        v = (cps "href=" ++ [dq]) ++ H ++ dq :: post
        /\ H = [slash] ++ kind ++ [slash] ++ rest
        /\ kind ∈ [cps "stream"; cps "get"; cps "browser"]
        /\ dq ∉ rest.
Proof.
  split.
  - intros Hm.
    apply match_href_sound in Hm as (H' & kind & rest & post & [= <-] & Hv).
    exists kind, rest, post. exact Hv.
  - intros (kind & rest & post & -> & -> & Hkind & Hrest).
    destruct (Re.re_match rule_href
                ((cps "href=" ++ [dq])
                 ++ ([slash] ++ kind ++ [slash] ++ rest) ++ dq :: post))
      as [m|] eqn:E.
    + destruct (match_href_sound _ m E)
        as (H' & kind' & rest' & post' & -> & Hv & -> & Hkind' & Hrest').
      apply app_inv_head in Hv.
      apply quote_cut in Hv as [<- _];
        [reflexivity|apply kind_no_quote; assumption
        |apply kind_no_quote; assumption].
    + exfalso. revert E.
      replace ((cps "href=" ++ [dq])
               ++ ([slash] ++ kind ++ [slash] ++ rest) ++ dq :: post)
        with (((cps "href=" ++ [dq])
               ++ ([slash] ++ kind ++ [slash] ++ rest) ++ [dq]) ++ post)
        by (rewrite <- !app_assoc; reflexivity).
      apply match_lang_complete. unfold rule_href. cbn [lang].
      eexists _, _. split; [reflexivity|]. split; [reflexivity|].
      eexists _, _. split; [reflexivity|]. split; [|reflexivity].
      eexists _, _. split; [reflexivity|]. split; [reflexivity|].
      eexists kind, _. split; [reflexivity|]. split.
      * rewrite !elem_of_cons in Hkind.
        destruct Hkind as [->|[->|[->|Hk]]]; cbn [lang]; [auto|auto|auto|].
        apply elem_of_nil in Hk. contradiction.
      * eexists _, _. split; [reflexivity|]. split; [reflexivity|].
        apply not_char_all, Hrest.
Qed.

Lemma anchor_at_href (t mid H : str) :
  anchor_at t mid H
  <-> exists v, t = cps "<a" ++ mid ++ v /\ (gt_sign ∉ mid)
                /\ Re.re_match rule_href v = Some (Some H).
Proof.
  split.
  - intros (kind & rest & post & -> & Hmid & HH & Hk & Hr).
    eexists. split; [reflexivity|]. split; [exact Hmid|].
    apply match_href. exists kind, rest, post. auto.
  - intros (v & -> & Hmid & Hv).
    apply match_href in Hv as (kind & rest & post & -> & HH & Hk & Hr).
    exists kind, rest, post. auto.
Qed.

Lemma anchor_at_shape (t mid H : str) : anchor_at t mid H -> anchor_shape t H.
Proof.
  intros (kind & rest & post & Ht & Hmid & HH & Hk & Hr).
  exists mid, kind, rest, post. auto.
Qed.

(** At the head of a text, rule (c) gives the href that follows the longest
    text free of [>] after the [<a]. *)
Lemma match_anchor_greedy (t H : str) :
  Re.re_match rule_anchor t = Some (Some H)
  <-> exists mid,
        anchor_at t mid H
        /\ forall mid' H', anchor_at t mid' H' ->
                           (length mid' <= length mid)%nat.
Proof.
  rewrite match_anchor_unfold. split.
  - destruct (Py.startswith (cps "<a") t) eqn:E; [|discriminate].
    apply startswith_inv in E as [s ->].
    change (drop 2 (cps "<a" ++ s)) with s.
    intros Hs. apply star_run_greedy in Hs as (mid & v & -> & Hmid & Hv & Hmax).
    exists mid. split.
    + apply anchor_at_href. exists v. split; [reflexivity|].
      split; [apply not_char_all, Hmid|exact Hv].
    + intros mid' H' Hat. apply anchor_at_href in Hat as (v' & Heq & Hmid' & Hv').
      apply app_inv_head in Heq.
      destruct (Nat.le_gt_cases (length mid') (length mid)) as [|Hlt];
        [assumption|].
      apply not_char_all in Hmid'.
      rewrite (Hmax _ _ Heq Hmid' Hlt) in Hv'. discriminate.
  - intros (mid & Hat & Hmax).
    apply anchor_at_href in Hat as (v & -> & Hmid & Hv).
    rewrite startswith_app.
    change (drop 2 (cps "<a" ++ mid ++ v)) with (mid ++ v).
    apply star_run_exact; [apply not_char_all, Hmid|exact Hv|].
    intros mid' v' Heq Hmid' Hlt.
    destruct (Re.re_match rule_href v') as [[H'|]|] eqn:E; [| |reflexivity].
    + assert (Hat : anchor_at (cps "<a" ++ mid ++ v) mid' H').
      { apply anchor_at_href. exists v'. rewrite Heq.
        split; [reflexivity|]. split; [apply not_char_all, Hmid'|exact E]. }
      apply Hmax in Hat. lia.
    + apply match_href_sound in E as (? & ? & ? & ? & [=] & _).
Qed.

(** [re.search] with rule (c) gives the href of the chosen anchor. *)
Lemma search_anchor_chosen (html H : str) :
  Re.search rule_anchor html = Some (Some H)
  <-> exists pre mid, chosen_anchor html pre mid H.
Proof.
  split.
  - intros Hs. apply search_Some in Hs as (pre & t & -> & Hm & Hn).
    apply match_anchor_greedy in Hm as (mid & Hat & Hmax).
    exists pre, mid. split; [exists t; auto|].
    intros pre' H' (t' & Heq & Hs').
    destruct (Nat.le_gt_cases (length pre) (length pre')) as [|Hlt];
      [assumption|].
    specialize (Hn _ Hlt). rewrite Heq, drop_app_length in Hn.
    exfalso. exact (match_anchor_complete _ _ Hs' Hn).
  - intros (pre & mid & (t & -> & Hat & Hmax) & Hleft).
    rewrite search_skip.
    + apply search_here, match_anchor_greedy. exists mid. auto.
    + intros i Hi.
      destruct (Re.re_match rule_anchor (drop i (pre ++ t))) eqn:E;
        [|reflexivity].
      apply match_anchor_sound in E as (H' & _ & Hs').
      assert (Hle : (length pre <= length (take i pre))%nat).
      { apply (Hleft (take i pre) H'). exists (drop i (pre ++ t)).
        split; [|exact Hs'].
        rewrite <- (take_drop i (pre ++ t)) at 1.
        f_equal. rewrite take_app_le by lia. reflexivity. }
      rewrite length_take in Hle. lia.
Qed.

(** X1.  Rule (c).  When the body holds no data-u attribute and no
    window.location.href assignment, get_real_url turns to the anchors.  If
    the body holds an anchor of the form rule (c) looks for, the rule
    settles on one: the leftmost [<a] that is followed, before any [>], by
    an href beginning with /stream/, /get/ or /browser/, and in it the last
    such href.  Both files return what urljoin makes of the response URL and
    that href; the href begins with a single slash, so against an absolute
    response URL (http or https) the link is absolute, with the scheme and
    the authority of the response URL. *)
Theorem anchor_is_resolved (e : env) (target : str) (st : state)
    (resp : Response) :
  reaches_rules e target st resp ->
  ~ present data_u_shape (Requests.text resp) ->
  ~ present location_shape (Requests.text resp) ->
  (present anchor_shape (Requests.text resp) ->
   exists pre mid H, chosen_anchor (Requests.text resp) pre mid H)
  /\ forall pre mid H,
       chosen_anchor (Requests.text resp) pre mid H ->
       let joined := Urllib.urljoin (url_checks e) (Requests.url resp) H in
       cpfrx_file.get_real_url e target st = (ended joined, st)
       /\ cpfrx_file_en.get_real_url e target st = (ended joined, st)
       /\ forall sch nl,
            absolute_url (url_checks e) (Requests.url resp) sch nl ->
            Py.mem sch Urllib.uses_relative = true ->
            exists u, joined = Returns u
                      /\ absolute_url (url_checks e) u sch nl.
Proof.
  intros Hr Ha Hb. split.
  - intros Hc. destruct (present_leftmost_anchor _ Hc) as (pre & H & Hs & _).
    apply search_anchor_chosen in Hs as (pre' & mid & Hch).
    exists pre', mid, H. exact Hch.
  - intros pre mid H Hch joined.
    assert (Hs : Re.search rule_anchor (Requests.text resp) = Some (Some H))
      by (apply search_anchor_chosen; exists pre, mid; exact Hch).
    rewrite (get_real_url_rules _ _ _ _ Hr), (get_real_url_en_rules _ _ _ _ Hr).
    rewrite !(extract_anchor _ _ _ _ _ Ha Hb Hs).
    split; [reflexivity|]. split; [reflexivity|].
    intros sch nl Habs Hrel.
    destruct Hch as [(t & _ & (kind & rest & post & _ & _ & -> & Hk & _) & _) _].
    apply (urljoin_absolute _ _ _ sch nl []); [exact Habs|exact Hrel|].
    apply anchor_href_relative, Hk.
Qed.

Lemma anchor_is_resolved_witness :
  cpfrx_file.get_real_url
    (calm_env gateway_url body_two_hrefs (page [] [])) target_iso st0
  = (Ok (cps "https://www.a.cpfrx.info/stream/second"), st0)
  /\ cpfrx_file_en.get_real_url
       (calm_env gateway_url body_two_hrefs (page [] [])) target_iso st0
     = (Ok (cps "https://www.a.cpfrx.info/stream/second"), st0).
Proof.
  assert (Hs : Re.search rule_anchor body_two_hrefs
               = Some (Some (cps "/stream/second")))
    by (vm_compute; reflexivity).
  apply search_anchor_chosen in Hs as (pre & mid & Hch).
  destruct (anchor_is_resolved
              (calm_env gateway_url body_two_hrefs (page [] []))
              target_iso st0 (page gateway_url body_two_hrefs))
    as (_ & Hres).
  - exists (cps "tok"). split; vm_compute; reflexivity.
  - apply (search_absent _ _ match_data_u_sound match_data_u_complete).
    vm_compute. reflexivity.
  - apply (search_absent _ _ match_location_sound match_location_complete).
    vm_compute. reflexivity.
  - destruct (Hres pre mid _ Hch) as (Hzh & Hen & _).
    split; [rewrite Hzh|rewrite Hen]; vm_compute; reflexivity.
Defined.

(** ** Rule (b) with an absolute target *)

Lemma split_scheme_own (url s u' : str) :
  Urllib.split_scheme url [] = (s, u') -> s <> [] ->
  forall d, Urllib.split_scheme url d = (s, u').
Proof.
  unfold Urllib.split_scheme.
  destruct (Py.find_char 58 url) as [[|i]|];
    try (intros [= <- _]; congruence).
  destruct (_ && _); [intros H _ d; exact H|intros [= <- _]; congruence].
Qed.

(** A URL with a scheme of its own parses the same whatever the default
    scheme. *)
Lemma urlsplit_own_scheme ck (u : str) r :
  Urllib.urlsplit ck u [] = Returns r -> Urllib.sr_scheme r <> [] ->
  forall d, Urllib.urlsplit ck u d = Returns r.
Proof.
  rewrite urlsplit_unfold.
  change (Urllib.remove_unsafe (Py.strip Urllib.c0_control_or_space []))
    with (@nil N).
  destruct (Urllib.split_scheme _ []) as [s u'] eqn:E.
  intros H Hne d. pose proof H as H'.
  apply tail_cases in H' as (Hs & _). rewrite Hs in Hne.
  rewrite urlsplit_unfold, (split_scheme_own _ _ _ E Hne). exact H.
Qed.

Lemma urlunparse_absolute ck (p : Urllib.ParseResult) (sch nl : str) :
  Urllib.scheme p = sch -> Urllib.netloc p = nl ->
  scheme_ok sch -> nl <> [] ->
  forallb not_delim nl = true -> forallb safe_char nl = true ->
  netloc_accepted ck nl ->
  absolute_url ck (Urllib.urlunparse p) sch nl.
Proof.
  intros Hps Hpn Hsch Hn Hd Hsafe Hacc.
  pose proof Hsch as (Hs & _).
  destruct (urlunparse_shape p) as (t & Ht & Hok);
    [rewrite Hps; exact Hs | rewrite Hpn; exact Hn|].
  rewrite Hps, Hpn in Ht. rewrite Ht.
  destruct (urlsplit_assembled ck sch nl t [] Hsch Hd Hsafe Hacc Hok)
    as (r & Hr1 & Hr2 & Hr3).
  exists r. auto.
Qed.

(** Joining an absolute reference to a base gives an absolute URL with the
    scheme and the authority of the reference; the reference itself when
    its scheme is not the base's. *)
Lemma urljoin_absolute_ref ck (base ref sch nl sch' nl' : str) :
  absolute_url ck base sch nl ->
  absolute_url ck ref sch' nl' ->
  exists u,
    Urllib.urljoin ck base ref = Returns u
    /\ absolute_url ck u sch' nl'
    /\ (sch' <> sch -> u = ref).
Proof.
  intros Habs Href.
  pose proof Habs as (rb & Hb & Hbs & Hbn & Hs & Hn).
  pose proof Href as (rr & Hr & Hrs & Hrn & Hs' & Hn').
  assert (Hsch' : scheme_ok sch').
  { rewrite <- Hrs. apply (urlsplit_scheme_ok ck ref); [exact Hr|].
    rewrite Hrs. exact Hs'. }
  destruct (urlsplit_netloc_ok ck ref [] rr Hr) as (Hd & Hsafe & Hacc);
    [rewrite Hrn; exact Hn'|]. rewrite Hrn in Hd, Hsafe, Hacc.
  destruct base as [|b0 base'].
  { exfalso. apply Hs. rewrite <- Hbs. rewrite urlsplit_unfold in Hb.
    apply tail_cases in Hb as (Hb & _). exact Hb. }
  destruct ref as [|y ref'].
  { exfalso. apply Hs'. rewrite <- Hrs. rewrite urlsplit_unfold in Hr.
    apply tail_cases in Hr as (Hr & _). exact Hr. }
  destruct (urlparse_fields _ _ _ _ Hb) as (pb & Hpb & Hpbs & Hpbn).
  assert (Hr' : Urllib.urlsplit ck (y :: ref') sch = Returns rr).
  { apply urlsplit_own_scheme; [exact Hr|rewrite Hrs; exact Hs']. }
  destruct (urlparse_fields _ _ _ _ Hr') as (pu & Hpu & Hpus & Hpun).
  rewrite Hbs in Hpbs. rewrite Hrs in Hpus. rewrite Hrn in Hpun.
  unfold Urllib.urljoin. rewrite Hpb, Hpbs, Hpu, Hpus, Hpun.
  destruct (Py.eqb sch' sch) eqn:Eq.
  - apply eqb_eq in Eq. rewrite Eq in *. cbn [negb orb].
    destruct (Py.mem sch Urllib.uses_relative) eqn:Erel; cbn [negb].
    + rewrite (relative_uses_netloc _ Erel), (nonempty_true _ Hn').
      cbn [andb]. eexists. split; [reflexivity|]. split; [|congruence].
      apply urlunparse_absolute; assumption.
    + eexists. split; [reflexivity|]. split; [exact Href|reflexivity].
  - cbn [negb orb]. eexists. split; [reflexivity|].
    split; [exact Href|reflexivity].
Qed.

(** X2.  Rule (b) with an absolute target.  When the window.location.href
    assignment names a URL with a scheme and an authority of its own, the
    link returned keeps them: it is not resolved against the response URL.
    If the scheme is not that of the response URL, an http link on the https
    gateway for one, the link is the target as it stands, unescaped. *)
Theorem location_keeps_absolute_target (e : env) (target : str) (st : state)
    (resp : Response) (pre Y sch nl sch' nl' : str) :
  reaches_rules e target st resp ->
  ~ present data_u_shape (Requests.text resp) ->
  leftmost location_shape (Requests.text resp) pre Y ->
  absolute_url (url_checks e) (Requests.url resp) sch nl ->
  absolute_url (url_checks e) (slashes_unescaped Y) sch' nl' ->
  exists u,
    cpfrx_file.get_real_url e target st = (Ok u, st)
    /\ cpfrx_file_en.get_real_url e target st = (Ok u, st)
    /\ absolute_url (url_checks e) u sch' nl'
    /\ (sch' <> sch -> u = slashes_unescaped Y).
Proof.
  intros Hr Ha HL Habs Href.
  destruct (urljoin_absolute_ref _ _ _ _ _ _ _ Habs Href) as (u & Hu & Hau & Heq).
  exists u.
  rewrite (get_real_url_rules _ _ _ _ Hr), (get_real_url_en_rules _ _ _ _ Hr).
  rewrite !(extract_location _ _ _ _ _ _ Ha HL), unescape_slash_spec, Hu.
  auto.
Qed.

Lemma location_keeps_absolute_target_witness :
  cpfrx_file.get_real_url
    (calm_env gateway_url body_location_http (page [] [])) target_iso st0
  = (Ok (cps "http://cdn.example.com/get/abc"), st0).
Proof.
  destruct (location_keeps_absolute_target
              (calm_env gateway_url body_location_http (page [] []))
              target_iso st0 (page gateway_url body_location_http)
              [] (cps "http:\/\/cdn.example.com\/get\/abc")
              (cps "https") (cps "www.a.cpfrx.info")
              (cps "http") (cps "cdn.example.com"))
    as (u & Hzh & _ & _ & Hu).
  - exists (cps "tok"). split; vm_compute; reflexivity.
  - apply (search_absent _ _ match_data_u_sound match_data_u_complete).
    vm_compute. reflexivity.
  - apply leftmost_at_start. exists [32%N], [32%N]. eexists.
    split; [reflexivity|]. split; [reflexivity|]. split; [reflexivity|].
    apply not_char_all. vm_compute. reflexivity.
  - eexists. split; [vm_compute; reflexivity|].
    split; [reflexivity|]. split; [reflexivity|]. split; discriminate.
  - eexists. split; [vm_compute; reflexivity|].
    split; [reflexivity|]. split; [reflexivity|]. split; discriminate.
  - rewrite Hzh, Hu; [reflexivity|discriminate].
Defined.

(** ** Rule (a) on a link that needs no cleaning *)

Lemma replace_scan_absent (old new s : str) (c : N) :
  Py.startswith [c] old = true -> c ∉ s ->
  Py.replace_scan old new s 0 = s.
Proof.
  intros Ho. apply startswith_head in Ho as [old' ->].
  induction s as [|x s IH]; intros Hs; [reflexivity|].
  apply not_elem_of_cons in Hs as [Hx Hs].
  rewrite replace_scan_here. cbn [Py.startswith].
  rewrite (proj2 (N.eqb_neq c x)) by exact Hx. cbn [andb].
  rewrite IH by exact Hs. reflexivity.
Qed.

(** X3.  A data-u value with no backslash and no ampersand in it is the link
    as it stands: the clean-up of rule (a) changes nothing, and both files
    return the value itself. *)
Theorem plain_data_u_is_returned (e : env) (target : str) (st : state)
    (resp : Response) (pre X : str) :
  reaches_rules e target st resp ->
  leftmost data_u_shape (Requests.text resp) pre X ->
  backslash ∉ X -> 38%N ∉ X ->
  clean_data_u X = X
  /\ cpfrx_file.get_real_url e target st = (Ok X, st)
  /\ cpfrx_file_en.get_real_url e target st = (Ok X, st).
Proof.
  intros Hr HL Hb Ha.
  assert (Hc : clean_data_u X = X).
  { unfold clean_data_u, unescape_slash, Py.replace.
    rewrite (replace_scan_absent [backslash; slash] [slash] X backslash
               eq_refl Hb).
    change (cps "&quot;") with (38%N :: cps "quot;").
    rewrite (replace_scan_absent (38%N :: cps "quot;") [] X 38%N eq_refl Ha).
    apply strip_clean. exact (leftmost_shape_data_u _ _ _ HL). }
  split; [exact Hc|].
  rewrite (get_real_url_rules _ _ _ _ Hr), (get_real_url_en_rules _ _ _ _ Hr).
  rewrite !(extract_data_u _ _ _ _ _ _ HL), Hc. split; reflexivity.
Qed.

Lemma plain_data_u_is_returned_witness :
  cpfrx_file.get_real_url
    (calm_env gateway_url body_plain_link (page [] [])) target_iso st0
  = (Ok (cps "https://cdn.example.com/get/abc?k=1"), st0).
Proof.
  assert (Hs : Re.search rule_data_u body_plain_link
               = Some (Some (cps "https://cdn.example.com/get/abc?k=1")))
    by (vm_compute; reflexivity).
  apply (search_Some_leftmost _ _ match_data_u_sound match_data_u_complete)
    in Hs as (pre & X & [= <-] & HL).
  destruct (plain_data_u_is_returned
              (calm_env gateway_url body_plain_link (page [] []))
              target_iso st0 (page gateway_url body_plain_link) pre
              (cps "https://cdn.example.com/get/abc?k=1"))
    as (_ & Hzh & _).
  - exists (cps "tok"). split; vm_compute; reflexivity.
  - exact HL.
  - apply not_char_all. vm_compute. reflexivity.
  - apply not_char_all. vm_compute. reflexivity.
  - exact Hzh.
Defined.

(** ** The ways get_real_url ends *)

Lemma extract_link_Throws ck no_link base (html : str) ex :
  extract_link ck no_link base html = Throws ex ->
  (ex = RuntimeError no_link
   /\ ~ present data_u_shape html /\ ~ present location_shape html
   /\ ~ present anchor_shape html)
  \/ (exists m, ex = ValueError m
                /\ ~ present data_u_shape html
                /\ (present location_shape html \/ present anchor_shape html)).
Proof.
  unfold extract_link.
  destruct (Re.search rule_data_u html) as [m|] eqn:Ea.
  { apply (search_Some_leftmost _ _ match_data_u_sound match_data_u_complete)
      in Ea as (pre & g & -> & _). discriminate. }
  apply (search_absent _ _ match_data_u_sound match_data_u_complete) in Ea.
  destruct (Re.search rule_location html) as [m|] eqn:Eb.
  { assert (Hb : present location_shape html).
    { destruct (search_Some_leftmost _ _ match_location_sound
                  match_location_complete _ _ Eb) as (pre & g & _ & Ho & _).
      exists pre, g. exact Ho. }
    apply (search_Some_leftmost _ _ match_location_sound
             match_location_complete) in Eb as (pre & g & -> & _).
    cbn [group1]. intros H. apply urljoin_throws in H as [msg ->].
    right. exists msg. auto. }
  apply (search_absent _ _ match_location_sound match_location_complete) in Eb.
  destruct (Re.search rule_anchor html) as [m|] eqn:Ec.
  { assert (Hc : present anchor_shape html).
    { destruct (search_Some_leftmost _ _ match_anchor_sound
                  match_anchor_complete _ _ Ec) as (pre & g & _ & Ho & _).
      exists pre, g. exact Ho. }
    intros H. right.
    destruct m as [g|]; apply urljoin_throws in H as [msg ->];
      exists msg; auto. }
  apply (search_absent _ _ match_anchor_sound match_anchor_complete) in Ec.
  intros [= <-]. left. auto.
Qed.

(** The message of the RuntimeError is all that tells the two files'
    extractions apart. *)
Lemma extract_link_message ck nl1 nl2 base (html : str) :
  (extract_link ck nl1 base html = Throws (RuntimeError nl1)
   /\ extract_link ck nl2 base html = Throws (RuntimeError nl2))
  \/ (extract_link ck nl1 base html = extract_link ck nl2 base html
      /\ match extract_link ck nl1 base html with
         | Returns _ => True
         | Throws ex => exists m, ex = ValueError m
         end).
Proof.
  unfold extract_link.
  destruct (Re.search rule_data_u html) as [m|] eqn:Ea.
  { apply (search_Some_leftmost _ _ match_data_u_sound match_data_u_complete)
      in Ea as (pre & g & -> & _). right. split; [reflexivity|exact I]. }
  destruct (Re.search rule_location html) as [m|] eqn:Eb.
  { apply (search_Some_leftmost _ _ match_location_sound
             match_location_complete) in Eb as (pre & g & -> & _).
    right. split; [reflexivity|]. cbn [group1].
    destruct (Urllib.urljoin ck base (unescape_slash g)) eqn:E; [exact I|].
    eapply urljoin_throws, E. }
  destruct (Re.search rule_anchor html) as [m|] eqn:Ec.
  { right. split; [reflexivity|].
    destruct m as [g|];
      match goal with
      | |- match ?j with _ => _ end =>
          destruct j eqn:E; [exact I|eapply urljoin_throws, E]
      end. }
  left. split; reflexivity.
Qed.

(** X4.  Once get_real_url has its working response, it ends in one of three
    ways and leaves the state as it was: it returns a link; or it raises the
    RuntimeError with the no-link message, which happens exactly when none
    of the three rules matches; or the urljoin of rule (b) or (c) refuses
    the URL and its ValueError comes out, in cpfrx_file_en.py too, whose
    handler is for RequestException only.  It raises nothing else and never
    calls sys.exit. *)
Theorem get_real_url_outcomes (e : env) (target : str) (st : state)
    (resp : Response) :
  reaches_rules e target st resp ->
  let html := Requests.text resp in
  let none := ~ present data_u_shape html /\ ~ present location_shape html
              /\ ~ present anchor_shape html in
  (cpfrx_file.get_real_url e target st
   = (Raise (RuntimeError cpfrx_file.no_link), st) <-> none)
  /\ (cpfrx_file_en.get_real_url e target st
      = (Raise (RuntimeError cpfrx_file_en.no_link), st) <-> none)
  /\ (cpfrx_file.get_real_url e target st).2 = st
  /\ (cpfrx_file_en.get_real_url e target st).2 = st
  /\ match (cpfrx_file.get_real_url e target st).1,
           (cpfrx_file_en.get_real_url e target st).1 with
     | Ok u, Ok u' => u = u'
     | Raise (RuntimeError m), Raise (RuntimeError m') =>
         m = cpfrx_file.no_link /\ m' = cpfrx_file_en.no_link
     | Raise (ValueError m), Raise (ValueError m') =>
         m = m' /\ ~ present data_u_shape html
     | _, _ => False
     end.
Proof.
  intros Hr html none.
  rewrite (get_real_url_rules _ _ _ _ Hr), (get_real_url_en_rules _ _ _ _ Hr).
  fold html. cbn [fst snd].
  assert (Hnone : forall no_link,
            (ended (extract_link (url_checks e) no_link (Requests.url resp) html),
             st)
            = (Raise (RuntimeError no_link), st) <-> none).
  { intros no_link. split.
    - intros H.
      destruct (extract_link _ _ _ _) as [u|ex] eqn:E; [discriminate|].
      injection H as ->.
      apply extract_link_Throws in E as [(_ & Hn)|(m & [=] & _)]. exact Hn.
    - intros (Ha & Hb & Hc). rewrite (extract_nothing _ _ _ _ Ha Hb Hc).
      reflexivity. }
  split; [apply Hnone|]. split; [apply Hnone|].
  split; [reflexivity|]. split; [reflexivity|].
  destruct (extract_link_message (url_checks e) cpfrx_file.no_link
              cpfrx_file_en.no_link (Requests.url resp) html)
    as [[-> ->]|[<- Hex]].
  - cbn [ended]. auto.
  - destruct (extract_link (url_checks e) cpfrx_file.no_link
                (Requests.url resp) html) as [u|ex] eqn:E; [reflexivity|].
    destruct Hex as [m ->]. cbn [ended]. split; [reflexivity|].
    apply extract_link_Throws in E as [([=] & _)|(m' & _ & Ha & _)].
    exact Ha.
Qed.

Lemma get_real_url_outcomes_witness :
  let e := calm_env gateway_url body_bad_location (page [] []) in
  cpfrx_file.get_real_url e target_iso st0
  = (Raise (ValueError (cps "Invalid IPv6 URL")), st0)
  /\ cpfrx_file_en.get_real_url e target_iso st0
     = (Raise (ValueError (cps "Invalid IPv6 URL")), st0)
  /\ ~ present data_u_shape body_bad_location
  /\ ~ (~ present data_u_shape body_bad_location
        /\ ~ present location_shape body_bad_location
        /\ ~ present anchor_shape body_bad_location).
Proof.
  intros e.
  destruct (get_real_url_outcomes e target_iso st0
              (page gateway_url body_bad_location))
    as (Hzh & _ & _ & _ & Hboth).
  { exists (cps "tok"). split; vm_compute; reflexivity. }
  assert (Ezh : cpfrx_file.get_real_url e target_iso st0
                = (Raise (ValueError (cps "Invalid IPv6 URL")), st0))
    by (vm_compute; reflexivity).
  assert (Een : cpfrx_file_en.get_real_url e target_iso st0
                = (Raise (ValueError (cps "Invalid IPv6 URL")), st0))
    by (vm_compute; reflexivity).
  rewrite Ezh, Een in Hboth. cbn [fst] in Hboth.
  split; [exact Ezh|]. split; [exact Een|]. split; [apply Hboth|].
  intros Hnone. apply Hzh in Hnone. rewrite Ezh in Hnone. discriminate.
Defined.

(** ** Requests that fail *)

Lemma raise_for_status_cases (resp : Response) :
  (400 <= Requests.status_code resp < 600
   /\ exists msg, Requests.raise_for_status resp = Throws (RequestException msg))
  \/ (~ 400 <= Requests.status_code resp < 600
      /\ Requests.raise_for_status resp = Returns tt).
Proof.
  unfold Requests.raise_for_status.
  destruct ((400 <=? Requests.status_code resp)
            && (Requests.status_code resp <? 500)) eqn:E1.
  { apply andb_true_iff in E1 as [H1 H2]. left. split; [lia|eauto]. }
  destruct ((500 <=? Requests.status_code resp)
            && (Requests.status_code resp <? 600)) eqn:E2.
  { apply andb_true_iff in E2 as [H1 H2]. left. split; [lia|eauto]. }
  right. split; [|reflexivity].
  apply andb_false_iff in E1, E2. lia.
Qed.

Lemma get_csrf_fails (e : env) (st : state) (msg : str) :
  request_fails (session_get_index e) msg ->
  cpfrx_file.get_csrf e st = (Raise (RequestException msg), st)
  /\ cpfrx_file_en.get_csrf e st
     = (Exit 1,
        {| stdout := stdout st
                     ++ [cps "Failed to retrieve CSRF token: " ++ msg ++ [10%N]];
           files := files st |}).
Proof.
  unfold cpfrx_file_en.get_csrf, cpfrx_file.get_csrf, try_except, bind.
  intros [H|(resp & H & Hs)]; rewrite call_run, H; cbn [ended];
    [|rewrite call_run, Hs; cbn [ended]]; split; reflexivity.
Qed.

(** X5.  The landing page.  A status from 400 to 599 makes raise_for_status
    raise, any other status lets the page through.  When the GET of the
    landing page fails, by its status or in transport, cpfrx_file.py's
    get_csrf and get_real_url raise that RequestException; cpfrx_file_en.py
    prints one line and calls sys.exit(1).  The POST is not reached: the
    outcome is the same whatever the gateway would answer. *)
Theorem landing_page_failure (e : env) (target : str) (st : state) (msg : str) :
  request_fails (session_get_index e) msg ->
  let st' :=
    {| stdout := stdout st
                 ++ [cps "Failed to retrieve CSRF token: " ++ msg ++ [10%N]];
       files := files st |} in
  (cpfrx_file.get_csrf e st = (Raise (RequestException msg), st)
   /\ cpfrx_file_en.get_csrf e st = (Exit 1, st'))
  /\ (cpfrx_file.get_real_url e target st = (Raise (RequestException msg), st)
      /\ cpfrx_file_en.get_real_url e target st = (Exit 1, st'))
  /\ forall resp,
       400 <= Requests.status_code resp < 600
       <-> exists m, Requests.raise_for_status resp
                     = Throws (RequestException m).
Proof.
  intros Hf st'. destruct (get_csrf_fails e st msg Hf) as [Hzh Hen].
  split; [split; assumption|]. split.
  - unfold cpfrx_file.get_real_url, cpfrx_file_en.get_real_url, bind.
    rewrite Hzh, Hen. split; reflexivity.
  - intros resp.
    destruct (raise_for_status_cases resp) as [[Hc Hm]|[Hc Hok]].
    + split; auto.
    + split; [intros H; contradiction|].
      intros [m Hm]. rewrite Hok in Hm. discriminate.
Qed.

Lemma landing_page_failure_witness :
  let e := env_with (Returns (status_page 503 (cps "Service Unavailable") INDEX))
             (fun _ _ _ => Returns (page gateway_url body_all_rules))
             (fun u => Returns (page u []))
             (fun _ => Returns (page [] [])) in
  cpfrx_file.get_real_url e target_iso st0
  = (Raise (RequestException
              (cps "503 Server Error: Service Unavailable for url: "
               ++ INDEX)), st0)
  /\ cpfrx_file_en.get_real_url e target_iso st0
     = (Exit 1,
        {| stdout := [cps "Failed to retrieve CSRF token: "
                      ++ cps "503 Server Error: Service Unavailable for url: "
                      ++ INDEX ++ [10%N]];
           files := ∅ |}).
Proof.
  intros e.
  destruct (landing_page_failure e target_iso st0
              (cps "503 Server Error: Service Unavailable for url: " ++ INDEX))
    as (_ & [Hzh Hen] & _).
  - right. eexists. split; reflexivity.
  - split; [exact Hzh|]. rewrite Hen. reflexivity.
Defined.

(** ** The POST of get_real_url *)

(** X6.  When the POST, or the request that follows its redirect, raises a
    RequestException, cpfrx_file.py's get_real_url lets it out as it is;
    cpfrx_file_en.py's raises a RuntimeError instead, whose message is the
    exception's behind a prefix.  Either way the main block prints its
    failure line and exits with 2. *)
Theorem post_failure (e : env) (a target local : str) (st : state)
    (csrf msg : str) :
  cpfrx_file.get_csrf e st = (Ok csrf, st) ->
  working_response e target csrf = Throws (RequestException msg) ->
  (cpfrx_file.get_real_url e target st = (Raise (RequestException msg), st)
   /\ cpfrx_file_en.get_real_url e target st
      = (Raise (RuntimeError (cps "Failed to extract direct link: " ++ msg)),
         st))
  /\ cpfrx_file.main e [a; target; local] st
     = (Exit 2,
        {| stdout := stdout st ++ [cpfrx_file.failed ++ cps " " ++ msg ++ [10%N]];
           files := files st |})
  /\ cpfrx_file_en.main e [a; target; local] st
     = (Exit 2,
        {| stdout := stdout st
                     ++ [cps "Failed: " ++ cps "Failed to extract direct link: "
                         ++ msg ++ [10%N]];
           files := files st |}).
Proof.
  intros Hc Hw.
  assert (Hzh : cpfrx_file.get_real_url e target st
                = (Raise (RequestException msg), st)).
  { unfold cpfrx_file.get_real_url, bind.
    rewrite Hc, submit_and_extract_run, Hw. reflexivity. }
  assert (Hen : cpfrx_file_en.get_real_url e target st
                = (Raise (RuntimeError
                            (cps "Failed to extract direct link: " ++ msg)),
                   st)).
  { unfold cpfrx_file_en.get_real_url, bind, try_except.
    rewrite (get_csrf_en_Ok _ _ _ _ Hc), submit_and_extract_run, Hw.
    reflexivity. }
  split; [split; assumption|]. split.
  - rewrite main_run. unfold pipeline, cpfrx_file.download, bind.
    rewrite Hzh. reflexivity.
  - rewrite main_en_run. unfold pipeline, cpfrx_file_en.download, bind.
    rewrite Hen. cbn [exc_str]. rewrite <- !app_assoc. reflexivity.
Qed.

Lemma post_failure_witness :
  let e := env_with (Returns (page INDEX []))
             (fun _ _ _ => Throws (RequestException (cps "timed out")))
             (fun u => Returns (page u []))
             (fun _ => Returns (page [] [])) in
  cpfrx_file_en.main e argv_demo st0
  = (Exit 2,
     {| stdout := [cps "Failed: Failed to extract direct link: timed out"
                   ++ [10%N]];
        files := ∅ |})
  /\ cpfrx_file.get_real_url e target_iso st0
     = (Raise (RequestException (cps "timed out")), st0).
Proof.
  intros e.
  destruct (post_failure e (cps "cpfrx_downloader.py") target_iso (cps "out")
              st0 (cps "tok") (cps "timed out"))
    as ([Hzh _] & _ & Hen); [reflexivity|reflexivity|].
  split; [exact Hen|exact Hzh].
Defined.

(** X7.  cpfrx_file_en.py's get_real_url never ends with a RequestException:
    the one of the landing page ends the process in get_csrf, the one of the
    POST is turned into a RuntimeError. *)
Theorem en_get_real_url_no_request_exception (e : env) (target : str)
    (st : state) (ex : exception) (st' : state) :
  cpfrx_file_en.get_real_url e target st = (Raise ex, st') ->
  is_RequestException ex = false.
Proof.
  unfold cpfrx_file_en.get_real_url, bind.
  destruct (cpfrx_file_en.get_csrf e st) as [[csrf|ex0|code] s1] eqn:Ec.
  - unfold try_except.
    destruct (submit_and_extract e cpfrx_file_en.no_link target csrf s1)
      as [[u|ex1|code] s2]; try discriminate.
    destruct (is_RequestException ex1) eqn:E1.
    + intros [= <- _]. reflexivity.
    + intros [= <- _]. exact E1.
  - intros [= <- _]. revert Ec.
    unfold cpfrx_file_en.get_csrf, try_except.
    match goal with
    | |- (match ?m with _ => _ end) = _ -> _ =>
        destruct m as [[v|ex1|code] s2]; try discriminate
    end.
    destruct (is_RequestException ex1) eqn:E1; [discriminate|].
    intros [= <- _]. exact E1.
  - discriminate.
Qed.

Lemma en_get_real_url_no_request_exception_witness :
  let e := env_with (Returns (page INDEX []))
             (fun _ _ _ => Throws (RequestException (cps "timed out")))
             (fun u => Returns (page u []))
             (fun _ => Returns (page [] [])) in
  cpfrx_file_en.get_real_url e target_iso st0
  = (Raise (RuntimeError (cps "Failed to extract direct link: timed out")),
     st0)
  /\ is_RequestException
       (RuntimeError (cps "Failed to extract direct link: timed out")) = false.
Proof.
  intros e.
  assert (H : cpfrx_file_en.get_real_url e target_iso st0
              = (Raise (RuntimeError
                          (cps "Failed to extract direct link: timed out")),
                 st0)) by reflexivity.
  split; [exact H|].
  exact (en_get_real_url_no_request_exception e target_iso st0 _ _ H).
Defined.

(** ** download as a whole *)

(** The [with] block of [download], step by step: the first call that
    raises ends it, before the file is opened; once the file is open the
    chunks that arrive are written, whether or not the stream breaks. *)
Lemma download_stream_cases (e : env) (completed real save_path : str)
    (st : state) :
  download_stream e completed real save_path st
  = match session_get_stream e real with
    | Throws ex => (Raise ex, st)
    | Returns r =>
        match Requests.raise_for_status r with
        | Throws ex => (Raise ex, st)
        | Returns _ =>
            match content_length r with
            | Throws ex => (Raise ex, st)
            | Returns total =>
                match mkdir e save_path with
                | Throws ex => (Raise ex, st)
                | Returns _ =>
                    match open_wb e (path_child e save_path
                                       (cps "downloaded_file.zip")) with
                    | Throws ex => (Raise ex, st)
                    | Returns _ =>
                        (match Requests.iter_error r with
                         | Some msg => Raise (RequestException msg)
                         | None => Ok tt
                         end,
                         {| stdout :=
                              stdout st
                              ++ progress_lines total 0 (Requests.iter_content r)
                              ++ match Requests.iter_error r with
                                 | Some _ => []
                                 | None =>
                                     [[10%N] ++ completed
                                      ++ path_str e save_path ++ [10%N]]
                                 end;
                            files :=
                              <[path_child e save_path
                                  (cps "downloaded_file.zip")
                                := concat (Requests.iter_content r)]>
                                (files st) |})
                    end
                end
            end
        end
    end.
Proof.
  destruct (session_get_stream e real) as [r|ex] eqn:Hget.
  2:{ unfold download_stream, bind. rewrite call_run, Hget. reflexivity. }
  destruct (Requests.raise_for_status r) as [[]|ex] eqn:Hstatus.
  2:{ unfold download_stream, bind. rewrite call_run, Hget. cbn [ended].
      rewrite call_run, Hstatus. reflexivity. }
  destruct (content_length r) as [total|ex] eqn:Hlen.
  2:{ unfold download_stream, bind. rewrite call_run, Hget. cbn [ended].
      rewrite call_run, Hstatus. cbn [ended]. rewrite call_run, Hlen.
      reflexivity. }
  destruct (mkdir e save_path) as [[]|ex] eqn:Hmk.
  2:{ unfold download_stream, bind. rewrite call_run, Hget. cbn [ended].
      rewrite call_run, Hstatus. cbn [ended]. rewrite call_run, Hlen.
      cbn [ended]. rewrite call_run, Hmk. reflexivity. }
  destruct (open_wb e (path_child e save_path (cps "downloaded_file.zip")))
    as [[]|ex] eqn:Hopen.
  2:{ unfold download_stream, f_open_wb, bind. rewrite call_run, Hget.
      cbn [ended]. rewrite call_run, Hstatus. cbn [ended].
      rewrite call_run, Hlen. cbn [ended]. rewrite call_run, Hmk.
      cbn [ended]. rewrite call_run, Hopen. reflexivity. }
  apply download_stream_run; assumption.
Qed.

Lemma download_run (e : env) (target save_path : str) (st : state)
    (real : str) (r0 : Response) :
  cpfrx_file.get_real_url e target st = (Ok real, st) ->
  session_head e real = Returns r0 ->
  cpfrx_file.download e target save_path st
  = download_stream e cpfrx_file.completed (Requests.url r0) save_path
      {| stdout := stdout st
                   ++ [final_link_line (cpfrx_file.final_link ++ cps " ")
                         (Requests.url r0)];
         files := files st |}.
Proof.
  intros Hreal Hhead. unfold cpfrx_file.download, bind.
  rewrite Hreal, call_run, Hhead. cbn [ended]. unfold print, final_link_line.
  rewrite <- !app_assoc. reflexivity.
Qed.

(** What cpfrx_file.py resolves, cpfrx_file_en.py resolves to the same
    link. *)
Lemma get_real_url_en_Ok (e : env) (target : str) (st : state) (real : str)
    (st' : state) :
  cpfrx_file.get_real_url e target st = (Ok real, st') ->
  cpfrx_file_en.get_real_url e target st = (Ok real, st').
Proof.
  unfold cpfrx_file.get_real_url, cpfrx_file_en.get_real_url, bind.
  destruct (cpfrx_file.get_csrf e st) as [[csrf|ex|code] s1] eqn:Ec;
    try discriminate.
  rewrite (get_csrf_en_Ok _ _ _ _ Ec). unfold try_except.
  rewrite !submit_and_extract_run.
  destruct (working_response e target csrf) as [resp|ex]; [|discriminate].
  destruct (extract_link_message (url_checks e) cpfrx_file.no_link
              cpfrx_file_en.no_link (Requests.url resp) (Requests.text resp))
    as [[-> _]|[<- _]]; [discriminate|].
  destruct (extract_link _ _ _ _); [auto|discriminate].
Qed.

Lemma download_en_run (e : env) (target save_path : str) (st : state)
    (real : str) (r0 : Response) :
  cpfrx_file.get_real_url e target st = (Ok real, st) ->
  session_head e real = Returns r0 ->
  cpfrx_file_en.download e target save_path st
  = try_except
      (download_stream e (cps "Completed " ++ [8594; 32]%N)
         (Requests.url r0) save_path)
      is_RequestException
      (fun ex =>
         print (cps "Failed to download: " ++ exc_str ex ++ [10%N]) ;;
         sys_exit 1)
      {| stdout := stdout st
                   ++ [final_link_line (cps "Final direct link: ")
                         (Requests.url r0)];
         files := files st |}.
Proof.
  intros Hreal Hhead. unfold cpfrx_file_en.download, bind at 1.
  rewrite (get_real_url_en_Ok _ _ _ _ _ Hreal).
  unfold bind at 1. rewrite call_run, Hhead. cbn [ended].
  unfold bind at 1. reflexivity.
Qed.

(** X8.  The whole of download when everything goes well.  The link that
    get_real_url returned is only probed with a HEAD request; the GET that
    fetches the file goes to the URL at which that HEAD request ended.
    download prints that URL, then a progress line for every chunk that is
    not empty (none when the total is 0), then its closing line, and the
    output file holds the body, whatever it held before. *)
Theorem download_follows_head (e : env) (target save_path : str) (st : state)
    (r0 r : Response) (total : Z) :
  link_found e target st r0 ->
  serves e (Requests.url r0) save_path r total ->
  Requests.iter_error r = None ->
  let file := path_child e save_path (cps "downloaded_file.zip") in
  let chunks := Requests.iter_content r in
  cpfrx_file.download e target save_path st
  = (Ok tt,
     {| stdout :=
          stdout st
          ++ [final_link_line (cpfrx_file.final_link ++ cps " ")
                (Requests.url r0)]
          ++ progress_lines total 0 chunks
          ++ [[10%N] ++ cpfrx_file.completed ++ path_str e save_path
              ++ [10%N]];
        files := <[file := concat chunks]> (files st) |})
  /\ cpfrx_file_en.download e target save_path st
     = (Ok tt,
        {| stdout :=
             stdout st
             ++ [final_link_line (cps "Final direct link: ")
                   (Requests.url r0)]
             ++ progress_lines total 0 chunks
             ++ [[10%N] ++ (cps "Completed " ++ [8594; 32]%N)
                 ++ path_str e save_path ++ [10%N]];
           files := <[file := concat chunks]> (files st) |}).
Proof.
  intros (real & Hreal & Hhead) (Hget & Hstatus & Hlen & Hmk & Hopen) Herr
    file chunks.
  rewrite (download_run _ _ _ _ _ _ Hreal Hhead),
    (download_en_run _ _ _ _ _ _ Hreal Hhead).
  unfold try_except.
  rewrite !download_stream_cases, Hget, Hstatus, Hlen, Hmk, Hopen, Herr.
  cbn [stdout files]. rewrite <- !app_assoc. split; reflexivity.
Qed.

Lemma download_follows_head_witness :
  let e := redirecting_env
             (Returns (file_response (Some (cps "3")) three_bytes)) in
  cpfrx_file_en.download e target_iso (cps "out") st0
  = (Ok tt,
     {| stdout :=
          [cps "Final direct link: https://cdn.example.com/stream/abc123"
           ++ [10%N];
           [13%N] ++ cps "2/3  66%";
           [13%N] ++ cps "3/3  100%";
           [10%N] ++ cps "Completed " ++ [8594; 32]%N ++ cps "out" ++ [10%N]];
        files :=
          <[cps "out/downloaded_file.zip" := [Byte.x50; Byte.x4b; Byte.x03]]>
            ∅ |}).
Proof.
  intros e.
  destruct (download_follows_head e target_iso (cps "out") st0
              (page (cps "https://cdn.example.com/stream/abc123") [])
              (file_response (Some (cps "3")) three_bytes) 3)
    as [_ Hen].
  - exists cdn_link. split; reflexivity.
  - repeat split; reflexivity.
  - reflexivity.
  - rewrite Hen. reflexivity.
Defined.

Lemma get_real_url_state (e : env) (target : str) (st : state) :
  (cpfrx_file.get_real_url e target st).2 = st.
Proof.
  unfold cpfrx_file.get_real_url, cpfrx_file.get_csrf, bind.
  rewrite call_run.
  destruct (session_get_index e) as [resp|ex]; [|reflexivity]. cbn [ended].
  rewrite call_run.
  destruct (Requests.raise_for_status resp) as [[]|ex]; [|reflexivity].
  cbn [ended]. rewrite call_run.
  destruct (csrf_value _) as [csrf|ex]; [|reflexivity]. cbn [ended].
  rewrite submit_and_extract_run.
  destruct (working_response e target csrf) as [r|ex]; [|reflexivity].
  reflexivity.
Qed.

(** What cpfrx_file_en.py resolves, cpfrx_file.py resolves to the same
    link, and neither changes the state. *)
Lemma get_real_url_en_Ok_inv (e : env) (target : str) (st : state)
    (real : str) (st' : state) :
  cpfrx_file_en.get_real_url e target st = (Ok real, st') ->
  cpfrx_file.get_real_url e target st = (Ok real, st) /\ st' = st.
Proof.
  intros Hen.
  pose proof (get_real_url_state e target st) as Hst.
  destruct (cpfrx_file.get_real_url e target st) as [[u|ex|code] s1] eqn:Ezh;
    cbn [snd] in Hst; subst s1.
  - rewrite (get_real_url_en_Ok _ _ _ _ _ Ezh) in Hen.
    injection Hen as -> ->. auto.
  - exfalso. revert Ezh Hen.
    unfold cpfrx_file.get_real_url, cpfrx_file_en.get_real_url, bind.
    unfold cpfrx_file_en.get_csrf, try_except.
    fold (cpfrx_file.get_csrf e).
    destruct (cpfrx_file.get_csrf e st) as [[csrf|ex0|code] s1] eqn:Ec.
    + rewrite !submit_and_extract_run.
      destruct (working_response e target csrf) as [resp|ex1].
      * destruct (extract_link_message (url_checks e) cpfrx_file.no_link
                    cpfrx_file_en.no_link (Requests.url resp)
                    (Requests.text resp)) as [[-> ->]|[<- _]].
        -- discriminate.
        -- destruct (extract_link _ _ _ _) as [u|ex2]; [discriminate|].
           cbn [ended]. destruct (is_RequestException ex2); discriminate.
      * destruct (is_RequestException ex1); discriminate.
    + destruct (is_RequestException ex0); discriminate.
    + discriminate.
  - exfalso. revert Ezh.
    unfold cpfrx_file.get_real_url, bind.
    destruct (cpfrx_file.get_csrf e st) as [[csrf|ex0|c0] s1] eqn:Ec;
      try discriminate.
    + intros H. exact (exits_submit (fun _ => False) _ _ _ _ _ _ _ H).
    + revert Ec. unfold cpfrx_file.get_csrf, bind. rewrite call_run.
      destruct (session_get_index e) as [resp|ex]; [|discriminate].
      cbn [ended]. rewrite call_run.
      destruct (Requests.raise_for_status resp) as [[]|ex]; [|discriminate].
      cbn [ended]. rewrite call_run. destruct (csrf_value _); discriminate.
Qed.

(** What a normal return of download implies, in either file. *)
Lemma download_Ok_inv (e : env) (target save_path : str)
    (st st1 : state) :
  cpfrx_file.download e target save_path st = (Ok tt, st1)
  \/ cpfrx_file_en.download e target save_path st = (Ok tt, st1) ->
  exists r0 r total,
    link_found e target st r0
    /\ serves e (Requests.url r0) save_path r total
    /\ Requests.iter_error r = None
    /\ files st1
       = <[path_child e save_path (cps "downloaded_file.zip")
           := concat (Requests.iter_content r)]> (files st).
Proof.
  assert (Hstream : forall completed real s s1,
            download_stream e completed real save_path s = (Ok tt, s1) ->
            exists r total,
              serves e real save_path r total
              /\ Requests.iter_error r = None
              /\ files s1
                 = <[path_child e save_path (cps "downloaded_file.zip")
                     := concat (Requests.iter_content r)]> (files s)).
  { intros completed real s s1. rewrite download_stream_cases.
    destruct (session_get_stream e real) as [r|ex] eqn:Hget; [|discriminate].
    destruct (Requests.raise_for_status r) as [[]|ex] eqn:Hstatus;
      [|discriminate].
    destruct (content_length r) as [total|ex] eqn:Hlen; [|discriminate].
    destruct (mkdir e save_path) as [[]|ex] eqn:Hmk; [|discriminate].
    destruct (open_wb e _) as [[]|ex] eqn:Hopen; [|discriminate].
    destruct (Requests.iter_error r) eqn:Herr; [discriminate|].
    intros [= <-]. exists r, total. unfold serves. auto 10. }
  intros [Hzh|Hen].
  - revert Hzh. unfold cpfrx_file.download. unfold bind at 1.
    pose proof (get_real_url_state e target st) as Hst.
    destruct (cpfrx_file.get_real_url e target st) as [[real|ex|code] s0]
      eqn:Hreal; try discriminate.
    cbn [snd] in Hst. subst s0. unfold bind at 1. rewrite call_run.
    destruct (session_head e real) as [r0|ex] eqn:Hhead; [|discriminate].
    cbn [ended]. unfold bind at 1, print. intros H.
    apply Hstream in H as (r & total & Hs & Herr & Hfiles).
    exists r0, r, total. split; [exists real; auto|]. auto.
  - revert Hen. unfold cpfrx_file_en.download. unfold bind at 1.
    destruct (cpfrx_file_en.get_real_url e target st) as [[real|ex|code] s0]
      eqn:Hreal; try discriminate.
    apply get_real_url_en_Ok_inv in Hreal as [Hreal ->].
    unfold bind at 1. rewrite call_run.
    destruct (session_head e real) as [r0|ex] eqn:Hhead; [|discriminate].
    cbn [ended]. unfold bind at 1, print. unfold try_except.
    match goal with
    | |- context [download_stream e ?c ?u save_path ?s] =>
        destruct (download_stream e c u save_path s) as [[[]|ex|code] s2] eqn:Hd
    end.
    + intros [= <-]. apply Hstream in Hd as (r & total & Hs & Herr & Hfiles).
      exists r0, r, total. split; [exists real; auto|]. auto.
    + destruct (is_RequestException ex); discriminate.
    + discriminate.
Qed.




(** ** The HEAD request of download *)

(** X10.  The HEAD request is made before the try block of
    cpfrx_file_en.py's download.  When it raises, download has printed
    nothing and touched no file, and the exception leaves download as it is
    in both files, a RequestException too: the handler that would exit with
    1 does not cover it, and both programs exit with 2. *)
Theorem head_failure (e : env) (a target save_path : str) (st : state)
    (real : str) (ex : exception) :
  cpfrx_file.get_real_url e target st = (Ok real, st) ->
  session_head e real = Throws ex ->
  (cpfrx_file.download e target save_path st = (Raise ex, st)
   /\ cpfrx_file_en.download e target save_path st = (Raise ex, st))
  /\ cpfrx_file.main e [a; target; save_path] st
     = (Exit 2,
        {| stdout := stdout st
                     ++ [cpfrx_file.failed ++ cps " " ++ exc_str ex ++ [10%N]];
           files := files st |})
  /\ cpfrx_file_en.main e [a; target; save_path] st
     = (Exit 2,
        {| stdout := stdout st ++ [cps "Failed: " ++ exc_str ex ++ [10%N]];
           files := files st |}).
Proof.
  intros Hreal Hhead.
  assert (Hzh : cpfrx_file.download e target save_path st = (Raise ex, st)).
  { unfold cpfrx_file.download, bind. rewrite Hreal, call_run, Hhead.
    reflexivity. }
  assert (Hen : cpfrx_file_en.download e target save_path st = (Raise ex, st)).
  { unfold cpfrx_file_en.download, bind.
    rewrite (get_real_url_en_Ok _ _ _ _ _ Hreal), call_run, Hhead.
    reflexivity. }
  split; [split; assumption|]. split.
  - rewrite main_run. unfold pipeline, bind. rewrite Hzh. reflexivity.
  - rewrite main_en_run. unfold pipeline, bind. rewrite Hen. reflexivity.
Qed.

Lemma head_failure_witness :
  let e := env_with (Returns (page INDEX []))
             (fun _ _ _ => Returns (page gateway_url body_all_rules))
             (fun _ => Throws (RequestException (cps "connection refused")))
             (fun _ => Returns (page [] [])) in
  cpfrx_file_en.main e argv_demo st0
  = (Exit 2,
     {| stdout := [cps "Failed: connection refused" ++ [10%N]];
        files := ∅ |}).
Proof.
  intros e.
  destruct (head_failure e (cps "cpfrx_downloader.py") target_iso (cps "out")
              st0 cdn_link (RequestException (cps "connection refused")))
    as (_ & _ & Hen); [reflexivity|reflexivity|].
  exact Hen.
Defined.

(** X11.  A RequestException in download.  If the GET of the file fails, by
    its status or in transport, the output file is neither opened nor
    changed: what was there from an earlier run stays.  If the stream breaks
    after the file was opened, the chunks that arrived are in the file, a
    partial download left on disk, and the closing line is not printed.  In
    both cases cpfrx_file.py's download raises the RequestException;
    cpfrx_file_en.py's prints a line of its own and calls sys.exit(1). *)
Theorem download_request_failure (e : env) (target save_path : str)
    (st : state) (r0 : Response) (msg : str) :
  link_found e target st r0 ->
  let file := path_child e save_path (cps "downloaded_file.zip") in
  let zh_line := final_link_line (cpfrx_file.final_link ++ cps " ")
                   (Requests.url r0) in
  let en_line := final_link_line (cps "Final direct link: ")
                   (Requests.url r0) in
  let failed := cps "Failed to download: " ++ msg ++ [10%N] in
  (request_fails (session_get_stream e (Requests.url r0)) msg ->
   cpfrx_file.download e target save_path st
   = (Raise (RequestException msg),
      {| stdout := stdout st ++ [zh_line]; files := files st |})
   /\ cpfrx_file_en.download e target save_path st
      = (Exit 1,
         {| stdout := stdout st ++ [en_line] ++ [failed];
            files := files st |}))
  /\ (forall r total,
        serves e (Requests.url r0) save_path r total ->
        Requests.iter_error r = Some msg ->
        let lines := progress_lines total 0 (Requests.iter_content r) in
        cpfrx_file.download e target save_path st
        = (Raise (RequestException msg),
           {| stdout := stdout st ++ [zh_line] ++ lines;
              files := <[file := concat (Requests.iter_content r)]>
                         (files st) |})
        /\ cpfrx_file_en.download e target save_path st
           = (Exit 1,
              {| stdout := stdout st ++ [en_line] ++ lines ++ [failed];
                 files := <[file := concat (Requests.iter_content r)]>
                            (files st) |})).
Proof.
  intros (real & Hreal & Hhead) file zh_line en_line failed.
  rewrite (download_run _ _ _ _ _ _ Hreal Hhead),
    (download_en_run _ _ _ _ _ _ Hreal Hhead).
  unfold try_except. rewrite !download_stream_cases. split.
  - intros [Hget|(r & Hget & Hstatus)]; rewrite Hget; [|rewrite Hstatus];
      (split; [reflexivity|]); cbn [is_RequestException exc_str];
      unfold bind, print, sys_exit; cbn [stdout files];
      rewrite <- !app_assoc; reflexivity.
  - intros r total (Hget & Hstatus & Hlen & Hmk & Hopen) Herr.
    rewrite Hget, Hstatus, Hlen, Hmk, Hopen, Herr.
    cbn [is_RequestException exc_str stdout files].
    unfold bind, print, sys_exit. cbn [stdout files].
    rewrite !app_nil_r, <- !app_assoc. split; reflexivity.
Qed.

Lemma download_request_failure_witness :
  let old := {| stdout := [];
                files := <[cps "out/downloaded_file.zip" := [Byte.x07]]> ∅ |} in
  (cpfrx_file_en.download
     (redirecting_env
        (Returns (status_page 404 (cps "Not Found")
                    (cps "https://cdn.example.com/stream/abc123"))))
     target_iso (cps "out") old).2
  = {| stdout :=
         [cps "Final direct link: https://cdn.example.com/stream/abc123"
          ++ [10%N];
          cps "Failed to download: 404 Client Error: Not Found for url: "
          ++ cps "https://cdn.example.com/stream/abc123" ++ [10%N]];
       files := <[cps "out/downloaded_file.zip" := [Byte.x07]]> ∅ |}
  /\ cpfrx_file_en.download
       (redirecting_env
          (Returns (cut_response three_bytes (cps "connection broken"))))
       target_iso (cps "out") old
     = (Exit 1,
        {| stdout :=
             [cps "Final direct link: https://cdn.example.com/stream/abc123"
              ++ [10%N];
              cps "Failed to download: connection broken" ++ [10%N]];
           files := <[cps "out/downloaded_file.zip"
                      := [Byte.x50; Byte.x4b; Byte.x03]]> ∅ |}).
Proof.
  intros old. split.
  - destruct (download_request_failure
                (redirecting_env
                   (Returns (status_page 404 (cps "Not Found")
                               (cps "https://cdn.example.com/stream/abc123"))))
                target_iso (cps "out") old
                (page (cps "https://cdn.example.com/stream/abc123") [])
                (cps "404 Client Error: Not Found for url: "
                 ++ cps "https://cdn.example.com/stream/abc123"))
      as [Hfail _].
    + exists cdn_link. split; reflexivity.
    + destruct Hfail as [_ Hen].
      * right. eexists. split; reflexivity.
      * rewrite Hen. reflexivity.
  - destruct (download_request_failure
                (redirecting_env
                   (Returns (cut_response three_bytes (cps "connection broken"))))
                target_iso (cps "out") old
                (page (cps "https://cdn.example.com/stream/abc123") [])
                (cps "connection broken"))
      as [_ Hcut].
    + exists cdn_link. split; reflexivity.
    + destruct (Hcut (cut_response three_bytes (cps "connection broken")) 0)
        as [_ Hen].
      * repeat split; reflexivity.
      * reflexivity.
      * rewrite Hen. vm_compute. reflexivity.
Defined.




(** ** The progress lines *)

Lemma progress_lines_counts (total : Z) (chunks : list bytes) :
  forall (done : Z) (line : str),
    0 <= done ->
    line ∈ progress_lines total done chunks ->
    exists d,
      done < d <= done + Z.of_nat (length (concat chunks))
      /\ line = progress_line d total.
Proof.
  induction chunks as [|chunk rest IH]; intros done line Hd Hin.
  - apply elem_of_nil in Hin. contradiction.
  - destruct chunk as [|b ch].
    + cbn [progress_lines concat app] in *. apply (IH done line Hd Hin).
    + cbn [progress_lines concat] in Hin |- *.
      rewrite length_app, Nat2Z.inj_add.
      set (n := Z.of_nat (length (b :: ch))) in *.
      assert (Hn : 0 < n) by (subst n; cbn [length]; lia).
      apply elem_of_app in Hin as [Hin|Hin].
      * destruct (total =? 0); [apply elem_of_nil in Hin; contradiction|].
        apply list_elem_of_singleton in Hin. exists (done + n).
        split; [lia|exact Hin].
      * destruct (IH (done + n) line ltac:(lia) Hin) as (d & Hd' & ->).
        exists d. split; [lia|reflexivity].
Qed.

Lemma progress_lines_last (total : Z) (chunks : list bytes) :
  total <> 0 -> concat chunks <> [] ->
  forall done,
    last (progress_lines total done chunks)
    = Some (progress_line (done + Z.of_nat (length (concat chunks))) total).
Proof.
  intros Ht. induction chunks as [|chunk rest IH]; intros Hne done;
    [contradiction|].
  destruct chunk as [|b ch].
  - cbn [progress_lines concat app] in *. apply IH, Hne.
  - cbn [progress_lines concat]. rewrite length_app, Nat2Z.inj_add.
    rewrite (proj2 (Z.eqb_neq total 0) Ht).
    destruct (concat rest) as [|x xs] eqn:Er.
    + assert (Hnil : forall d, progress_lines total d rest = []).
      { clear -Er Ht. induction rest as [|[|y ys] rest IH]; intros d;
          [reflexivity| |discriminate].
        cbn [progress_lines]. apply IH. exact Er. }
      rewrite Hnil. cbn [length app last]. rewrite Z.add_0_r. reflexivity.
    + rewrite last_app.
      rewrite (IH ltac:(discriminate)
                 (done + Z.of_nat (length (b :: ch)))).
      rewrite Z.add_assoc. reflexivity.
Qed.

(** X13.  The progress of a download whose content-length is right.  When
    the header gives the length of the body, every progress line reports a
    count between 1 and the total and a percentage between 0 and 100, and
    the last progress line, the one before the closing line, reads
    total/total and 100%. *)
Theorem complete_download_ends_at_100 (e : env)
    (completed real save_path : str) (st : state) (r : Response) (total : Z) :
  serves e real save_path r total ->
  0 < total ->
  Z.of_nat (length (concat (Requests.iter_content r))) = total ->
  Requests.iter_error r = None ->
  exists lines,
    stdout (download_stream e completed real save_path st).2
    = stdout st ++ lines
      ++ [[10%N] ++ completed ++ path_str e save_path ++ [10%N]]
    /\ last lines
       = Some ([13%N] ++ format_commas total ++ [slash] ++ format_commas total
               ++ cps "  100%")
    /\ forall line,
         line ∈ lines ->
         exists d,
           0 < d <= total /\ 0 <= d * 100 / total <= 100
           /\ line = [13%N] ++ format_commas d ++ [slash]
                     ++ format_commas total ++ cps "  "
                     ++ str_of_Z (d * 100 / total) ++ cps "%".
Proof.
  intros (Hget & Hstatus & Hlen & Hmk & Hopen) Hpos Hbody Herr.
  exists (progress_lines total 0 (Requests.iter_content r)).
  rewrite (download_stream_run _ _ _ _ _ _ _ Hget Hstatus Hlen Hmk Hopen), Herr.
  cbn [snd stdout]. split; [reflexivity|]. split.
  - rewrite progress_lines_last; [|lia|].
    + rewrite Hbody, Z.add_0_l. unfold progress_line.
      replace (total * 100 / total) with 100
        by (rewrite Z.mul_comm; symmetry; apply Z.div_mul; lia).
      reflexivity.
    + intros Hnil. rewrite Hnil in Hbody. cbn [length] in Hbody. lia.
  - intros line Hin.
    apply progress_lines_counts in Hin as (d & Hd & ->); [|lia].
    rewrite Hbody in Hd. exists d. split; [lia|]. split; [|reflexivity].
    split.
    + apply Z.div_pos; lia.
    + apply Z.div_le_upper_bound; lia.
Qed.

Lemma complete_download_ends_at_100_witness :
  let e := calm_env gateway_url body_all_rules
             (file_response (Some (cps "3")) three_bytes) in
  exists lines,
    stdout (download_stream e cpfrx_file.completed (cps "https://cdn/x")
              (cps "out") st0).2
    = lines ++ [[10%N] ++ cpfrx_file.completed ++ cps "out" ++ [10%N]]
    /\ last lines = Some ([13%N] ++ cps "3/3  100%").
Proof.
  intros e.
  destruct (complete_download_ends_at_100 e cpfrx_file.completed
              (cps "https://cdn/x") (cps "out") st0
              (file_response (Some (cps "3")) three_bytes) 3)
    as (lines & Hout & Hlast & _).
  - repeat split; reflexivity.
  - lia.
  - reflexivity.
  - reflexivity.
  - exists lines. split; [exact Hout|exact Hlast].
Defined.

(** ** Numbers as text *)

Lemma digits_of_acc (f : nat) :
  forall (n : N) (acc : str), digits_of f n acc = digits_of f n [] ++ acc.
Proof.
  induction f as [|f IH]; intros n acc; [reflexivity|].
  cbn [digits_of]. destruct (n <? 10)%N; [reflexivity|].
  rewrite (IH _ (_ :: acc)), (IH _ [_]), <- app_assoc. reflexivity.
Qed.

Lemma log2_tenth (n : N) : (10 <= n)%N -> (N.log2 (n / 10) < N.log2 n)%N.
Proof.
  intros Hn.
  assert (Ha : (0 < n / 10)%N) by (apply N.div_str_pos; lia).
  assert (H2 : (2 * (n / 10) <= n)%N).
  { pose proof (N.Div0.mul_div_le n 10). lia. }
  apply N.log2_le_mono in H2. rewrite N.log2_double in H2 by exact Ha. lia.
Qed.

Lemma digits_of_fuel (f1 : nat) :
  forall (f2 : nat) (n : N),
    (N.to_nat (N.log2 n) < f1)%nat -> (N.to_nat (N.log2 n) < f2)%nat ->
    digits_of f1 n [] = digits_of f2 n [].
Proof.
  induction f1 as [|f1 IH]; intros [|f2] n H1 H2; try lia.
  cbn [digits_of]. destruct (n <? 10)%N eqn:E; [reflexivity|].
  apply N.ltb_ge in E. pose proof (log2_tenth n E) as Hlog.
  rewrite (digits_of_acc f1), (digits_of_acc f2).
  rewrite (IH f2 (n / 10)%N) by lia. reflexivity.
Qed.

(** [str] of a number, digit by digit *)
Lemma str_of_N_small (n : N) : (n < 10)%N -> str_of_N n = [(48 + n)%N].
Proof.
  intros H. unfold str_of_N. cbn [digits_of].
  rewrite (proj2 (N.ltb_lt n 10) H), N.mod_small by exact H. reflexivity.
Qed.

Lemma str_of_N_step (n : N) :
  (10 <= n)%N -> str_of_N n = str_of_N (n / 10) ++ [(48 + n mod 10)%N].
Proof.
  intros H. unfold str_of_N at 1. cbn [digits_of].
  rewrite (proj2 (N.ltb_ge n 10) H), digits_of_acc. f_equal.
  pose proof (log2_tenth n H). apply digits_of_fuel; lia.
Qed.

Lemma N_digits_ind (P : N -> Prop) :
  (forall n, (n < 10)%N -> P n) ->
  (forall n, (10 <= n)%N -> P (n / 10)%N -> P n) ->
  forall n, P n.
Proof.
  intros Hsmall Hstep n.
  induction n as [n IH] using (well_founded_induction N.lt_wf_0).
  destruct (N.lt_ge_cases n 10) as [H|H]; [apply Hsmall, H|].
  apply Hstep; [exact H|]. apply IH. apply N.div_lt; lia.
Qed.

Lemma str_of_N_digits (n : N) :
  str_of_N n <> [] /\ forallb Urllib.is_digit (str_of_N n) = true.
Proof.
  induction n as [n H|n H [IH1 IH2]] using N_digits_ind.
  - rewrite (str_of_N_small n H). split; [discriminate|].
    cbn [forallb]. unfold Urllib.is_digit.
    rewrite andb_true_r. apply andb_true_iff.
    split; [apply N.leb_le|apply N.leb_le]; lia.
  - rewrite (str_of_N_step n H). split.
    + intros E. apply app_eq_nil in E as [_ E]. discriminate.
    + rewrite forallb_app, IH2. cbn [forallb andb]. unfold Urllib.is_digit.
      rewrite andb_true_r. apply andb_true_iff.
      pose proof (N.mod_upper_bound n 10 ltac:(lia)).
      pose proof (N.le_0_l (n mod 10)).
      split; [apply N.leb_le|apply N.leb_le]; lia.
Qed.









Lemma commas_3 (rs : str) : rs <> [] -> commas 3 rs = 44%N :: commas 0 rs.
Proof. destruct rs as [|d rs]; [contradiction|reflexivity]. Qed.

Lemma str_of_N_thousands (n : N) :
  (1000 <= n)%N -> str_of_N n = str_of_N (n / 1000) ++ last3 n.
Proof.
  intros H.
  assert (H1 : (10 <= n / 10)%N) by (apply N.div_le_lower_bound; lia).
  assert (H2 : (10 <= n / 10 / 10)%N)
    by (apply N.div_le_lower_bound; [lia|]; apply N.div_le_lower_bound; lia).
  rewrite (str_of_N_step n) by lia.
  rewrite (str_of_N_step (n / 10)) by exact H1.
  rewrite (str_of_N_step (n / 10 / 10)) by exact H2.
  rewrite !N.Div0.div_div. change (10 * 10)%N with 100%N.
  change (100 * 10)%N with 1000%N.
  rewrite <- !app_assoc. reflexivity.
Qed.

(** X15.  The thousands separators of a progress line.  [{:,}] leaves a
    number below 1000 as str writes it, and writes a larger one as its
    thousands, a comma, and its last three digits. *)
Theorem format_commas_groups (n : N) :
  ((n < 1000)%N -> format_commas (Z.of_N n) = str_of_N n)
  /\ ((1000 <= n)%N ->
      format_commas (Z.of_N n)
      = format_commas (Z.of_N (n / 1000)) ++ [44%N] ++ last3 n).
Proof.
  assert (Hnn : forall m, (Z.of_N m <? 0) = false)
    by (intros m; apply Z.ltb_ge; lia).
  unfold format_commas. rewrite !Hnn, !Zabs2N.id. split.
  - intros H.
    assert (Hlen : (length (rev (str_of_N n)) <= 3)%nat).
    { rewrite length_rev.
      destruct (N.lt_ge_cases n 10) as [H1|H1];
        [rewrite str_of_N_small by exact H1; cbn [length]; lia|].
      rewrite (str_of_N_step n H1), length_app. cbn [length].
      destruct (N.lt_ge_cases (n / 10) 10) as [H2|H2];
        [rewrite str_of_N_small by exact H2; cbn [length]; lia|].
      rewrite (str_of_N_step _ H2), length_app. cbn [length].
      rewrite str_of_N_small; [cbn [length]; lia|].
      rewrite N.Div0.div_div. apply N.Div0.div_lt_upper_bound. lia. }
    destruct (rev (str_of_N n)) as [|a [|b [|c [|d l]]]] eqn:E;
      cbn [length] in Hlen; try lia;
      cbn [commas]; rewrite <- E, rev_involutive; reflexivity.
  - intros H. rewrite (str_of_N_thousands n H), rev_app_distr.
    unfold last3 at 1. cbn [rev app commas].
    rewrite commas_3.
    + cbn [rev]. rewrite <- !app_assoc. reflexivity.
    + intros E. destruct (str_of_N_digits (n / 1000)) as [Hne _].
      apply Hne. rewrite <- (rev_involutive (str_of_N (n / 1000))), E.
      reflexivity.
Qed.

Lemma format_commas_groups_witness :
  format_commas 1234567 = cps "1,234,567"
  /\ format_commas 999 = cps "999".
Proof.
  destruct (format_commas_groups 1234567) as [_ H1].
  destruct (format_commas_groups 1234) as [_ H2].
  destruct (format_commas_groups 1) as [H3 _].
  destruct (format_commas_groups 999) as [H4 _].
  split.
  - change 1234567 with (Z.of_N 1234567). rewrite H1 by lia.
    change (1234567 / 1000)%N with 1234%N. rewrite H2 by lia.
    change (1234 / 1000)%N with 1%N. rewrite H3 by lia. reflexivity.
  - change 999 with (Z.of_N 999). rewrite H4 by lia. reflexivity.
Defined.

(** ** download, then unzip *)

(** X16.  unzip opens what download wrote.  After a download that returned,
    unzip finds the output file, so it cannot fail for want of it, and the
    bytes it hands to ZipFile are the body of the response, whole.  If
    ZipFile refuses them, cpfrx_file.py raises the BadZipFile and
    cpfrx_file_en.py exits with 1; if it accepts them, unzip ends as
    extractall does, with the files extractall left, and prints its line
    when extractall returns.  A BadZipFile out of extractall is the one
    exception cpfrx_file_en.py turns into an exit. *)
Theorem unzip_reads_the_download (e : env) (target local : str)
    (st st1 : state) :
  cpfrx_file.download e target local st = (Ok tt, st1)
  \/ cpfrx_file_en.download e target local st = (Ok tt, st1) ->
  exists r0 r total,
    link_found e target st r0
    /\ serves e (Requests.url r0) local r total
    /\ let body := concat (Requests.iter_content r) in
       let extracted := extractall e body local (files st1) in
       let st2 := {| stdout := stdout st1; files := extracted.2 |} in
       files st1 !! path_child e local (cps "downloaded_file.zip") = Some body
       /\ cpfrx_file.unzip e local st1
          = match ZipFile_rejects e body, extracted.1 with
            | Some msg, _ => (Raise (BadZipFile msg), st1)
            | None, Throws ex => (Raise ex, st2)
            | None, Returns _ =>
                (Ok tt,
                 {| stdout := stdout st1
                              ++ [[10%N] ++ cpfrx_file.unzipped ++ local
                                  ++ [10%N]];
                    files := extracted.2 |})
            end
       /\ cpfrx_file_en.unzip e local st1
          = match ZipFile_rejects e body, extracted.1 with
            | Some msg, _ =>
                (Exit 1,
                 {| stdout := stdout st1
                              ++ [cps "Failed to unzip: " ++ msg ++ [10%N]];
                    files := files st1 |})
            | None, Throws (BadZipFile msg) =>
                (Exit 1,
                 {| stdout := stdout st1
                              ++ [cps "Failed to unzip: " ++ msg ++ [10%N]];
                    files := extracted.2 |})
            | None, Throws ex => (Raise ex, st2)
            | None, Returns _ =>
                (Ok tt,
                 {| stdout := stdout st1
                              ++ [[10%N] ++ cps "Unzipped " ++ [8594; 32]%N
                                  ++ local ++ [10%N]];
                    files := extracted.2 |})
            end.
Proof.
  intros H. apply download_Ok_inv in H as (r0 & r & total & Hl & Hs & _ & Hf).
  exists r0, r, total. split; [exact Hl|]. split; [exact Hs|].
  intros body extracted st2.
  assert (Hfile : files st1
                    !! path_child e local (cps "downloaded_file.zip")
                  = Some body).
  { rewrite Hf. apply lookup_insert_eq. }
  split; [exact Hfile|].
  unfold cpfrx_file.unzip, cpfrx_file_en.unzip, try_except, bind,
    unzip_archive.
  rewrite Hfile. subst st2 extracted.
  destruct (ZipFile_rejects e body) as [msg|]; [split; reflexivity|].
  destruct (extractall e body local (files st1)) as [[[]|ex] fs];
    cbn [fst snd]; [split; reflexivity|].
  split; [reflexivity|]. destruct ex; reflexivity.
Qed.

Lemma unzip_reads_the_download_witness :
  let e := not_zip_env (cps "File is not a zip file") in
  exists st1,
    cpfrx_file.download e target_iso (cps "out") st0 = (Ok tt, st1)
    /\ files st1 !! cps "out/downloaded_file.zip"
       = Some [Byte.x50; Byte.x4b; Byte.x03]
    /\ cpfrx_file.unzip e (cps "out") st1
       = (Raise (BadZipFile (cps "File is not a zip file")), st1).
Proof.
  intros e.
  destruct (cpfrx_file.download e target_iso (cps "out") st0)
    as [[[]|ex|code] st1] eqn:E; vm_compute in E; try discriminate.
  destruct (unzip_reads_the_download e target_iso (cps "out") st0 st1)
    as (r0 & r & total & _ & _ & Hfile & Hzh & _); [left; exact E|].
  exists st1. split; [reflexivity|].
  injection E as <-. split; [reflexivity|].
  vm_compute. reflexivity.
Defined.

(** ** The two files side by side *)





















(** ** Rule (c) on a plain path *)

Lemma split_not_nil (c : N) (s : str) : Py.split c s <> [].
Proof.
  induction s as [|x s IH]; cbn [Py.split]; [discriminate|].
  destruct (x =? c)%N; [discriminate|].
  destruct (Py.split c s); discriminate.
Qed.

Lemma join_cons (sep a : str) (l : list str) :
  l <> [] -> Py.join sep (a :: l) = a ++ sep ++ Py.join sep l.
Proof. destruct l; [contradiction|reflexivity]. Qed.

(** [sep.join(s.split(sep))] is [s]. *)
Lemma join_split (c : N) (s : str) : Py.join [c] (Py.split c s) = s.
Proof.
  induction s as [|x s IH]; [reflexivity|]. cbn [Py.split].
  destruct (x =? c)%N eqn:E.
  - apply N.eqb_eq in E. subst x.
    rewrite join_cons by apply split_not_nil. rewrite IH. reflexivity.
  - pose proof (split_not_nil c s) as Hne.
    destruct (Py.split c s) as [|h t]; [contradiction|].
    destruct t as [|h' t].
    + cbn [Py.join] in *. rewrite IH. reflexivity.
    + rewrite join_cons by discriminate.
      rewrite join_cons in IH by discriminate. rewrite <- IH. reflexivity.
Qed.

Lemma resolve_no_dots (segs acc : list str) :
  forallb (fun seg => negb (Py.mem seg [cps "."; cps ".."])) segs = true ->
  fold_left Urllib.resolve_step segs acc = acc ++ segs.
Proof.
  revert acc. induction segs as [|seg segs IH]; intros acc H;
    [rewrite app_nil_r; reflexivity|].
  cbn [forallb] in H. apply andb_true_iff in H as [Hs H].
  cbn [fold_left]. rewrite IH by exact H.
  apply negb_true_iff in Hs. unfold Py.mem in Hs. cbn [existsb] in Hs.
  apply orb_false_iff in Hs as [H1 H2]. apply orb_false_iff in H2 as [H2 _].
  unfold Urllib.resolve_step. rewrite H1, H2, <- app_assoc. reflexivity.
Qed.

Lemma last_no_dots (segs : list str) :
  forallb (fun seg => negb (Py.mem seg [cps "."; cps ".."])) segs = true ->
  Py.mem (List.last segs []) [cps "."; cps ".."] = false.
Proof.
  induction segs as [|seg segs IH]; [reflexivity|].
  cbn [forallb]. intros H. apply andb_true_iff in H as [Hs H].
  destruct segs as [|seg' segs]; [apply negb_true_iff, Hs|].
  apply IH, H.
Qed.

Lemma path_char_cases (c : N) :
  path_char c = true ->
  safe_char c = true /\ c <> 35%N /\ c <> 63%N /\ c <> 59%N.
Proof.
  unfold path_char, safe_char. intros H. apply negb_true_iff in H.
  repeat (apply orb_false_iff in H as [H ?]).
  repeat match goal with
         | E : (_ =? _)%N = false |- _ => apply N.eqb_neq in E
         end.
  repeat split; try assumption.
  rewrite !andb_true_iff, !negb_true_iff, !N.eqb_neq. auto.
Qed.

Lemma find_char_absent (c : N) (s : str) :
  forallb (fun x => negb (x =? c)%N) s = true -> Py.find_char c s = None.
Proof.
  induction s as [|x s IH]; [reflexivity|]. cbn [forallb Py.find_char].
  intros H. apply andb_true_iff in H as [Hx H].
  apply negb_true_iff in Hx. rewrite Hx, (IH H). reflexivity.
Qed.

Lemma contains_char_absent (c : N) (s : str) :
  forallb (fun x => negb (x =? c)%N) s = true -> Py.contains_char c s = false.
Proof.
  induction s as [|x s IH]; [reflexivity|].
  cbn [forallb]. intros H. apply andb_true_iff in H as [Hx H].
  unfold Py.contains_char in *. cbn [existsb].
  rewrite (N.eqb_sym c x). apply negb_true_iff in Hx. rewrite Hx, (IH H).
  reflexivity.
Qed.

(** How a plain absolute path parses: it is all path. *)
Lemma urlparse_plain_path ck (c : N) (tl sch : str) :
  c <> slash ->
  forallb path_char (slash :: c :: tl) = true ->
  scheme_ok sch ->
  Urllib.urlparse ck (slash :: c :: tl) sch
  = Returns {| Urllib.scheme := sch; Urllib.netloc := [];
               Urllib.path := slash :: c :: tl;
               Urllib.params := []; Urllib.query := [];
               Urllib.fragment := [] |}.
Proof.
  intros Hns Hall (Hne & Halpha & Hchars & Hlow).
  set (H := slash :: c :: tl) in *.
  assert (Hsafe : forallb safe_char H = true).
  { revert Hall. apply forallb_impl. intros x Hx.
    apply path_char_cases, Hx. }
  assert (Hno : forall d, (d = 35 \/ d = 63 \/ d = 59)%N ->
                          forallb (fun x => negb (x =? d)%N) H = true).
  { intros d Hd. revert Hall. apply forallb_impl. intros x Hx.
    apply path_char_cases in Hx as (_ & H1 & H2 & H3).
    apply negb_true_iff, N.eqb_neq. destruct Hd as [->|[->| ->]]; assumption. }
  unfold Urllib.urlparse. rewrite urlsplit_unfold.
  rewrite lstrip_none by (vm_compute; reflexivity).
  rewrite remove_unsafe_filter, (filter_all _ _ Hsafe).
  rewrite (strip_scheme _ Hchars), (remove_unsafe_scheme _ Hchars).
  assert (Hs : Urllib.split_scheme H sch = (sch, H)).
  { subst H. unfold Urllib.split_scheme.
    change (Py.find_char 58 (slash :: c :: tl))
      with (S <$> Py.find_char 58 (c :: tl)).
    destruct (Py.find_char 58 (c :: tl)) as [i|]; reflexivity. }
  rewrite Hs. cbv iota. unfold Urllib.urlsplit_tail.
  assert (Hn : Py.startswith [slash; slash] H = false).
  { subst H. cbn [Py.startswith]. rewrite andb_true_r.
    change (slash =? slash)%N with true. cbn [andb].
    apply N.eqb_neq. congruence. }
  rewrite Hn, tail_finish.
  change (Urllib.checknetloc ck []) with (@None str). cbv iota.
  unfold Py.split_once.
  rewrite (find_char_absent 35 H (Hno _ (or_introl eq_refl))). cbn [fst snd].
  rewrite (find_char_absent 63 H (Hno _ (or_intror (or_introl eq_refl)))).
  cbn [fst snd Urllib.sr_scheme Urllib.sr_netloc Urllib.sr_path
       Urllib.sr_query Urllib.sr_fragment].
  rewrite (contains_char_absent 59 H
             (Hno _ (or_intror (or_intror eq_refl)))).
  rewrite andb_false_r. reflexivity.
Qed.

(** Joining a plain absolute path to an absolute base: the scheme and the
    authority of the base, then the path. *)
Lemma urljoin_plain_path ck (base : str) (c : N) (tl sch nl : str) :
  absolute_url ck base sch nl ->
  Py.mem sch Urllib.uses_relative = true ->
  c <> slash ->
  forallb path_char (slash :: c :: tl) = true ->
  dot_free (slash :: c :: tl) = true ->
  Urllib.urljoin ck base (slash :: c :: tl)
  = Returns (sch ++ cps "://" ++ nl ++ slash :: c :: tl).
Proof.
  intros Habs Hrel Hns Hall Hdots.
  pose proof Habs as (rb & Hb & Hbs & Hbn & Hs & Hn).
  assert (Hsch : scheme_ok sch).
  { rewrite <- Hbs. apply (urlsplit_scheme_ok ck base); [exact Hb|].
    rewrite Hbs. exact Hs. }
  destruct base as [|b0 base'].
  { exfalso. apply Hs. rewrite <- Hbs. rewrite urlsplit_unfold in Hb.
    apply tail_cases in Hb as (Hb & _). exact Hb. }
  destruct (urlparse_fields _ _ _ _ Hb) as (pb & Hpb & Hpbs & Hpbn).
  rewrite Hbs in Hpbs. rewrite Hbn in Hpbn.
  pose proof (urlparse_plain_path ck c tl sch Hns Hall Hsch) as Hpu.
  unfold Urllib.urljoin. rewrite Hpb, Hpbs, Hpu.
  cbn [Urllib.scheme Urllib.netloc Urllib.path Urllib.params Urllib.query
       Urllib.fragment].
  rewrite eqb_refl, Hrel, (relative_uses_netloc _ Hrel).
  cbn [negb orb andb Urllib.nonempty].
  change (Py.eqb (take 1 (slash :: c :: tl)) [slash]) with true. cbv iota.
  unfold dot_free in Hdots.
  rewrite (resolve_no_dots _ [] Hdots), (last_no_dots _ Hdots).
  cbn [app]. rewrite join_split. cbn [Urllib.nonempty].
  unfold Urllib.urlunparse, Urllib.urlunsplit.
  cbn [Urllib.scheme Urllib.netloc Urllib.path Urllib.params Urllib.query
       Urllib.fragment Urllib.nonempty].
  rewrite Hpbn, (nonempty_true _ Hn), (nonempty_true _ Hs).
  cbn [orb].
  change (Py.eqb (take 1 (slash :: c :: tl)) [slash]) with true.
  cbn [negb andb]. rewrite <- ?app_assoc. reflexivity.
Qed.

(** X18.  Rule (c) on a plain href.  When the href rule (c) settles on has
    no [?], [#] or [;], no tab or line break and no [.] or [..] segment,
    the link returned is the scheme and the authority of the response URL
    followed by the href, character for character: the anchor is taken to
    point into the gateway's own host. *)
Theorem anchor_link_is_origin_and_href (e : env) (target : str) (st : state)
    (resp : Response) (pre mid H sch nl : str) :
  reaches_rules e target st resp ->
  ~ present data_u_shape (Requests.text resp) ->
  ~ present location_shape (Requests.text resp) ->
  chosen_anchor (Requests.text resp) pre mid H ->
  forallb path_char H = true -> dot_free H = true ->
  absolute_url (url_checks e) (Requests.url resp) sch nl ->
  Py.mem sch Urllib.uses_relative = true ->
  cpfrx_file.get_real_url e target st
  = (Ok (sch ++ cps "://" ++ nl ++ H), st)
  /\ cpfrx_file_en.get_real_url e target st
     = (Ok (sch ++ cps "://" ++ nl ++ H), st).
Proof.
  intros Hr Ha Hb Hch Hplain Hdots Habs Hrel.
  assert (Hs : Re.search rule_anchor (Requests.text resp) = Some (Some H))
    by (apply search_anchor_chosen; exists pre, mid; exact Hch).
  rewrite (get_real_url_rules _ _ _ _ Hr), (get_real_url_en_rules _ _ _ _ Hr).
  rewrite !(extract_anchor _ _ _ _ _ Ha Hb Hs).
  destruct Hch as [(t & _ & (kind & rest & post & _ & _ & -> & Hk & _) & _) _].
  destruct (kind_head _ Hk) as (c & k & -> & _ & Hns).
  change ([slash] ++ (c :: k) ++ [slash] ++ rest)
    with (slash :: c :: k ++ [slash] ++ rest) in *.
  rewrite (urljoin_plain_path _ _ _ _ _ _ Habs Hrel Hns Hplain Hdots).
  split; reflexivity.
Qed.

Lemma anchor_link_is_origin_and_href_witness :
  cpfrx_file.get_real_url
    (calm_env gateway_url body_anchor (page [] [])) target_iso st0
  = (Ok (cps "https" ++ cps "://" ++ cps "www.a.cpfrx.info"
         ++ cps "/stream/abc123"), st0).
Proof.
  assert (Hs : Re.search rule_anchor body_anchor
               = Some (Some (cps "/stream/abc123")))
    by (vm_compute; reflexivity).
  apply search_anchor_chosen in Hs as (pre & mid & Hch).
  destruct (anchor_link_is_origin_and_href
              (calm_env gateway_url body_anchor (page [] []))
              target_iso st0 (page gateway_url body_anchor)
              pre mid (cps "/stream/abc123")
              (cps "https") (cps "www.a.cpfrx.info"))
    as [Hzh _].
  - exists (cps "tok"). split; vm_compute; reflexivity.
  - apply (search_absent _ _ match_data_u_sound match_data_u_complete).
    vm_compute. reflexivity.
  - apply (search_absent _ _ match_location_sound match_location_complete).
    vm_compute. reflexivity.
  - exact Hch.
  - vm_compute. reflexivity.
  - vm_compute. reflexivity.
  - eexists. split; [vm_compute; reflexivity|].
    split; [reflexivity|]. split; [reflexivity|]. split; discriminate.
  - vm_compute. reflexivity.
  - exact Hzh.
Defined.

(** X19.  Rule (b) on a plain absolute path.  When the target of the
    window.location.href assignment, unescaped, is a path that begins with
    one slash and has no [?], [#] or [;], no tab or line break and no [.]
    or [..] segment, the link returned is the scheme and the authority of
    the response URL followed by that path: the path of the response URL
    is dropped. *)
Theorem location_path_replaces_path (e : env) (target : str) (st : state)
    (resp : Response) (pre Y : str) (c : N) (tl sch nl : str) :
  reaches_rules e target st resp ->
  ~ present data_u_shape (Requests.text resp) ->
  leftmost location_shape (Requests.text resp) pre Y ->
  slashes_unescaped Y = slash :: c :: tl -> c <> slash ->
  forallb path_char (slash :: c :: tl) = true ->
  dot_free (slash :: c :: tl) = true ->
  absolute_url (url_checks e) (Requests.url resp) sch nl ->
  Py.mem sch Urllib.uses_relative = true ->
  cpfrx_file.get_real_url e target st
  = (Ok (sch ++ cps "://" ++ nl ++ slash :: c :: tl), st)
  /\ cpfrx_file_en.get_real_url e target st
     = (Ok (sch ++ cps "://" ++ nl ++ slash :: c :: tl), st).
Proof.
  intros Hr Ha HL HY Hns Hplain Hdots Habs Hrel.
  rewrite (get_real_url_rules _ _ _ _ Hr), (get_real_url_en_rules _ _ _ _ Hr).
  rewrite !(extract_location _ _ _ _ _ _ Ha HL), unescape_slash_spec, HY.
  rewrite (urljoin_plain_path _ _ _ _ _ _ Habs Hrel Hns Hplain Hdots).
  split; reflexivity.
Qed.

Lemma location_path_replaces_path_witness :
  cpfrx_file.get_real_url
    (calm_env gateway_url body_location (page [] [])) target_iso st0
  = (Ok (cps "https" ++ cps "://" ++ cps "www.a.cpfrx.info"
         ++ cps "/go/file.iso"), st0).
Proof.
  destruct (location_path_replaces_path
              (calm_env gateway_url body_location (page [] []))
              target_iso st0 (page gateway_url body_location)
              [] (cps "\/go\/file.iso") 103%N (cps "o/file.iso")
              (cps "https") (cps "www.a.cpfrx.info"))
    as [Hzh _].
  - exists (cps "tok"). split; vm_compute; reflexivity.
  - apply (search_absent _ _ match_data_u_sound match_data_u_complete).
    vm_compute. reflexivity.
  - apply leftmost_at_start. exists [32%N], [32%N]. eexists.
    split; [reflexivity|]. split; [reflexivity|]. split; [reflexivity|].
    apply not_char_all. vm_compute. reflexivity.
  - reflexivity.
  - discriminate.
  - vm_compute. reflexivity.
  - vm_compute. reflexivity.
  - eexists. split; [vm_compute; reflexivity|].
    split; [reflexivity|]. split; [reflexivity|]. split; discriminate.
  - vm_compute. reflexivity.
  - exact Hzh.
Defined.
